(** * Execution coach bot: user-context aggregation, fallback coaching and
      command handlers of [src/bot.py], embedded and verified.

    The development follows the layout of the source file:
    - Python values the code relies on ([str], [datetime], exceptions);
    - the five SQLAlchemy tables and the queries issued against them;
    - [DatabaseManager], [UserContext], [GeminiCoach], [ExecutionCoachBot];
    - the theorems, one group per component. *)

From Stdlib Require Import ZArith String Ascii List Lia Bool.
From Stdlib Require Import DecimalString DecimalFacts DecimalPos Sorted.
From stdpp Require Import base gmap sets list strings.

Local Open Scope string_scope.
Local Open Scope Z_scope.

(* ===================================================================== *)
(** ** Python strings *)
(* ===================================================================== *)

(** A [str] is modelled by its UTF-8 bytes.  Every keyword the bot looks
    for is ASCII, and a search for a valid UTF-8 needle in a valid UTF-8
    haystack finds the same occurrences on bytes as on code points.
    Case mapping and white space are the ASCII ones: the letters 'A'..'Z'
    and the control and space characters below U+0080.  Outside ASCII,
    Python lower-cases two code points onto text with an ASCII letter
    (U+212A to [k], U+0130 to [i] and U+0307) and strips further white
    space (U+0085, U+00A0, U+2028, ...); [ascii_case] and [ascii_ends]
    below delimit the strings on which [lower] and [strip] answer as
    Python does; the statements that say which keywords a message
    signals, or what is left of a hosted text, carry them as
    hypotheses. *)
Module PyStr.

(** [c.lower()] on the ASCII range: 'A'..'Z' move to 'a'..'z', every
    other byte is kept. *)
Definition lower_ascii (c : ascii) : ascii :=
  let n := N_of_ascii c in
  if ((65 <=? n) && (n <=? 90))%N then ascii_of_N (n + 32) else c.

(** [s.lower()] *)
Fixpoint lower (s : string) : string :=
  match s with
  | EmptyString => EmptyString
  | String c s' => String (lower_ascii c) (lower s')
  end.

(** [c.upper()] on the ASCII range. *)
Definition upper_ascii (c : ascii) : ascii :=
  let n := N_of_ascii c in
  if ((97 <=? n) && (n <=? 122))%N then ascii_of_N (n - 32) else c.

(** [s.upper()] *)
Fixpoint upper (s : string) : string :=
  match s with
  | EmptyString => EmptyString
  | String c s' => String (upper_ascii c) (upper s')
  end.

(** [w in s]: some suffix of [s] starts with [w]. *)
Fixpoint contains (w s : string) : bool :=
  String.prefix w s ||
  match s with
  | EmptyString => false
  | String _ s' => contains w s'
  end.

(** [any(word in s for word in words)] *)
Definition any_in (words : list string) (s : string) : bool :=
  existsb (fun word => contains word s) words.

(** [sep.join(parts)] *)
Fixpoint join (sep : string) (parts : list string) : string :=
  match parts with
  | [] => EmptyString
  | [p] => p
  | p :: rest => p +:+ sep +:+ join sep rest
  end.

(** The ASCII characters [str.strip()] removes: tab to carriage return,
    the four separators U+001C..U+001F, and the space. *)
Definition is_space (c : ascii) : bool :=
  let n := N_of_ascii c in
  (((9 <=? n) && (n <=? 13)) || ((28 <=? n) && (n <=? 32)))%N.

Fixpoint lstrip (s : string) : string :=
  match s with
  | EmptyString => EmptyString
  | String c s' => if is_space c then lstrip s' else s
  end.

Fixpoint rstrip (s : string) : string :=
  match s with
  | EmptyString => EmptyString
  | String c s' =>
      match rstrip s' with
      | EmptyString => if is_space c then EmptyString else String c EmptyString
      | r => String c r
      end
  end.

(** [s.strip()] *)
Definition strip (s : string) : string := rstrip (lstrip s).

(** U+212A KELVIN SIGN and U+0130 LATIN CAPITAL LETTER I WITH DOT ABOVE in
    UTF-8: the code points outside ASCII whose [lower()] holds an ASCII
    letter. *)
Definition KELVIN_SIGN : string :=
  String (ascii_of_N 226) (String (ascii_of_N 132) (String (ascii_of_N 170) EmptyString)).

Definition CAPITAL_I_WITH_DOT : string :=
  String (ascii_of_N 196) (String (ascii_of_N 176) EmptyString).

(** [s] holds neither of the two.  On such a string every ASCII letter of
    [s.lower()] comes from an ASCII character of [s], so an ASCII word is
    in [s.lower()] exactly when it is in [lower s]. *)
Definition ascii_case (s : string) : bool :=
  negb (contains KELVIN_SIGN s) && negb (contains CAPITAL_I_WITH_DOT s).

Definition is_ascii_char (c : ascii) : bool := (N_of_ascii c <? 128)%N.

Fixpoint last_char (s : string) : option ascii :=
  match s with
  | EmptyString => None
  | String c EmptyString => Some c
  | String _ s' => last_char s'
  end.

(** [s] is empty, or its first and its last character are ASCII.  When
    [strip s] is such a string, the white space Python knows outside
    ASCII is at neither end of what is left, and [s.strip()] is
    [strip s]. *)
Definition ascii_ends (s : string) : bool :=
  match s with
  | EmptyString => true
  | String c _ =>
      is_ascii_char c
      && match last_char s with
         | Some d => is_ascii_char d
         | None => true
         end
  end.

(** [str(n)] for an [int], as an f-string renders it. *)
Definition of_int (n : Z) : string := NilZero.string_of_int (Z.to_int n).

(** Truthiness of a string: [bool(s)]. *)
Definition truthy (s : string) : bool :=
  match s with
  | EmptyString => false
  | String _ _ => true
  end.

End PyStr.

(* ===================================================================== *)
(** ** Exceptions and results *)
(* ===================================================================== *)

(** The exceptions that can travel through the modelled code.  All of them
    derive from Python's [Exception], so every [except Exception] clause
    of the source catches each of them. *)
Inductive exn : Type :=
  | OverflowError                (* date arithmetic leaves [date.min .. date.max] *)
  | KeyError (key : string)      (* [d[key]] on a dict without [key] *)
  | AttributeError               (* attribute access on [None] *)
  | DetachedInstanceError        (* expired attribute of an object whose session is closed *)
  | ServiceError (msg : string). (* raised by an external service call *)

(** What a call that may raise leaves: its value, or the exception. *)
Inductive result (A : Type) : Type :=
  | Ok (a : A)
  | Raise (e : exn).
Arguments Ok {A} a.
Arguments Raise {A} e.

Definition bind {A B} (r : result A) (k : A -> result B) : result B :=
  match r with
  | Ok a => k a
  | Raise e => Raise e
  end.

Notation "x <- r ;; k" := (bind r (fun x => k))
  (at level 100, r at next level, right associativity).

(* ===================================================================== *)
(** ** Dates and clocks *)
(* ===================================================================== *)

(** A naive [datetime] is the number of microseconds since [datetime.min]
    (0001-01-01 00:00:00); a [date] is its proleptic Gregorian ordinal, so
    [date.min] has ordinal 1, as [date.toordinal()] gives it.  The code
    only ever steps back in time, so the upper end of the range
    ([date.max]) is never reached from a clock reading. *)
Abbreviation datetime := Z (only parsing).
Abbreviation date := Z (only parsing).

Definition US_PER_DAY : Z := 86400000000.
Definition date_min : date := 1.

(** [dt.date()] *)
Definition dt_date (dt : datetime) : date := dt / US_PER_DAY + 1.

(** [d - timedelta(days=n)]: raises [OverflowError] below [date.min]. *)
Definition date_sub_days (d : date) (n : Z) : result date :=
  if d - n <? date_min then Raise OverflowError else Ok (d - n).

(** [dt - timedelta(days=n)]: raises [OverflowError] below [datetime.min]. *)
Definition datetime_sub_days (dt : datetime) (n : Z) : result datetime :=
  if dt - n * US_PER_DAY <? 0 then Raise OverflowError else Ok (dt - n * US_PER_DAY).

(** [(a - b).days]: a [timedelta] is normalised with a floor division. *)
Definition delta_days (a b : datetime) : Z := (a - b) / US_PER_DAY.

(** The two readings of the wall clock at one instant:
    [datetime.utcnow()] and [datetime.now()], the latter in the time zone
    of the process.  A modelled method or handler reads the clock at the
    instant it is called with. *)
Record Clock : Type := { utcnow : datetime; now : datetime }.

(* ===================================================================== *)
(** ** Database models *)
(* ===================================================================== *)

(** One module per SQLAlchemy model; [t] is a row.  Nullable columns the
    code leaves unset are [option]s; columns with a default hold it. *)

Module User.
Record t : Type := {
  id : Z;
  telegram_id : Z;
  username : option string;
  first_name : string;
  current_business_idea : option string;
  execution_phase : string;        (* planning, validation, mvp, traction *)
  created_at : datetime;
  timezone : string;
  preferred_checkin_time : string;
  total_activities : Z;
  last_active : datetime
}.
End User.

Module Goal.
Record t : Type := {
  id : Z;
  user_id : Z;
  title : string;
  description : option string;
  target_date : option datetime;
  status : string;                 (* active, completed, paused *)
  created_at : datetime;
  goal_type : option string;
  priority : Z
}.
End Goal.

Module Activity.
Record t : Type := {
  id : Z;
  user_id : Z;
  goal_id : option Z;
  description : string;
  activity_type : string;
  timestamp : datetime;            (* default=datetime.utcnow *)
  mood_score : option Z;
  notes : option string;
  context_tags : option string
}.
End Activity.

Module Progress.
Record t : Type := {
  id : Z;
  user_id : Z;
  metric_name : option string;
  metric_value : option Z;         (* Float column, kept as the bits of the double *)
  date_recorded : datetime;
  notes : option string
}.
End Progress.

Module Conversation.
Record t : Type := {
  id : Z;
  user_id : Z;
  message_text : string;
  bot_response : string;
  context_tags : string;
  timestamp : datetime;
  response_type : string           (* gemini, fallback, command *)
}.
End Conversation.

(** The store: one list per table, rows in insertion order. *)
Record Database : Type := {
  users : list User.t;
  goals : list Goal.t;
  activities : list Activity.t;
  progress : list Progress.t;
  conversations : list Conversation.t
}.

(** The schema [Base.metadata.create_all] builds: five empty tables. *)
Definition empty_db : Database :=
  {| users := []; goals := []; activities := []; progress := []; conversations := [] |}.

(** The autoincrement primary key of the next row of a table that never
    loses a row. *)
Definition next_id {A} (table : list A) : Z := Z.of_nat (length table) + 1.

(* --------------------------------------------------------------------- *)
(** *** Query combinators *)
(* --------------------------------------------------------------------- *)

(** [ORDER BY key DESC]; rows with equal keys keep their insertion order. *)
Fixpoint insert_desc {A} (key : A -> Z) (x : A) (sorted : list A) : list A :=
  match sorted with
  | [] => [x]
  | y :: rest => if key x <? key y then y :: insert_desc key x rest else x :: sorted
  end.

Definition order_by_desc {A} (key : A -> Z) (rows : list A) : list A :=
  fold_right (insert_desc key) [] rows.

(** [.limit(n).all()] *)
Definition limit {A} (n : nat) (rows : list A) : list A := firstn n rows.

(** [.first()] *)
Definition first {A} (rows : list A) : option A := head rows.

(** [session.query(User).filter_by(telegram_id=uid)] *)
Definition users_by_telegram_id (db : Database) (uid : Z) : list User.t :=
  List.filter (fun u => User.telegram_id u =? uid) (users db).

(** [session.query(Activity).filter_by(user_id=uid)] *)
Definition activities_of (db : Database) (uid : Z) : list Activity.t :=
  List.filter (fun a => Activity.user_id a =? uid) (activities db).

(** Attribute writes on the row a [.first()] query returned, followed by
    [session.commit()]: the first matching row is replaced. *)
Fixpoint update_first {A} (p : A -> bool) (f : A -> A) (rows : list A) : list A :=
  match rows with
  | [] => []
  | r :: rest => if p r then f r :: rest else r :: update_first p f rest
  end.

Definition set_users (db : Database) (us : list User.t) : Database :=
  {| users := us; goals := goals db; activities := activities db;
     progress := progress db; conversations := conversations db |}.

Definition add_activity (db : Database) (a : Activity.t) : Database :=
  {| users := users db; goals := goals db; activities := activities db ++ [a];
     progress := progress db; conversations := conversations db |}.

Definition add_goal (db : Database) (g : Goal.t) : Database :=
  {| users := users db; goals := goals db ++ [g]; activities := activities db;
     progress := progress db; conversations := conversations db |}.

Definition add_conversation (db : Database) (c : Conversation.t) : Database :=
  {| users := users db; goals := goals db; activities := activities db;
     progress := progress db; conversations := conversations db ++ [c] |}.

(* ===================================================================== *)
(** ** DatabaseManager *)
(* ===================================================================== *)

(** [update.effective_user] *)
Module TelegramUser.
Record t : Type := { id : Z; username : option string; first_name : string }.
End TelegramUser.

(** The row [User(telegram_id=..., username=..., first_name=...)] becomes
    on insert, every other column at its default. *)
Definition new_user (db : Database) (clk : Clock) (tu : TelegramUser.t) : User.t :=
  {| User.id := next_id (users db);
     User.telegram_id := TelegramUser.id tu;
     User.username := TelegramUser.username tu;
     User.first_name := TelegramUser.first_name tu;
     User.current_business_idea := None;
     User.execution_phase := "planning";
     User.created_at := utcnow clk;
     User.timezone := "UTC";
     User.preferred_checkin_time := "18:00";
     User.total_activities := 0;
     User.last_active := utcnow clk |}.

(** [user.last_active = datetime.utcnow()] *)
Definition touch (clk : Clock) (u : User.t) : User.t :=
  {| User.id := User.id u; User.telegram_id := User.telegram_id u;
     User.username := User.username u; User.first_name := User.first_name u;
     User.current_business_idea := User.current_business_idea u;
     User.execution_phase := User.execution_phase u;
     User.created_at := User.created_at u; User.timezone := User.timezone u;
     User.preferred_checkin_time := User.preferred_checkin_time u;
     User.total_activities := User.total_activities u;
     User.last_active := utcnow clk |}.

(** An ORM object after the session that produced it is closed: its
    attributes are loaded, or they were expired by a [commit] and reading
    one raises. *)
Inductive Detached (A : Type) : Type :=
  | Loaded (row : A)
  | Expired.
Arguments Loaded {A} row.
Arguments Expired {A}.

(** [obj.field] *)
Definition attribute {A B} (field : A -> B) (obj : Detached A) : result B :=
  match obj with
  | Loaded row => Ok (field row)
  | Expired => Raise DetachedInstanceError
  end.

(** [DatabaseManager.get_or_create_user].  The sessions are made by
    [sessionmaker(bind=...)], which expires every object on [commit]: a
    new user is refreshed after the commit and comes back loaded; an
    existing user is committed and not refreshed, and comes back expired
    once [finally] has closed the session. *)
Definition get_or_create_user (db : Database) (clk : Clock) (telegram_user : TelegramUser.t)
  : Database * Detached User.t :=
  match first (users_by_telegram_id db (TelegramUser.id telegram_user)) with
  | None =>
      let user := new_user db clk telegram_user in
      (set_users db (users db ++ [user]), Loaded user)
  | Some user =>
      (set_users db
         (update_first (fun u => User.telegram_id u =? TelegramUser.id telegram_user)
            (touch clk) (users db)),
       Expired)
  end.

(* ===================================================================== *)
(** ** UserContext *)
(* ===================================================================== *)

(** The dict [get_user_data] builds has exactly these nine keys. *)
Module Ctx.
Record t : Type := {
  user : User.t;
  recent_activities : list Activity.t;
  active_goals : list Goal.t;
  recent_conversations : list Conversation.t;
  last_checkin : option datetime;
  current_streak : Z;
  execution_phase : string;
  total_activities : Z;
  days_since_start : Z
}.
End Ctx.

(** A context dict is either [{}] or the nine-key dict. *)
Inductive Dict : Type :=
  | EmptyDict
  | ContextDict (d : Ctx.t).

(** [d.get(key, default)] for the key projected by [field]. *)
Definition dict_get {A} (field : Ctx.t -> A) (default : A) (d : Dict) : A :=
  match d with
  | EmptyDict => default
  | ContextDict c => field c
  end.

(** [d.get('user')]: [None] when the key is absent. *)
Definition dict_get_user (d : Dict) : option User.t :=
  match d with
  | EmptyDict => None
  | ContextDict c => Some (Ctx.user c)
  end.

(** [d[key]]: raises [KeyError] when the key is absent. *)
Definition dict_item {A} (field : Ctx.t -> A) (key : string) (d : Dict) : result A :=
  match d with
  | EmptyDict => Raise (KeyError key)
  | ContextDict c => Ok (field c)
  end.

(** A [UserContext] object: the user it is about and its private cache
    [_user_data], which is [None] or the dict of the last aggregation.
    The [DatabaseManager] it shares with the bot is the [Database] the
    methods take and return. *)
Record UserContext : Type := {
  user_id : Z;
  _user_data : option Dict
}.

(** [UserContext(self.db, user_id)] *)
Definition UserContext_init (uid : Z) : UserContext :=
  {| user_id := uid; _user_data := None |}.

(** [UserContext.get_last_checkin] *)
Definition get_last_checkin (db : Database) (self : UserContext) : option datetime :=
  match first (order_by_desc Activity.timestamp (activities_of db (user_id self))) with
  | Some last_activity => Some (Activity.timestamp last_activity)
  | None => None
  end.

(** The [while check_date in activity_dates] loop of [calculate_streak].
    [room] is the number of days between [check_date] and [date.min]: the
    loop steps one day back per round, and with no room left
    [check_date - timedelta(days=1)] raises [OverflowError]. *)
Fixpoint streak_walk (room : nat) (activity_dates : gset Z) (check_date : date) (streak : Z)
  : result Z :=
  if bool_decide (check_date ∈ activity_dates) then
    match room with
    | O => Raise OverflowError
    | S room' => streak_walk room' activity_dates (check_date - 1) (streak + 1)
    end
  else Ok streak.

Definition streak_loop (activity_dates : gset Z) (check_date : date) (streak : Z) : result Z :=
  streak_walk (Z.to_nat (check_date - date_min)) activity_dates check_date streak.

(** The [for activity in activities: activity_dates.add(...)] loop. *)
Definition collect_dates (acts : list Activity.t) : gset Z :=
  fold_left (fun activity_dates activity =>
               activity_dates ∪ {[ dt_date (Activity.timestamp activity) ]})
            acts ∅.

(** [UserContext.calculate_streak] *)
Definition calculate_streak (db : Database) (clk : Clock) (self : UserContext) : result Z :=
  let acts := order_by_desc Activity.timestamp (activities_of db (user_id self)) in
  match acts with
  | [] => Ok 0
  | _ =>
      let streak := 0 in
      let current_date := dt_date (now clk) in
      let activity_dates := collect_dates acts in
      let check_date := current_date in
      streak_loop activity_dates check_date streak
  end.

(** [UserContext.get_user_data] *)
Definition get_user_data (db : Database) (clk : Clock) (self : UserContext)
  : result (Dict * UserContext) :=
  match _user_data self with
  | Some cached => Ok (cached, self)
  | None =>
      match first (users_by_telegram_id db (user_id self)) with
      | None => Ok (EmptyDict, self)
      | Some user =>
          let recent_activities :=
            limit 20 (order_by_desc Activity.timestamp (activities_of db (user_id self))) in
          let active_goals :=
            order_by_desc Goal.priority
              (List.filter (fun g => (Goal.user_id g =? user_id self)
                                     && String.eqb (Goal.status g) "active")
                 (goals db)) in
          let recent_conversations :=
            limit 10 (order_by_desc Conversation.timestamp
                        (List.filter (fun c => Conversation.user_id c =? user_id self)
                           (conversations db))) in
          streak <- calculate_streak db clk self ;;
          let data := ContextDict
            {| Ctx.user := user;
               Ctx.recent_activities := recent_activities;
               Ctx.active_goals := active_goals;
               Ctx.recent_conversations := recent_conversations;
               Ctx.last_checkin := get_last_checkin db self;
               Ctx.current_streak := streak;
               Ctx.execution_phase := User.execution_phase user;
               Ctx.total_activities := User.total_activities user;
               Ctx.days_since_start := delta_days (utcnow clk) (User.created_at user) |} in
          Ok (data, {| user_id := user_id self; _user_data := Some data |})
      end
  end.

(** [user.total_activities = (user.total_activities or 0) + 1;
     user.last_active = datetime.utcnow()] *)
Definition count_activity (clk : Clock) (u : User.t) : User.t :=
  {| User.id := User.id u; User.telegram_id := User.telegram_id u;
     User.username := User.username u; User.first_name := User.first_name u;
     User.current_business_idea := User.current_business_idea u;
     User.execution_phase := User.execution_phase u;
     User.created_at := User.created_at u; User.timezone := User.timezone u;
     User.preferred_checkin_time := User.preferred_checkin_time u;
     User.total_activities := User.total_activities u + 1;
     User.last_active := utcnow clk |}.

(** [UserContext.log_activity]: the row is added whether or not a [User]
    row exists; the counter is updated only [if user]; the cache is reset. *)
Definition log_activity (db : Database) (clk : Clock) (self : UserContext)
    (description activity_type : string)
    (mood_score : option Z) (notes context_tags : option string)
  : Database * UserContext :=
  let activity :=
    {| Activity.id := next_id (activities db);
       Activity.user_id := user_id self;
       Activity.goal_id := None;
       Activity.description := description;
       Activity.activity_type := activity_type;
       Activity.timestamp := utcnow clk;
       Activity.mood_score := mood_score;
       Activity.notes := notes;
       Activity.context_tags := context_tags |} in
  let db := add_activity db activity in
  let db :=
    match first (users_by_telegram_id db (user_id self)) with
    | Some _ =>
        set_users db
          (update_first (fun u => User.telegram_id u =? user_id self)
             (count_activity clk) (users db))
    | None => db
    end in
  (db, {| user_id := user_id self; _user_data := None |}).

(* ===================================================================== *)
(** ** GeminiCoach *)
(* ===================================================================== *)

(** What reading [response.text] gives: a string, [None], or an exception
    raised by the property. *)
Inductive Response : Type :=
  | Text (text : option string)
  | TextRaises (e : exn).

Definition response_text (r : Response) : result (option string) :=
  match r with
  | Text t => Ok t
  | TextRaises e => Raise e
  end.

(** The hosted model: [generate_content prompt] raises, returns [None], or
    returns a response object.  It is the one external call of the coach,
    so its behaviour is a parameter of every statement about the coach. *)
Record GenerativeModel : Type := {
  generate_content : string -> result (option Response)
}.

(** The attributes of a [GeminiCoach].  The three persona blocks are the
    literals [load_specialized_prompts] assigns; no statement below reads
    into them, so they stay fields. *)
Record GeminiCoach : Type := {
  api_key : option string;
  enabled : bool;
  model : option GenerativeModel;
  business_ideas_prompt : string;
  market_research_prompt : string;
  execution_coach_prompt : string
}.

(** [GeminiCoach.__init__]: enabled exactly when a non-empty key is given
    and configuring the client does not raise. *)
Definition GeminiCoach_init (key : option string) (configure : result GenerativeModel)
    (ideas research coach : string) : GeminiCoach :=
  let off := {| api_key := key; enabled := false; model := None;
                business_ideas_prompt := ideas; market_research_prompt := research;
                execution_coach_prompt := coach |} in
  match key with
  | Some k =>
      if PyStr.truthy k then
        match configure with
        | Ok m => {| api_key := key; enabled := true; model := Some m;
                     business_ideas_prompt := ideas; market_research_prompt := research;
                     execution_coach_prompt := coach |}
        | Raise _ => off
        end
      else off
  | None => off
  end.

Definition nl : string := String (ascii_of_nat 10) EmptyString.
Definition dquote : string := String (ascii_of_nat 34) EmptyString.

(** [user.first_name if user else default] *)
Definition first_name_or (default : string) (user : option User.t) : string :=
  match user with
  | Some u => User.first_name u
  | None => default
  end.

(** The four f-strings of [fallback_response], each a function of the
    values it interpolates. *)
Definition procrastination_reply (user : option User.t) (streak : Z) (phase : string) : string :=
  "I see you're feeling stuck, " +:+ first_name_or "friend" user +:+ ". Your "
  +:+ PyStr.of_int streak
  +:+ "-day streak shows you CAN take action! Let's break this down: what's the smallest possible step you could take in the next 5 minutes? Even tiny progress in the "
  +:+ phase +:+ " phase builds momentum. 🚀".

Definition impatience_reply (streak : Z) (phase : string) : string :=
  "I understand the frustration! In the " +:+ phase
  +:+ " phase, most solo entrepreneurs need 3-6 months to see real results. Your "
  +:+ PyStr.of_int streak
  +:+ "-day action streak is exactly how success builds - one step at a time. What would count as progress in the next 7 days? 📈".

Definition celebration_reply (streak : Z) (phase : string) : string :=
  "🎉 Amazing work! That's day " +:+ PyStr.of_int (streak + 1)
  +:+ " of taking action. This is exactly how momentum builds in the " +:+ phase
  +:+ " phase. What felt good about completing that? And what's the next small step to keep this energy going? 💪".

Definition general_reply (user : option User.t) (streak : Z) (phase : string) : string :=
  "I'm here to help you execute, " +:+ first_name_or "friend" user
  +:+ "! You're in the " +:+ phase +:+ " phase with a " +:+ PyStr.of_int streak
  +:+ "-day action streak. What's on your mind? Use /stuck if you're procrastinating, /win to celebrate progress, or just tell me what you're working on! 🎯".

(** [GeminiCoach.fallback_response] *)
Definition fallback_response (message : string) (context_data : Dict) : string :=
  let user := dict_get_user context_data in
  let streak := dict_get Ctx.current_streak 0 context_data in
  let phase := dict_get Ctx.execution_phase "planning" context_data in
  let message_lower := PyStr.lower message in
  (* Procrastination responses *)
  if PyStr.any_in ["procrastinating"; "avoiding"; "stuck"; "overwhelmed"; "can't start"]
       message_lower then
    procrastination_reply user streak phase
  (* Impatience responses *)
  else if PyStr.any_in ["slow"; "not working"; "no results"; "giving up"; "frustrated"]
            message_lower then
    impatience_reply streak phase
  (* Celebration responses *)
  else if PyStr.any_in ["completed"; "finished"; "done"; "achieved"; "launched"; "win"]
            message_lower then
    celebration_reply streak phase
  (* General coaching *)
  else general_reply user streak phase.

Section Coaching.

(** [str(dt)] for a [DateTime] column, Python's rendering of a naive
    [datetime]; the prompt shows a goal's due date with it. *)
Variable datetime_str : datetime -> string.

Definition optional_datetime_str (d : option datetime) : string :=
  match d with
  | Some dt => datetime_str dt
  | None => "None"
  end.

(** [GeminiCoach.create_coaching_prompt] *)
Definition create_coaching_prompt (self : GeminiCoach) (message : string) (context_data : Dict)
  : string :=
  let user := dict_get_user context_data in
  let recent_activities := dict_get Ctx.recent_activities [] context_data in
  let active_goals := dict_get Ctx.active_goals [] context_data in
  let streak := dict_get Ctx.current_streak 0 context_data in
  let phase := dict_get Ctx.execution_phase "planning" context_data in
  let total_activities := dict_get Ctx.total_activities 0 context_data in
  let days_since_start := dict_get Ctx.days_since_start 0 context_data in
  let activities_summary :=
    match recent_activities with
    | [] => EmptyString
    | _ =>
        fold_left
          (fun summary activity =>
             summary +:+ "- " +:+ Activity.description activity +:+ " ("
             +:+ Activity.activity_type activity +:+ ")" +:+ nl)
          (firstn 5 recent_activities) ("Recent activities:" +:+ nl)
    end in
  let goals_summary :=
    match active_goals with
    | [] => EmptyString
    | _ =>
        fold_left
          (fun summary goal =>
             summary +:+ "- " +:+ Goal.title goal +:+ " (due: "
             +:+ optional_datetime_str (Goal.target_date goal) +:+ ")" +:+ nl)
          active_goals ("Current goals:" +:+ nl)
    end in
  let business_context :=
    match user with
    | Some u =>
        match User.current_business_idea u with
        | Some idea =>
            if PyStr.truthy idea then "Business idea: " +:+ idea
            else "No business idea set yet"
        | None => "No business idea set yet"
        end
    | None => "No business idea set yet"
    end in
  nl +:+ execution_coach_prompt self +:+ "

## USER CONTEXT:
- Name: " +:+ first_name_or "User" user +:+ "
- " +:+ business_context +:+ "
- Execution phase: " +:+ phase +:+ "
- Days using coach: " +:+ PyStr.of_int days_since_start +:+ "
- Current streak: " +:+ PyStr.of_int streak +:+ " days
- Total actions taken: " +:+ PyStr.of_int total_activities +:+ "

" +:+ activities_summary +:+ "

" +:+ goals_summary +:+ "

## USER MESSAGE: " +:+ dquote +:+ message +:+ dquote +:+ "

## COACHING GUIDELINES:
- Be encouraging but realistic
- Reference their specific history and patterns
- Give concrete, actionable advice
- Keep responses under 200 words
- Use emojis sparingly but effectively
- Address their specific challenges (procrastination, impatience, resource constraints)
- Acknowledge progress and patterns you notice
- If they're stuck, suggest a 5-minute micro-action
- If they're impatient, remind them of realistic timelines for solo entrepreneurs
- If they achieved something, celebrate and ask what they learned

Provide a personalized coaching response that shows you understand their journey and current situation.
        ".

(** The body of the [try] block of [generate_response]: [Ok (Some text)]
    when the [if response and response.text] branch returns, [Ok None]
    when its [else] branch is taken, [Raise e] when anything raises. *)
Definition try_generate (self : GeminiCoach) (message : string) (context_data : Dict)
  : result (option string) :=
  let prompt := create_coaching_prompt self message context_data in
  m <- match model self with
       | Some m => Ok m
       | None => Raise AttributeError
       end ;;
  response <- generate_content m prompt ;;
  match response with
  | None => Ok None
  | Some r =>
      text <- response_text r ;;
      match text with
      | Some t => if PyStr.truthy t then Ok (Some (PyStr.strip t)) else Ok None
      | None => Ok None
      end
  end.

(** [GeminiCoach.generate_response] *)
Definition generate_response (self : GeminiCoach) (message : string) (context_data : Dict)
  : string :=
  if negb (enabled self) then fallback_response message context_data
  else
    match try_generate self message context_data with
    | Ok (Some response_text) => response_text
    | Ok None => fallback_response message context_data
    | Raise _ => fallback_response message context_data
    end.

(* ===================================================================== *)
(** ** ExecutionCoachBot *)
(* ===================================================================== *)

(** The parts of a Telegram [Update] and of the callback context the
    handlers read: the sender, the message text, the command arguments. *)
Record Update : Type := {
  effective_user : TelegramUser.t;
  message_text : string;
  args : list string
}.

(** A bot: its coach and the Telegram send call of the scheduled sweeps,
    which may raise for any chat. *)
Record ExecutionCoachBot : Type := {
  gemini_coach : GeminiCoach;
  send_message : Z -> string -> result unit
}.

(** What a handler leaves behind: the store, with every write committed
    before an exception kept, and either the texts passed to
    [update.message.reply_text], in order, or the exception that left the
    handler. *)
Definition Handled : Type := (Database * result (list string))%type.

(** [ExecutionCoachBot.analyze_message_context] *)
Definition analyze_message_context (message : string) : string :=
  let message_lower := PyStr.lower message in
  let tags : list string := [] in
  let tags :=
    if PyStr.any_in ["procrastinating"; "avoiding"; "stuck"; "overwhelmed"] message_lower
    then (tags ++ ["procrastination"])%list else tags in
  let tags :=
    if PyStr.any_in ["slow"; "frustrated"; "no results"; "impatient"] message_lower
    then (tags ++ ["impatience"])%list else tags in
  let tags :=
    if PyStr.any_in ["completed"; "finished"; "done"; "win"; "success"] message_lower
    then (tags ++ ["win"])%list else tags in
  let tags :=
    if PyStr.any_in ["customer"; "client"; "user"; "sale"] message_lower
    then (tags ++ ["customer_related"])%list else tags in
  let tags :=
    if PyStr.any_in ["money"; "revenue"; "funding"; "investment"] message_lower
    then (tags ++ ["financial"])%list else tags in
  match tags with
  | [] => "general"
  | _ => PyStr.join "," tags
  end.

(** [ExecutionCoachBot.start_command]: [user.first_name] is read after
    [get_or_create_user] has closed its session. *)
Definition start_command (db : Database) (clk : Clock) (update : Update) : Handled :=
  let '(db, user) := get_or_create_user db clk (effective_user update) in
  (db,
   first_name <- attribute User.first_name user ;;
   let welcome_msg :=
    "
🚀 Welcome to your AI Execution Coach, " +:+ first_name +:+ "!

I'm powered by advanced AI and have **3 specialized modes** to help you succeed as a solo entrepreneur:

**🎯 EXECUTION COACH** (Default Mode)
• Daily accountability and check-ins  
• Breaking down overwhelming tasks into 5-minute actions
• Celebrating wins and building streaks
• Managing expectations with realistic timelines
• Getting unstuck when procrastinating

**💡 BUSINESS IDEAS GENERATOR**
• Creative, viable business concepts
• Market opportunity analysis
• Implementation roadmaps

**📊 MARKET RESEARCHER**  
• Competitive analysis
• Industry insights
• Customer research

**Quick Setup Commands:**
/idea - Set your current business idea
/phase - Set execution phase (planning/validation/mvp/traction)  
/goal - Set a goal with deadline

**Daily Commands:**
/stuck - Get immediate help when procrastinating
/win - Log any victory to build momentum
/progress - See your streaks and patterns
/plan - Weekly planning session

**Specialized Agents:**
/ideas - Generate creative business ideas
/research [topic] - Conduct market research
/modes - See all available agent modes

Let's start! What's your current business idea or project?
        " in
   Ok [welcome_msg]).

Definition with_idea (idea : string) (u : User.t) : User.t :=
  {| User.id := User.id u; User.telegram_id := User.telegram_id u;
     User.username := User.username u; User.first_name := User.first_name u;
     User.current_business_idea := Some idea;
     User.execution_phase := User.execution_phase u;
     User.created_at := User.created_at u; User.timezone := User.timezone u;
     User.preferred_checkin_time := User.preferred_checkin_time u;
     User.total_activities := User.total_activities u;
     User.last_active := User.last_active u |}.

Definition with_phase (phase : string) (u : User.t) : User.t :=
  {| User.id := User.id u; User.telegram_id := User.telegram_id u;
     User.username := User.username u; User.first_name := User.first_name u;
     User.current_business_idea := User.current_business_idea u;
     User.execution_phase := phase;
     User.created_at := User.created_at u; User.timezone := User.timezone u;
     User.preferred_checkin_time := User.preferred_checkin_time u;
     User.total_activities := User.total_activities u;
     User.last_active := User.last_active u |}.

Definition START_FIRST : string := "Please use /start first to initialize your profile.".

(** [ExecutionCoachBot.set_business_idea] *)
Definition set_business_idea (db : Database) (update : Update) : Handled :=
  match args update with
  | [] => (db, Ok ["Usage: /idea Your business idea description"])
  | _ =>
      let idea := PyStr.join " " (args update) in
      let uid := TelegramUser.id (effective_user update) in
      match first (users_by_telegram_id db uid) with
      | Some _ =>
          (set_users db
             (update_first (fun u => User.telegram_id u =? uid) (with_idea idea) (users db)),
           Ok ["💡 Business idea set: " +:+ idea +:+ nl +:+ nl
               +:+ "Now use /phase to set your current execution phase!"])
      | None => (db, Ok [START_FIRST])
      end
  end.

Definition valid_phases : list string := ["planning"; "validation"; "mvp"; "traction"].

(** [ExecutionCoachBot.set_phase] *)
Definition set_phase (db : Database) (update : Update) : Handled :=
  match args update with
  | [] => (db, Ok ["Usage: /phase [planning|validation|mvp|traction]"])
  | arg0 :: _ =>
      let phase := PyStr.lower arg0 in
      if existsb (String.eqb phase) valid_phases then
        let uid := TelegramUser.id (effective_user update) in
        match first (users_by_telegram_id db uid) with
        | Some _ =>
            (set_users db
               (update_first (fun u => User.telegram_id u =? uid) (with_phase phase) (users db)),
             Ok ["📊 Execution phase set to: " +:+ PyStr.upper phase +:+ nl +:+ nl
                 +:+ "Great! Now I can give you phase-specific coaching. What are you working on today?"])
        | None => (db, Ok [START_FIRST])
        end
      else (db, Ok ["Valid phases: " +:+ PyStr.join ", " valid_phases])
  end.

(** [ExecutionCoachBot.handle_message] *)
Definition handle_message (self : ExecutionCoachBot) (db : Database) (clk : Clock)
    (update : Update) : Handled :=
  let user_id := TelegramUser.id (effective_user update) in
  let message_text := message_text update in
  (* Ensure user exists *)
  let '(db, _) := get_or_create_user db clk (effective_user update) in
  (* Get user context *)
  let user_context := UserContext_init user_id in
  match get_user_data db clk user_context with
  | Raise e => (db, Raise e)
  | Ok (context_data, user_context) =>
      (* Generate AI-powered response *)
      let response := generate_response (gemini_coach self) message_text context_data in
      (* Determine response type and context tags *)
      let response_type := if enabled (gemini_coach self) then "gemini" else "fallback" in
      let context_tags := analyze_message_context message_text in
      (* Log conversation *)
      let conversation :=
        {| Conversation.id := next_id (conversations db);
           Conversation.user_id := user_id;
           Conversation.message_text := message_text;
           Conversation.bot_response := response;
           Conversation.context_tags := context_tags;
           Conversation.timestamp := utcnow clk;
           Conversation.response_type := response_type |} in
      (add_conversation db conversation, Ok [response])
  end.

(** The message [handle_stuck] hands to the coach. *)
Definition unstuck_message : string :=
  "I'm feeling stuck and procrastinating. Please help me get unstuck with a specific 5-minute action I can take right now.".

(** [ExecutionCoachBot.handle_stuck] *)
Definition handle_stuck (self : ExecutionCoachBot) (db : Database) (clk : Clock)
    (update : Update) : Handled :=
  let user_id := TelegramUser.id (effective_user update) in
  let user_context := UserContext_init user_id in
  match get_user_data db clk user_context with
  | Raise e => (db, Raise e)
  | Ok (context_data, user_context) =>
      (* Log stuck event *)
      let '(db, user_context) :=
        log_activity db clk user_context "User reported feeling stuck" "blocker"
          None None (Some "procrastination,stuck") in
      (* Generate specific unstuck response *)
      let response := generate_response (gemini_coach self) unstuck_message context_data in
      (db, Ok ["🚨 Stuck Alert Activated!" +:+ nl +:+ nl +:+ response])
  end.

(** The f-string [log_win] hands to the coach. *)
Definition celebration_message (win_description : string) : string :=
  "I just achieved a win: " +:+ win_description
  +:+ ". Please celebrate with me and help me build on this momentum!".

(** [' '.join(context.args) if context.args else "Achieved a win!"] *)
Definition win_description_of (args : list string) : string :=
  match args with
  | [] => "Achieved a win!"
  | _ => PyStr.join " " args
  end.

(** [ExecutionCoachBot.log_win] *)
Definition log_win (self : ExecutionCoachBot) (db : Database) (clk : Clock)
    (update : Update) : Handled :=
  let user_id := TelegramUser.id (effective_user update) in
  let win_description := win_description_of (args update) in
  let user_context := UserContext_init user_id in
  let '(db, user_context) :=
    log_activity db clk user_context win_description "win"
      (Some 4) None (Some "win,celebration") in
  match get_user_data db clk user_context with
  | Raise e => (db, Raise e)
  | Ok (context_data, user_context) =>
      let response :=
        generate_response (gemini_coach self) (celebration_message win_description)
          context_data in
      (db, Ok ["🎉 Win Logged!" +:+ nl +:+ nl +:+ response])
  end.

(** [ExecutionCoachBot.set_goal] *)
Definition set_goal (db : Database) (clk : Clock) (update : Update) : Handled :=
  match args update with
  | [] => (db, Ok ["Usage: /goal Your goal description"])
  | _ =>
      let goal_text := PyStr.join " " (args update) in
      let goal :=
        {| Goal.id := next_id (goals db);
           Goal.user_id := TelegramUser.id (effective_user update);
           Goal.title := goal_text;
           Goal.description := None;
           Goal.target_date := None;
           Goal.status := "active";
           Goal.created_at := utcnow clk;
           Goal.goal_type := Some "general";
           Goal.priority := 1 |} in
      (add_goal db goal,
       Ok ["🎯 Goal set: " +:+ goal_text +:+ nl +:+ nl
           +:+ "What's the first small step toward this goal?"])
  end.

(** The store effect of [generate_business_ideas_command] and, when it is
    given a topic, of [market_research_command]: the context is aggregated,
    which may raise, and then one activity is logged.  The replies of the
    two commands, cut into pieces of 4000 characters, are not modelled. *)
Definition agent_command_store (db : Database) (clk : Clock) (update : Update)
    (description activity_type tags : string) : Database * result unit :=
  let user_context := UserContext_init (TelegramUser.id (effective_user update)) in
  match get_user_data db clk user_context with
  | Raise e => (db, Raise e)
  | Ok (context_data, user_context) =>
      let '(db, user_context) :=
        log_activity db clk user_context description activity_type None None (Some tags) in
      (db, Ok tt)
  end.

Definition generate_business_ideas_command_store (db : Database) (clk : Clock)
    (update : Update) : Database * result unit :=
  agent_command_store db clk update
    "Generated business ideas" "planning" "business_ideas,brainstorming".

Definition market_research_command_store (db : Database) (clk : Clock)
    (update : Update) : Database * result unit :=
  match args update with
  | [] => (db, Ok tt)
  | _ =>
      let research_topic := PyStr.join " " (args update) in
      agent_command_store db clk update
        ("Conducted market research on: " +:+ research_topic) "research"
        "market_research,analysis"
  end.

(** [ExecutionCoachBot.show_progress] *)
Definition show_progress (db : Database) (clk : Clock) (update : Update) : Handled :=
  let user_id := TelegramUser.id (effective_user update) in
  let user_context := UserContext_init user_id in
  match get_user_data db clk user_context with
  | Raise e => (db, Raise e)
  | Ok (context_data, user_context) =>
      let user := dict_get_user context_data in
      let streak := dict_get Ctx.current_streak 0 context_data in
      let total_activities := dict_get Ctx.total_activities 0 context_data in
      let days_since_start := dict_get Ctx.days_since_start 0 context_data in
      let recent_activities := dict_get Ctx.recent_activities [] context_data in
      let progress_msg :=
        "
📊 **Your Execution Progress**

🔥 Current streak: **" +:+ PyStr.of_int streak +:+ " days**
📈 Total actions: **" +:+ PyStr.of_int total_activities +:+ "**
📅 Days as entrepreneur: **" +:+ PyStr.of_int days_since_start +:+ "**
🚀 Phase: **"
        +:+ match user with
            | Some u => PyStr.upper (User.execution_phase u)
            | None => "Not set"
            end
        +:+ "**

**Recent Activities:**
" in
      let progress_msg :=
        match recent_activities with
        | [] => progress_msg +:+ "• No recent activities logged" +:+ nl
        | _ =>
            fold_left
              (fun msg activity =>
                 let days_ago := delta_days (utcnow clk) (Activity.timestamp activity) in
                 let days_text :=
                   if days_ago =? 0 then "today" else PyStr.of_int days_ago +:+ " days ago" in
                 msg +:+ "• " +:+ Activity.description activity +:+ " (" +:+ days_text
                 +:+ ")" +:+ nl)
              (firstn 5 recent_activities) progress_msg
        end in
      let progress_msg :=
        progress_msg +:+ nl +:+ "💪 Keep building momentum! Every action counts." in
      (db, Ok [progress_msg])
  end.

(* --------------------------------------------------------------------- *)
(** *** Scheduled sweeps *)
(* --------------------------------------------------------------------- *)

(** What a sweep leaves behind, in order: a message the transport took, or
    one of the two lines the [except] clauses print. *)
Inductive SweepLog : Type :=
  | Sent (chat_id : Z) (text : string)
  | FailedToSend (chat_id : Z) (e : exn)   (* "Failed to send ... to user {id}: {e}" *)
  | SweepError (e : exn).                  (* "Error in daily_checkin: {e}" *)

(** [session.query(User).filter(User.last_active > week_ago).all()] *)
Definition active_since (db : Database) (week_ago : datetime) : list User.t :=
  List.filter (fun u => week_ago <? User.last_active u) (users db).

(** One round of a sweep's [for user in active_users] loop: the [try]
    body, then the [except Exception] clause of the round. *)
Definition sweep_round (body : User.t -> result string) (send : Z -> string -> result unit)
    (log : list SweepLog) (user : User.t) : list SweepLog :=
  let attempt :=
    text <- body user ;;
    _ <- send (User.telegram_id user) text ;;
    Ok text in
  match attempt with
  | Ok text => (log ++ [Sent (User.telegram_id user) text])%list
  | Raise e => (log ++ [FailedToSend (User.telegram_id user) e])%list
  end.

(** The text of the daily check-in for one user; aggregation and the two
    [context_data[...]] subscripts can raise. *)
Definition checkin_msg (db : Database) (clk : Clock) (user : User.t) : result string :=
  let user_context := UserContext_init (User.telegram_id user) in
  r <- get_user_data db clk user_context ;;
  let context_data := fst r in
  streak <- dict_item Ctx.current_streak "current_streak" context_data ;;
  phase <- dict_item Ctx.execution_phase "execution_phase" context_data ;;
  Ok ("
🌅 **Daily Check-in Time!** 

Hey " +:+ User.first_name user +:+ "! 

Current streak: **" +:+ PyStr.of_int streak +:+ " days**
Phase: **" +:+ PyStr.upper phase +:+ "**

What's your 5-minute action for today? Even tiny progress counts in the " +:+ phase +:+ " phase!

Reply with what you accomplished or use /stuck if you're feeling blocked. 💪
                    ").

(** [ExecutionCoachBot.daily_checkin] *)
Definition daily_checkin (self : ExecutionCoachBot) (db : Database) (clk : Clock)
  : list SweepLog :=
  (* Only check in with users who've been active in the last 7 days *)
  match datetime_sub_days (utcnow clk) 7 with
  | Raise e => [SweepError e]
  | Ok week_ago =>
      let active_users := active_since db week_ago in
      fold_left (sweep_round (checkin_msg db clk) (send_message self)) active_users []
  end.

Definition WEEKLY_REMINDER : string :=
  "📅 **Weekly Planning Time!**" +:+ nl +:+ nl
  +:+ "Use /plan to set up your week for execution success! 🚀".

(** [ExecutionCoachBot.weekly_planning_reminder] *)
Definition weekly_planning_reminder (self : ExecutionCoachBot) (db : Database) (clk : Clock)
  : list SweepLog :=
  match datetime_sub_days (utcnow clk) 7 with
  | Raise e => [SweepError e]
  | Ok week_ago =>
      let active_users := active_since db week_ago in
      fold_left (sweep_round (fun _ => Ok WEEKLY_REMINDER) (send_message self)) active_users []
  end.

(* --------------------------------------------------------------------- *)
(** *** Command routing *)
(* --------------------------------------------------------------------- *)

(** The commands and the message handler that write to the store.  The
    remaining handlers ([/progress], [/plan], [/modes], [/test], [/debug],
    the button callback) and the two sweeps only read it. *)
Inductive Command : Type :=
  | CmdStart | CmdText | CmdIdea | CmdPhase | CmdGoal
  | CmdStuck | CmdWin | CmdIdeas | CmdResearch.

(** The store after the handler registered for a command has run. *)
Definition route (self : ExecutionCoachBot) (db : Database) (clk : Clock)
    (cmd : Command) (update : Update) : Database :=
  match cmd with
  | CmdStart => fst (start_command db clk update)
  | CmdText => fst (handle_message self db clk update)
  | CmdIdea => fst (set_business_idea db update)
  | CmdPhase => fst (set_phase db update)
  | CmdGoal => fst (set_goal db clk update)
  | CmdStuck => fst (handle_stuck self db clk update)
  | CmdWin => fst (log_win self db clk update)
  | CmdIdeas => fst (generate_business_ideas_command_store db clk update)
  | CmdResearch => fst (market_research_command_store db clk update)
  end.

(** The stores the bot can reach from the empty schema [create_all]
    builds, one handled update at a time; the coach and its hosted model
    may answer differently at each update. *)
Inductive reachable : Database -> Prop :=
  | reachable_empty : reachable empty_db
  | reachable_route self db clk cmd update :
      reachable db -> reachable (route self db clk cmd update).

(** [/start] and free text go through [get_or_create_user]. *)
Definition creates_user (cmd : Command) : bool :=
  match cmd with
  | CmdStart | CmdText => true
  | _ => false
  end.

Definition user_exists (db : Database) (uid : Z) : bool :=
  existsb (fun u => User.telegram_id u =? uid) (users db).

(** The stores reached when every sender has a [User] row by the time one
    of the other commands of theirs is handled. *)
Inductive reachable_initialized : Database -> Prop :=
  | initialized_empty : reachable_initialized empty_db
  | initialized_route self db clk cmd update :
      reachable_initialized db ->
      creates_user cmd || user_exists db (TelegramUser.id (effective_user update)) = true ->
      reachable_initialized (route self db clk cmd update).

End Coaching.

(* ===================================================================== *)
(** ** Notions the statements use *)
(* ===================================================================== *)

(** The distinct calendar dates of all the activity rows of a user. *)
Definition activity_dates_of (db : Database) (uid : Z) : gset Z :=
  list_to_set (map (fun a => dt_date (Activity.timestamp a)) (activities_of db uid)).

(** [n] is the size of the maximal run of consecutive days that ends at
    [today] and lies inside [dates]: the [n] days [today], ..., [today-n+1]
    are in the set and the day before them is not. *)
Definition maximal_run (dates : gset Z) (today : date) (n : Z) : Prop :=
  0 <= n /\ (forall i, 0 <= i < n -> today - i ∈ dates) /\ today - n ∉ dates.

(** No activity of the user is dated [date.min] or before: every
    timestamp was read off a clock after 0001-01-01. *)
Definition dated_after_min (db : Database) (uid : Z) : Prop :=
  forall a, In a (activities_of db uid) -> date_min < dt_date (Activity.timestamp a).

(** Every row after [User] carries the identity of an existing [User]. *)
Definition referential_integrity (db : Database) : bool :=
  forallb (fun g => user_exists db (Goal.user_id g)) (goals db)
  && forallb (fun a => user_exists db (Activity.user_id a)) (activities db)
  && forallb (fun c => user_exists db (Conversation.user_id c)) (conversations db)
  && forallb (fun p => user_exists db (Progress.user_id p)) (progress db).

(** [referential_integrity], row by row. *)
Definition references_hold (db : Database) : Prop :=
  (forall g, In g (goals db) -> user_exists db (Goal.user_id g) = true)
  /\ (forall a, In a (activities db) -> user_exists db (Activity.user_id a) = true)
  /\ (forall c, In c (conversations db) -> user_exists db (Conversation.user_id c) = true)
  /\ (forall p, In p (progress db) -> user_exists db (Progress.user_id p) = true).

(** The chat a line of a sweep's log is about. *)
Definition sweep_target (l : SweepLog) : option Z :=
  match l with
  | Sent chat_id _ => Some chat_id
  | FailedToSend chat_id _ => Some chat_id
  | SweepError _ => None
  end.

(** The four buckets of the fallback reply, in the order the spec ranks
    them. *)
Inductive Bucket : Type := Procrastination | Impatience | Celebration | General.

Definition bucket_keywords (b : Bucket) : list string :=
  match b with
  | Procrastination => ["procrastinating"; "avoiding"; "stuck"; "overwhelmed"; "can't start"]
  | Impatience => ["slow"; "not working"; "no results"; "giving up"; "frustrated"]
  | Celebration => ["completed"; "finished"; "done"; "achieved"; "launched"; "win"]
  | General => []
  end.

(** A message signals a bucket when its lower-cased copy contains one of
    the bucket's keywords. *)
Definition signals (b : Bucket) (message : string) : bool :=
  PyStr.any_in (bucket_keywords b) (PyStr.lower message).

(** The first bucket, in priority order, that the message signals;
    [General] when it signals none. *)
Definition select_bucket (message : string) : Bucket :=
  match List.find (fun b => signals b message) [Procrastination; Impatience; Celebration] with
  | Some b => b
  | None => General
  end.

(** The template of a bucket, filled in from the context. *)
Definition bucket_reply (b : Bucket) (context_data : Dict) : string :=
  let user := dict_get_user context_data in
  let streak := dict_get Ctx.current_streak 0 context_data in
  let phase := dict_get Ctx.execution_phase "planning" context_data in
  match b with
  | Procrastination => procrastination_reply user streak phase
  | Impatience => impatience_reply streak phase
  | Celebration => celebration_reply streak phase
  | General => general_reply user streak phase
  end.



(** The hosted call yields no usable text for [prompt]: there is no
    model, the call raises, it returns [None], reading [response.text]
    raises, or the text is [None] or empty. *)
Definition no_text (m : option GenerativeModel) (prompt : string) : bool :=
  match m with
  | None => true
  | Some m =>
      match generate_content m prompt with
      | Raise _ => true
      | Ok None => true
      | Ok (Some (TextRaises _)) => true
      | Ok (Some (Text None)) => true
      | Ok (Some (Text (Some t))) => negb (PyStr.truthy t)
      end
  end.

(** A reply refers to a streak of [n] days when it reads "[n]-day" or
    "day [n]", the two ways the replies of the coach name a day count. *)
Definition shows_streak (reply : string) (n : Z) : Prop :=
  PyStr.contains (PyStr.of_int n +:+ "-day") reply = true
  \/ PyStr.contains ("day " +:+ PyStr.of_int n) reply = true.

(** The line one user leaves in the log of a sweep. *)
Definition round_outcome (body : User.t -> result string) (send : Z -> string -> result unit)
    (user : User.t) : SweepLog :=
  match body user with
  | Raise e => FailedToSend (User.telegram_id user) e
  | Ok text =>
      match send (User.telegram_id user) text with
      | Raise e => FailedToSend (User.telegram_id user) e
      | Ok _ => Sent (User.telegram_id user) text
      end
  end.

(* --------------------------------------------------------------------- *)
(** *** Reading day counts off a reply *)
(* --------------------------------------------------------------------- *)

Definition is_digit (c : ascii) : bool :=
  let n := N_of_ascii c in ((48 <=? n) && (n <=? 57))%N.

Definition is_nonzero_digit (c : ascii) : bool :=
  let n := N_of_ascii c in ((49 <=? n) && (n <=? 57))%N.

Fixpoint all_digits (s : string) : bool :=
  match s with
  | EmptyString => true
  | String c s' => is_digit c && all_digits s'
  end.

Fixpoint skip_digits (s : string) : string :=
  match s with
  | EmptyString => EmptyString
  | String c s' => if is_digit c then skip_digits s' else s
  end.

(** Some run of digits that starts with a non-zero digit is followed at
    once by [pat]: the text reads "[n][pat]" for some [n >= 1]. *)
Fixpoint positive_before (pat s : string) : bool :=
  match s with
  | EmptyString => false
  | String c s' =>
      (is_nonzero_digit c && String.prefix pat (skip_digits s')) || positive_before pat s'
  end.

Definition nonzero_digits : list ascii :=
  map ascii_of_nat [49; 50; 51; 52; 53; 54; 55; 56; 57]%nat.

(** [pat] is followed at once by a non-zero digit: the text reads
    "[pat][n]" for some [n >= 1]. *)
Definition positive_after (pat s : string) : bool :=
  existsb (fun c => PyStr.contains (pat +:+ String c EmptyString) s) nonzero_digits.

(** The coach falls back for every prompt: it is disabled, or its hosted
    call never brings text back. *)
Definition falls_back (coach : GeminiCoach) : Prop :=
  enabled coach = false \/ forall prompt, no_text (model coach) prompt = true.

(* ===================================================================== *)
(** ** Sample data of the examples *)
(* ===================================================================== *)

(** Noon of the day with ordinal [d]. *)
Definition noon (d : date) : datetime := (d - 1) * US_PER_DAY + 43200000000.

(** 2024-06-15, as [date(2024, 6, 15).toordinal()] gives it. *)
Definition june15 : date := 739052.

Definition utc_clock (dt : datetime) : Clock := {| utcnow := dt; now := dt |}.

Definition sample_activity (n uid : Z) (ts : datetime) : Activity.t :=
  {| Activity.id := n; Activity.user_id := uid; Activity.goal_id := None;
     Activity.description := "Called a customer"; Activity.activity_type := "task_completed";
     Activity.timestamp := ts; Activity.mood_score := None; Activity.notes := None;
     Activity.context_tags := Some "customer_related" |}.

Definition alice : TelegramUser.t :=
  {| TelegramUser.id := 42; TelegramUser.username := Some "alice";
     TelegramUser.first_name := "Alice" |}.

(** A store with one user, created on 2024-06-01. *)
Definition alice_db : Database :=
  fst (get_or_create_user empty_db (utc_clock (noon (june15 - 14))) alice).

(** Alice was active today, yesterday, the day before, and four days ago. *)
Definition gap_db : Database :=
  {| users := users alice_db; goals := [];
     activities := [ sample_activity 1 42 (noon (june15 - 4));
                     sample_activity 2 42 (noon (june15 - 2));
                     sample_activity 3 42 (noon (june15 - 1));
                     sample_activity 4 42 (noon june15) ];
     progress := []; conversations := [] |}.

(** Late evening in UTC while the process, two hours east, is already in
    the next day. *)
Definition late_clock : Clock :=
  {| utcnow := noon june15 + 41400000000;        (* 2024-06-15 23:30 UTC *)
     now := noon june15 + 48600000000 |}.        (* 2024-06-16 01:30 local *)

(** A rendering of [DateTime] values for the examples. *)
Definition sample_datetime_str (dt : datetime) : string := PyStr.of_int dt.

(** No API key: the coach is disabled. *)
Definition no_key_coach : GeminiCoach :=
  GeminiCoach_init None (Raise (ServiceError "no key")) "(ideas)" "(research)" "(coach)".

(** A configured coach whose hosted model is down. *)
Definition failing_model : GenerativeModel :=
  {| generate_content := fun _ => Raise (ServiceError "503 Service Unavailable") |}.

Definition failing_coach : GeminiCoach :=
  GeminiCoach_init (Some "key") (Ok failing_model) "(ideas)" "(research)" "(coach)".

(** A configured coach whose hosted model answers with the prompt it was
    given, which makes the prompt visible in the reply. *)
Definition echo_model : GenerativeModel :=
  {| generate_content := fun prompt => Ok (Some (Text (Some prompt))) |}.

Definition echo_coach : GeminiCoach :=
  GeminiCoach_init (Some "key") (Ok echo_model) "(ideas)" "(research)" "(coach)".

Definition bot_of (coach : GeminiCoach) : ExecutionCoachBot :=
  {| gemini_coach := coach; send_message := fun _ _ => Ok tt |}.

Definition text_update (sender : TelegramUser.t) (text : string) : Update :=
  {| effective_user := sender; message_text := text; args := [] |}.

Definition command_update (sender : TelegramUser.t) (arguments : list string) : Update :=
  {| effective_user := sender; message_text := EmptyString; args := arguments |}.

Definition bob : TelegramUser.t :=
  {| TelegramUser.id := 43; TelegramUser.username := None;
     TelegramUser.first_name := "Bob" |}.

Definition carol : TelegramUser.t :=
  {| TelegramUser.id := 44; TelegramUser.username := Some "carol";
     TelegramUser.first_name := "Carol" |}.

(** Carol was last seen ten days before 2024-06-15, Alice two days and Bob
    one day before it. *)
Definition three_users_db : Database :=
  let db := fst (get_or_create_user empty_db (utc_clock (noon (june15 - 10))) carol) in
  let db := fst (get_or_create_user db (utc_clock (noon (june15 - 2))) alice) in
  fst (get_or_create_user db (utc_clock (noon (june15 - 1))) bob).

(** A transport that refuses every message to Alice's chat. *)
Definition alice_blocked_bot : ExecutionCoachBot :=
  {| gemini_coach := no_key_coach;
     send_message := fun chat_id _ =>
       if chat_id =? 42 then Raise (ServiceError "Forbidden: bot was blocked by the user")
       else Ok tt |}.

(* ===================================================================== *)
(** ** RenderConfig *)
(* ===================================================================== *)

(** [s.replace(old, new, 1)]: the leftmost occurrence of [old] is replaced. *)
Fixpoint replace_first (old new s : string) : string :=
  if String.prefix old s then new +:+ String.substring (String.length old)
                                        (String.length s - String.length old) s
  else
    match s with
    | EmptyString => EmptyString
    | String c s' => String c (replace_first old new s')
    end.

(** The settings [RenderConfig] keeps.  [PORT] is [int(os.getenv('PORT',
    10000))], which the caller of the model has evaluated. *)
Record RenderConfig : Type := {
  PORT : Z;
  TELEGRAM_TOKEN : option string;
  DATABASE_URL : option string;
  GEMINI_API_KEY : option string
}.

(** Truthiness of [os.getenv(...)]: [None] and the empty string are false. *)
Definition env_set (v : option string) : bool :=
  match v with
  | Some s => PyStr.truthy s
  | None => false
  end.

(** [RenderConfig.__init__], with [getenv] for [os.getenv]. *)
Definition RenderConfig_init (port : Z) (getenv : string -> option string) : RenderConfig :=
  let database_url := getenv "DATABASE_URL" in
  let database_url :=
    match database_url with
    | Some url =>
        if PyStr.truthy url && String.prefix "postgres://" url
        then Some (replace_first "postgres://" "postgresql://" url)
        else database_url
    | None => None
    end in
  {| PORT := port;
     TELEGRAM_TOKEN := getenv "TELEGRAM_TOKEN";
     DATABASE_URL := database_url;
     GEMINI_API_KEY := getenv "GEMINI_API_KEY" |}.

(** How [validate] ends: it returns [True], or the process exits. *)
Inductive Startup : Type :=
  | Validated
  | SysExit (code : Z).

(** [RenderConfig.validate] *)
Definition validate (self : RenderConfig) : Startup :=
  if negb (env_set (TELEGRAM_TOKEN self)) then SysExit 1
  else if negb (env_set (DATABASE_URL self)) then SysExit 1
  else Validated.

(* ===================================================================== *)
(** ** GeminiCoach: the two specialised agents *)
(* ===================================================================== *)

(** [value or default] for an optional string. *)
Definition str_or (value : option string) (default : string) : string :=
  match value with
  | Some s => if PyStr.truthy s then s else default
  | None => default
  end.

(** [user.current_business_idea if user else None] *)
Definition current_idea_of (context_data : Dict) : option string :=
  match dict_get_user context_data with
  | Some user => User.current_business_idea user
  | None => None
  end.

(** The [try] block shared by the two agents: the hosted call, then
    [response.text.strip() if response and response.text else unavailable];
    the [except Exception] clause returns [failed]. *)
Definition ask_agent (self : GeminiCoach) (full_prompt unavailable failed : string) : string :=
  let attempt :=
    m <- match model self with
         | Some m => Ok m
         | None => Raise AttributeError
         end ;;
    response <- generate_content m full_prompt ;;
    match response with
    | None => Ok unavailable
    | Some r =>
        text <- response_text r ;;
        match text with
        | Some t => if PyStr.truthy t then Ok (PyStr.strip t) else Ok unavailable
        | None => Ok unavailable
        end
    end in
  match attempt with
  | Ok text => text
  | Raise _ => failed
  end.

(** The f-string of [generate_business_ideas]. *)
Definition business_ideas_full_prompt (self : GeminiCoach) (context_data : Dict)
    (user_request : string) : string :=
  let current_idea := current_idea_of context_data in
  let phase := dict_get Ctx.execution_phase "planning" context_data in
  "
"
  +:+ business_ideas_prompt self
  +:+ "

## Current Context:
- User's current business idea: "
  +:+ str_or current_idea "None set"
  +:+ "
- Execution phase: "
  +:+ phase
  +:+ "
- User request: "
  +:+ (if PyStr.truthy user_request then user_request else "Generate creative business ideas")
  +:+ "

Based on this context, provide 3-5 creative business ideas that would be suitable for a solo entrepreneur with limited resources. Focus on ideas that can be started small and validated quickly.
        ".

(** [GeminiCoach.generate_business_ideas] *)
Definition generate_business_ideas (self : GeminiCoach) (context_data : Dict)
    (user_request : string) : string :=
  if negb (enabled self) then
    "💡 Gemini AI not available. Please add your API key for business idea generation."
  else
    ask_agent self (business_ideas_full_prompt self context_data user_request)
      "Unable to generate ideas at the moment."
      "Unable to generate ideas at the moment. Please try again later.".

(** The f-string of [conduct_market_research]. *)
Definition market_research_full_prompt (self : GeminiCoach) (context_data : Dict)
    (research_topic : string) : string :=
  let current_idea := current_idea_of context_data in
  let phase := dict_get Ctx.execution_phase "planning" context_data in
  "
"
  +:+ market_research_prompt self
  +:+ "

## Research Request:
- Topic: "
  +:+ research_topic
  +:+ "
- User's business context: "
  +:+ str_or current_idea "General research"
  +:+ "
- Current phase: "
  +:+ phase
  +:+ "

Provide a comprehensive market research analysis for this topic. Include market size estimates, key competitors, target customers, trends, and strategic recommendations. Keep the analysis practical for a solo entrepreneur.
        ".

(** [GeminiCoach.conduct_market_research] *)
Definition conduct_market_research (self : GeminiCoach) (context_data : Dict)
    (research_topic : string) : string :=
  if negb (enabled self) then
    "📊 Gemini AI not available. Please add your API key for market research."
  else
    ask_agent self (market_research_full_prompt self context_data research_topic)
      "Unable to complete research at the moment."
      "Unable to complete research at the moment. Please try again later.".

(* ===================================================================== *)
(** ** Long replies *)
(* ===================================================================== *)

(** [range(0, stop, step)] for a positive [step]: the multiples of [step]
    below [stop]. *)
Definition range_step (stop step : nat) : list nat :=
  map (fun k => (k * step)%nat) (seq 0 ((stop + step - 1) / step)).

(** [s[i:i+size]] *)
Definition slice {A} (i size : nat) (s : list A) : list A := firstn size (skipn i s).

(** The replies [generate_business_ideas_command] and
    [market_research_command] send for [final_response], a sequence of
    characters: the whole text when it has at most 4000 characters,
    otherwise [[final_response[i:i+4000] for i in range(0, len, 4000)]]. *)
Definition split_long {A} (final_response : list A) : list (list A) :=
  if (4000 <? length final_response)%nat then
    map (fun i => slice i 4000 final_response) (range_step (length final_response) 4000)
  else [final_response].

(* ===================================================================== *)
(** ** Further notions the statements use *)
(* ===================================================================== *)

(** No two [User] rows carry the same Telegram identity. *)
Definition unique_users (db : Database) : Prop :=
  NoDup (map User.telegram_id (users db)).

(** Every user is in one of the four phases. *)
Definition phases_valid (db : Database) : bool :=
  forallb (fun u => existsb (String.eqb (User.execution_phase u)) valid_phases) (users db).

(** The running count of a user lies between 0 and the number of the
    user's activity rows. *)
Definition counts_bounded (db : Database) : Prop :=
  forall u, In u (users db) ->
    0 <= User.total_activities u
         <= Z.of_nat (length (activities_of db (User.telegram_id u))).

(** [l] is [l'] with rows added at the end. *)
Definition extends {A} (l l' : list A) : Prop := exists added, l' = (l ++ added)%list.

(** Rows in the order of [ORDER BY key DESC]. *)
Definition descending {A} (key : A -> Z) (rows : list A) : Prop :=
  StronglySorted (fun a b => key b <= key a) rows.

(** The Telegram identities of the [User] rows, in table order. *)
Definition telegram_ids (db : Database) : list Z := map User.telegram_id (users db).

(** The writes the handlers are made of, and their sequences: a user is
    fetched or created, an activity is logged, a goal or a conversation is
    added, the idea or the phase of a user is set. *)
Inductive writes : Database -> Database -> Prop :=
  | writes_nothing db : writes db db
  | writes_then db1 db2 db3 : writes db1 db2 -> writes db2 db3 -> writes db1 db3
  | writes_user db clk telegram_user :
      writes db (fst (get_or_create_user db clk telegram_user))
  | writes_activity db clk self description activity_type mood_score notes context_tags :
      writes db (fst (log_activity db clk self description activity_type
                        mood_score notes context_tags))
  | writes_goal db g : writes db (add_goal db g)
  | writes_conversation db c : writes db (add_conversation db c)
  | writes_idea db uid idea :
      writes db (set_users db (update_first (fun u => User.telegram_id u =? uid)
                                 (with_idea idea) (users db)))
  | writes_phase db uid phase :
      In phase valid_phases ->
      writes db (set_users db (update_first (fun u => User.telegram_id u =? uid)
                                 (with_phase phase) (users db))).

(* --------------------------------------------------------------------- *)
(** *** Sample runs of the examples *)
(* --------------------------------------------------------------------- *)

(** Alice starts the bot, reports a win the next day, sets her phase and a
    goal; Bob only ever writes a line of text. *)
Definition busy_db : Database :=
  let bot := bot_of no_key_coach in
  let db := route sample_datetime_str bot empty_db (utc_clock (noon (june15 - 1)))
              CmdStart (command_update alice []) in
  let db := route sample_datetime_str bot db (utc_clock (noon june15))
              CmdWin (command_update alice ["Shipped"; "the"; "beta"]) in
  let db := route sample_datetime_str bot db (utc_clock (noon june15))
              CmdPhase (command_update alice ["MVP"]) in
  let db := route sample_datetime_str bot db (utc_clock (noon june15))
              CmdGoal (command_update alice ["Ten"; "paying"; "customers"]) in
  route sample_datetime_str bot db (utc_clock (noon june15))
    CmdText (text_update bob "Sales are slow").

(** A string of white space only. *)
Fixpoint all_space (s : string) : bool :=
  match s with
  | EmptyString => true
  | String c s' => PyStr.is_space c && all_space s'
  end.

(** The context dict with another list under ['recent_activities']. *)
Definition with_recent_activities (acts : list Activity.t) (d : Ctx.t) : Ctx.t :=
  {| Ctx.user := Ctx.user d;
     Ctx.recent_activities := acts;
     Ctx.active_goals := Ctx.active_goals d;
     Ctx.recent_conversations := Ctx.recent_conversations d;
     Ctx.last_checkin := Ctx.last_checkin d;
     Ctx.current_streak := Ctx.current_streak d;
     Ctx.execution_phase := Ctx.execution_phase d;
     Ctx.total_activities := Ctx.total_activities d;
     Ctx.days_since_start := Ctx.days_since_start d |}.

(** A configured coach whose hosted model answers with blank lines. *)
Definition blank_model : GenerativeModel :=
  {| generate_content := fun _ => Ok (Some (Text (Some ("  " +:+ nl +:+ nl)))) |}.

Definition blank_coach : GeminiCoach :=
  GeminiCoach_init (Some "key") (Ok blank_model) "(ideas)" "(research)" "(coach)".

(* ===================================================================== *)
(** * Theorems *)
(* ===================================================================== *)

(** ** Strings *)

Lemma append_cons (c : ascii) (a b : string) : String c a +:+ b = String c (a +:+ b).
Proof. reflexivity. Qed.

Lemma prefix_app (w s : string) :
  String.prefix w s = true <-> exists rest, s = w +:+ rest.
Proof.
  revert s; induction w as [|c w IH]; intros s; simpl.
  - split; [intros _; exists s; reflexivity | destruct s; reflexivity].
  - destruct s as [|d s]; simpl.
    + split; [discriminate | intros [rest H]; rewrite append_cons in H; discriminate].
    + destruct (ascii_dec c d) as [->|Hne].
      * rewrite IH. split; intros [rest H]; exists rest; rewrite append_cons in *; congruence.
      * split; [discriminate | intros [rest H]; rewrite append_cons in H; congruence].
Qed.

Lemma contains_nil (w : string) :
  PyStr.contains w EmptyString = String.prefix w EmptyString.
Proof. simpl. apply orb_false_r. Qed.

Lemma contains_cons (w : string) (c : ascii) (s : string) :
  PyStr.contains w (String c s) = String.prefix w (String c s) || PyStr.contains w s.
Proof. reflexivity. Qed.

(** [w in s] holds exactly when [s] is [before + w + after]. *)
Lemma contains_app (w s : string) :
  PyStr.contains w s = true <-> exists before after, s = before +:+ w +:+ after.
Proof.
  induction s as [|c s IH].
  - rewrite contains_nil, prefix_app. split.
    + intros [rest H]. exists EmptyString, rest. exact H.
    + intros [[|b before] [after H]]; [exists after; exact H | discriminate].
  - rewrite contains_cons, orb_true_iff, prefix_app, IH. split.
    + intros [[rest H] | [before [after H]]].
      * exists EmptyString, rest. exact H.
      * exists (String c before), after. rewrite append_cons. congruence.
    + intros [[|b before] [after H]].
      * left. exists after. exact H.
      * right. exists before, after. rewrite append_cons in H. congruence.
Qed.

Lemma lower_app (a b : string) :
  PyStr.lower (a +:+ b) = PyStr.lower a +:+ PyStr.lower b.
Proof.
  induction a as [|c a IH]; [reflexivity|].
  rewrite append_cons. simpl. rewrite IH. reflexivity.
Qed.


Lemma any_in_true (words : list string) (s : string) :
  PyStr.any_in words s = true <-> exists w, In w words /\ PyStr.contains w s = true.
Proof. unfold PyStr.any_in. apply existsb_exists. Qed.

(** ** Fallback replies *)

Lemma fallback_response_bucket (message : string) (context_data : Dict) :
  fallback_response message context_data = bucket_reply (select_bucket message) context_data.
Proof.
  unfold fallback_response, select_bucket.
  cbv beta iota zeta delta [List.find signals bucket_keywords].
  destruct (PyStr.any_in _ (PyStr.lower message)); [reflexivity|].
  destruct (PyStr.any_in _ (PyStr.lower message)); [reflexivity|].
  destruct (PyStr.any_in _ (PyStr.lower message)); reflexivity.
Qed.




(** The buckets are tried in the order procrastination, impatience,
    celebration; the first one signalled is selected. *)
Lemma select_bucket_first (message : string) :
  signals Procrastination message = true -> select_bucket message = Procrastination.
Proof. intros H. unfold select_bucket. cbn [List.find]. now rewrite H. Qed.


Lemma select_bucket_third (message : string) :
  signals Procrastination message = false -> signals Impatience message = false ->
  signals Celebration message = true -> select_bucket message = Celebration.
Proof.
  intros H1 H2 H3. unfold select_bucket. cbn [List.find]. now rewrite H1, H2, H3.
Qed.




(** ** Context tags *)






Example analyze_message_context_both :
  analyze_message_context "Stuck on pricing, but a small WIN today" = "procrastination,win".
Proof. vm_compute. reflexivity. Qed.

(** ** Streak *)

Lemma insert_desc_In {A} (key : A -> Z) (x y : A) (l : list A) :
  In y (insert_desc key x l) <-> x = y \/ In y l.
Proof.
  induction l as [|z l IH]; simpl; [tauto|].
  destruct (key x <? key z); simpl; [rewrite IH|]; tauto.
Qed.

(** Ordering a query result neither drops nor invents a row. *)
Lemma order_by_desc_In {A} (key : A -> Z) (y : A) (l : list A) :
  In y (order_by_desc key l) <-> In y l.
Proof.
  induction l as [|x l IH]; simpl; [tauto|].
  rewrite insert_desc_In, IH. tauto.
Qed.

Lemma collect_dates_from (acts : list Activity.t) (seen : gset Z) (d : Z) :
  d ∈ fold_left (fun activity_dates activity =>
                   activity_dates ∪ {[ dt_date (Activity.timestamp activity) ]})
                acts seen
  <-> d ∈ seen \/ exists a, In a acts /\ dt_date (Activity.timestamp a) = d.
Proof.
  revert seen; induction acts as [|a acts IH]; intros seen; simpl.
  - split; [auto | intros [H|[a [[] _]]]; exact H].
  - rewrite IH, elem_of_union, elem_of_singleton. split.
    + intros [[H|H]|[b [Hb Hd]]]; eauto.
    + intros [H|[b [[->|Hb] Hd]]]; eauto.
Qed.

(** The set the loop of [calculate_streak] builds is the set of dates of
    the user's activities. *)
Lemma collect_dates_of (db : Database) (uid : Z) :
  collect_dates (order_by_desc Activity.timestamp (activities_of db uid))
  = activity_dates_of db uid.
Proof.
  apply set_eq. intros d. unfold collect_dates, activity_dates_of.
  rewrite collect_dates_from, elem_of_list_to_set, list_elem_of_In, in_map_iff.
  split.
  - intros [H|[a [Ha Hd]]]; [now apply not_elem_of_empty in H|]. exists a. split; [exact Hd|].
    now apply order_by_desc_In in Ha.
  - intros [a [Hd Ha]]. right. exists a. split; [|exact Hd].
    now apply order_by_desc_In.
Qed.

Lemma maximal_run_unique (dates : gset Z) (today n m : Z) :
  maximal_run dates today n -> maximal_run dates today m -> n = m.
Proof.
  intros (Hn & Hin & Hout) (Hm & Him & Hmout).
  destruct (Z.lt_trichotomy n m) as [Hlt|[Heq|Hgt]]; [|exact Heq|].
  - exfalso. apply Hout. apply Him. lia.
  - exfalso. apply Hmout. apply Hin. lia.
Qed.

(** The loop equation of [while check_date in activity_dates]. *)
Lemma streak_loop_unfold (dates : gset Z) (check_date streak : Z) :
  streak_loop dates check_date streak =
  if bool_decide (check_date ∈ dates) then
    d <- date_sub_days check_date 1 ;; streak_loop dates d (streak + 1)
  else Ok streak.
Proof.
  unfold streak_loop, date_sub_days, date_min.
  destruct (Z.to_nat (check_date - 1)) as [|room] eqn:E; cbn [streak_walk];
    destruct (bool_decide (check_date ∈ dates)); try reflexivity.
  - destruct (Z.ltb_spec (check_date - 1) 1); [reflexivity | lia].
  - destruct (Z.ltb_spec (check_date - 1) 1); [lia|]. cbn [bind].
    replace (Z.to_nat (check_date - 1 - 1)) with room by lia. reflexivity.
Qed.

(** The loop counts the maximal run of days ending at [check_date]. *)
Lemma streak_loop_run (dates : gset Z) :
  (forall d, d ∈ dates -> date_min < d) ->
  forall (room : nat) (check_date streak : Z),
    Z.to_nat (check_date - date_min) = room ->
    exists n, streak_loop dates check_date streak = Ok (streak + n)
              /\ maximal_run dates check_date n.
Proof.
  intros Hmin. induction room as [|room IH]; intros check_date streak Hroom;
    rewrite streak_loop_unfold; destruct (bool_decide_reflect (check_date ∈ dates)) as [Hin|Hout].
  - apply Hmin in Hin. unfold date_min in *. lia.
  - exists 0. split; [f_equal; lia|]. split; [lia|]. split; [intros; lia|].
    now rewrite Z.sub_0_r.
  - unfold date_sub_days, date_min in *.
    destruct (Z.ltb_spec (check_date - 1) 1); [lia|]. cbn [bind].
    destruct (IH (check_date - 1) (streak + 1)) as (n & Hn & H0 & Hrun & Hstop); [lia|].
    exists (n + 1). split; [rewrite Hn; f_equal; lia|].
    split; [lia|]. split.
    + intros i Hi. destruct (Z.eq_dec i 0) as [->|Hne]; [now rewrite Z.sub_0_r|].
      replace (check_date - i) with (check_date - 1 - (i - 1)) by lia. apply Hrun. lia.
    + replace (check_date - (n + 1)) with (check_date - 1 - n) by lia. exact Hstop.
  - exists 0. split; [f_equal; lia|]. split; [lia|]. split; [intros; lia|].
    now rewrite Z.sub_0_r.
Qed.

(** Outside the hypothesis of C1 the walk runs off the calendar: when
    every day from [date.min] to today carries an activity, stepping back
    from [date.min] raises [OverflowError]. *)
Lemma streak_loop_overflow (dates : gset Z) :
  forall (room : nat) (check_date streak : Z),
    Z.to_nat (check_date - date_min) = room -> date_min <= check_date ->
    (forall d, date_min <= d <= check_date -> d ∈ dates) ->
    streak_loop dates check_date streak = Raise OverflowError.
Proof.
  induction room as [|room IH]; intros check_date streak Hroom Hmin Hall;
    rewrite streak_loop_unfold;
    (destruct (bool_decide_reflect (check_date ∈ dates)) as [Hin|Hout];
     [|exfalso; apply Hout, Hall; lia]);
    unfold date_sub_days, date_min in *.
  - destruct (Z.ltb_spec (check_date - 1) 1); [reflexivity | lia].
  - destruct (Z.ltb_spec (check_date - 1) 1); [lia|]. cbn [bind].
    apply IH; [lia | lia | intros d Hd; apply Hall; lia].
Qed.

Lemma dated_after_min_dates (db : Database) (uid : Z) :
  dated_after_min db uid -> forall d, d ∈ activity_dates_of db uid -> date_min < d.
Proof.
  intros H d Hd. unfold activity_dates_of in Hd.
  rewrite elem_of_list_to_set, list_elem_of_In, in_map_iff in Hd.
  destruct Hd as [a [<- Ha]]. now apply H.
Qed.

Lemma calculate_streak_loop (db : Database) (clk : Clock) (self : UserContext) :
  calculate_streak db clk self
  = streak_loop (activity_dates_of db (user_id self)) (dt_date (now clk)) 0.
Proof.
  unfold calculate_streak. rewrite <- collect_dates_of.
  destruct (order_by_desc Activity.timestamp (activities_of db (user_id self))) eqn:E;
    [|reflexivity].
  rewrite streak_loop_unfold. reflexivity.
Qed.

(** The streak is returned, and it is a maximal run ending today. *)
Lemma calculate_streak_run (db : Database) (clk : Clock) (self : UserContext) :
  dated_after_min db (user_id self) ->
  exists n,
    calculate_streak db clk self = Ok n
    /\ maximal_run (activity_dates_of db (user_id self)) (dt_date (now clk)) n.
Proof.
  intros Hmin.
  destruct (streak_loop_run _ (dated_after_min_dates db (user_id self) Hmin)
              _ (dt_date (now clk)) 0 eq_refl) as (n & Hn & Hrun).
  exists n. rewrite calculate_streak_loop, Hn. split; [reflexivity | exact Hrun].
Qed.

(** A maximal run is empty exactly when today is missing. *)
Lemma maximal_run_today (dates : gset Z) (today n : Z) :
  maximal_run dates today n ->
  (today ∉ dates -> n = 0) /\ (today ∈ dates -> 1 <= n).
Proof.
  intros (H0 & Hin & Hout). split.
  - intros Hnot. destruct (Z.eq_dec n 0) as [E|E]; [exact E|].
    exfalso. apply Hnot. rewrite <- (Z.sub_0_r today). apply Hin. lia.
  - intros Htoday. destruct (Z.eq_dec n 0) as [E|E]; [|lia].
    exfalso. apply Hout. rewrite E, Z.sub_0_r. exact Htoday.
Qed.

(** C1. The streak is the size of the maximal run of consecutive calendar
    days that ends today and lies in the set of dates of the user's
    activities: 0 when today is not in the set, whatever came before, at
    least 1 when it is, and cut at the first gap. *)
Theorem calculate_streak_maximal_suffix (db : Database) (clk : Clock) (self : UserContext) :
  dated_after_min db (user_id self) ->
  exists n,
    calculate_streak db clk self = Ok n
    /\ maximal_run (activity_dates_of db (user_id self)) (dt_date (now clk)) n
    /\ (forall m, maximal_run (activity_dates_of db (user_id self)) (dt_date (now clk)) m ->
                  n = m)
    /\ (dt_date (now clk) ∉ activity_dates_of db (user_id self) -> n = 0)
    /\ (dt_date (now clk) ∈ activity_dates_of db (user_id self) -> 1 <= n).
Proof.
  intros Hmin. destruct (calculate_streak_run db clk self Hmin) as (n & Hn & Hrun).
  exists n. split; [exact Hn|]. split; [exact Hrun|].
  split; [intros m Hm; exact (maximal_run_unique _ _ _ _ Hrun Hm)|].
  exact (maximal_run_today _ _ _ Hrun).
Qed.

Lemma gap_db_dated : dated_after_min gap_db 42.
Proof.
  intros a Ha. vm_compute in Ha.
  repeat (destruct Ha as [<-|Ha]; [vm_compute; reflexivity|]). destruct Ha.
Defined.

Lemma calculate_streak_maximal_suffix_witness :
  exists n,
    calculate_streak gap_db (utc_clock (noon june15)) (UserContext_init 42) = Ok n
    /\ n = 3.
Proof.
  destruct (calculate_streak_maximal_suffix gap_db (utc_clock (noon june15))
              (UserContext_init 42) gap_db_dated) as (n & Hn & _).
  exists n. split; [exact Hn|].
  assert (E : calculate_streak gap_db (utc_clock (noon june15)) (UserContext_init 42) = Ok 3)
    by (vm_compute; reflexivity).
  congruence.
Defined.

(** ** Logging an activity *)

Lemma activities_log_activity (db : Database) (clk : Clock) (self : UserContext)
    (description activity_type : string) (mood_score : option Z)
    (notes context_tags : option string) :
  activities (fst (log_activity db clk self description activity_type
                     mood_score notes context_tags))
  = (activities db ++
     [ {| Activity.id := next_id (activities db);
          Activity.user_id := user_id self;
          Activity.goal_id := None;
          Activity.description := description;
          Activity.activity_type := activity_type;
          Activity.timestamp := utcnow clk;
          Activity.mood_score := mood_score;
          Activity.notes := notes;
          Activity.context_tags := context_tags |} ])%list.
Proof.
  unfold log_activity. cbn [fst].
  destruct (first (users_by_telegram_id _ _)); reflexivity.
Qed.

Lemma user_id_log_activity (db : Database) (clk : Clock) (self : UserContext)
    (description activity_type : string) (mood_score : option Z)
    (notes context_tags : option string) :
  snd (log_activity db clk self description activity_type mood_score notes context_tags)
  = UserContext_init (user_id self).
Proof. reflexivity. Qed.

Lemma activities_of_log_activity (db : Database) (clk : Clock) (self : UserContext)
    (description activity_type : string) (mood_score : option Z)
    (notes context_tags : option string) :
  exists a,
    activities_of (fst (log_activity db clk self description activity_type
                          mood_score notes context_tags)) (user_id self)
    = (activities_of db (user_id self) ++ [a])%list
    /\ Activity.timestamp a = utcnow clk
    /\ Activity.description a = description
    /\ Activity.activity_type a = activity_type
    /\ Activity.mood_score a = mood_score
    /\ Activity.context_tags a = context_tags.
Proof.
  eexists. split.
  - unfold activities_of. rewrite activities_log_activity, List.filter_app.
    cbn [List.filter Activity.user_id]. rewrite Z.eqb_refl. reflexivity.
  - cbn. repeat split.
Qed.

Lemma activity_dates_log_activity (db : Database) (clk : Clock) (self : UserContext)
    (description activity_type : string) (mood_score : option Z)
    (notes context_tags : option string) :
  activity_dates_of (fst (log_activity db clk self description activity_type
                            mood_score notes context_tags)) (user_id self)
  = activity_dates_of db (user_id self) ∪ {[ dt_date (utcnow clk) ]}.
Proof.
  destruct (activities_of_log_activity db clk self description activity_type
              mood_score notes context_tags) as (a & Ha & Hts & _).
  unfold activity_dates_of. rewrite Ha, map_app, list_to_set_app_L.
  cbn [map list_to_set]. rewrite Hts. now rewrite union_empty_r_L.
Qed.

Lemma dated_after_min_log_activity (db : Database) (clk : Clock) (self : UserContext)
    (description activity_type : string) (mood_score : option Z)
    (notes context_tags : option string) :
  dated_after_min db (user_id self) -> date_min < dt_date (utcnow clk) ->
  dated_after_min (fst (log_activity db clk self description activity_type
                          mood_score notes context_tags)) (user_id self).
Proof.
  intros Hdb Hclk b Hb.
  destruct (activities_of_log_activity db clk self description activity_type
              mood_score notes context_tags) as (a & Ha & Hts & _).
  rewrite Ha in Hb. apply in_app_or in Hb. destruct Hb as [Hb|[<-|[]]].
  - now apply Hdb.
  - now rewrite Hts.
Qed.

(** C10. The streak counts back from the local date of the process while
    an activity is stamped with the UTC time.  Right after logging, the
    streak is at least 1 when the two dates agree; when they differ the
    new activity is not dated today, and the streak is 0 unless an older
    activity carries today's date. *)
Theorem streak_after_log_activity (db : Database) (clk : Clock) (self : UserContext)
    (description activity_type : string) (mood_score : option Z)
    (notes context_tags : option string) :
  dated_after_min db (user_id self) -> date_min < dt_date (utcnow clk) ->
  exists n,
    calculate_streak
      (fst (log_activity db clk self description activity_type mood_score notes context_tags))
      clk
      (snd (log_activity db clk self description activity_type mood_score notes context_tags))
    = Ok n
    /\ (dt_date (now clk) = dt_date (utcnow clk) -> 1 <= n)
    /\ (dt_date (now clk) <> dt_date (utcnow clk) ->
        dt_date (now clk) ∉ activity_dates_of db (user_id self) -> n = 0)
    /\ (dt_date (now clk) <> dt_date (utcnow clk) ->
        dt_date (now clk) ∈ activity_dates_of db (user_id self) -> 1 <= n).
Proof.
  intros Hdb Hclk.
  pose proof (dated_after_min_log_activity db clk self description activity_type
                mood_score notes context_tags Hdb Hclk) as Hdb'.
  rewrite user_id_log_activity.
  destruct (calculate_streak_run _ clk (UserContext_init (user_id self)) Hdb')
    as (n & Hn & Hrun).
  apply maximal_run_today in Hrun. destruct Hrun as [H0 H1].
  cbn [UserContext_init user_id] in *.
  rewrite activity_dates_log_activity in H0, H1.
  rewrite elem_of_union, elem_of_singleton in H0, H1.
  exists n. split; [exact Hn|]. split; [|split].
  - intros E. apply H1. now right.
  - intros E Hnot. apply H0. tauto.
  - intros _ Hin. apply H1. now left.
Qed.

Lemma alice_db_dated : dated_after_min alice_db 42.
Proof. intros a Ha. vm_compute in Ha. destruct Ha. Defined.

Lemma streak_after_log_activity_witness :
  (exists n,
     calculate_streak
       (fst (log_activity alice_db (utc_clock (noon june15)) (UserContext_init 42)
               "Launched landing page" "win" (Some 4) None (Some "win,celebration")))
       (utc_clock (noon june15)) (UserContext_init 42) = Ok n
     /\ 1 <= n)
  /\ calculate_streak
       (fst (log_activity alice_db late_clock (UserContext_init 42)
               "Launched landing page" "win" (Some 4) None (Some "win,celebration")))
       late_clock (UserContext_init 42) = Ok 0.
Proof.
  split.
  - destruct (streak_after_log_activity alice_db (utc_clock (noon june15))
                (UserContext_init 42) "Launched landing page" "win" (Some 4) None
                (Some "win,celebration") alice_db_dated)
      as (n & Hn & H1 & _); [vm_compute; reflexivity|].
    exists n. split; [exact Hn | apply H1; reflexivity].
  - destruct (streak_after_log_activity alice_db late_clock
                (UserContext_init 42) "Launched landing page" "win" (Some 4) None
                (Some "win,celebration") alice_db_dated)
      as (n & Hn & _ & H0 & _); [vm_compute; reflexivity|].
    replace 0 with n; [exact Hn|]. apply H0.
    + vm_compute. discriminate.
    + unfold activity_dates_of. change (activities_of alice_db 42) with (@nil Activity.t).
      apply not_elem_of_empty.
Defined.

(** ** Response generation *)

Lemma append_nonempty (c : ascii) (a b : string) : String c a +:+ b <> EmptyString.
Proof. rewrite append_cons. discriminate. Qed.

(** Every fallback template starts with fixed text, so the fallback reply
    is never empty. *)
Lemma fallback_response_nonempty (message : string) (context_data : Dict) :
  fallback_response message context_data <> EmptyString.
Proof.
  rewrite fallback_response_bucket.
  destruct (select_bucket message); apply append_nonempty.
Qed.

Section ResponseGeneration.

Variable datetime_str : datetime -> string.

Lemma generate_response_disabled (self : GeminiCoach) (message : string) (context_data : Dict) :
  enabled self = false ->
  generate_response datetime_str self message context_data
  = fallback_response message context_data.
Proof. intros H. unfold generate_response. now rewrite H. Qed.

(** A hosted call that raises, or that brings no text back, ends in the
    fallback reply: nothing is raised to the caller of
    [generate_response], whose result is a plain string, and that string
    is not empty. *)
Lemma generate_response_degrades (self : GeminiCoach) (message : string) (context_data : Dict) :
  no_text (model self) (create_coaching_prompt datetime_str self message context_data) = true ->
  generate_response datetime_str self message context_data
  = fallback_response message context_data
  /\ generate_response datetime_str self message context_data <> EmptyString.
Proof.
  intros H.
  assert (E : generate_response datetime_str self message context_data
              = fallback_response message context_data).
  { unfold generate_response, try_generate, no_text in *.
    destruct (enabled self); [|reflexivity]. cbn [negb].
    destruct (model self) as [m|]; [|reflexivity]. cbn [bind].
    destruct (generate_content m _) as [[[[t|]|e]|]|e]; cbn [bind response_text];
      try reflexivity.
    destruct (PyStr.truthy t); [discriminate H | reflexivity]. }
  split; [exact E|]. rewrite E. apply fallback_response_nonempty.
Qed.

(** What [handle_message] stores as the origin of a reply depends on
    whether the coach is enabled, not on where the reply came from:
    a fallback reply of an enabled coach is stored as ["gemini"]. *)
Lemma handle_message_origin (self : ExecutionCoachBot) (db : Database) (clk : Clock)
    (update : Update) (context_data : Dict) (user_context : UserContext) :
  get_user_data (fst (get_or_create_user db clk (effective_user update))) clk
    (UserContext_init (TelegramUser.id (effective_user update)))
  = Ok (context_data, user_context) ->
  exists c,
    conversations (fst (handle_message datetime_str self db clk update))
    = (conversations db ++ [c])%list
    /\ Conversation.bot_response c
       = generate_response datetime_str (gemini_coach self) (message_text update) context_data
    /\ Conversation.response_type c
       = (if enabled (gemini_coach self) then "gemini" else "fallback")
    /\ snd (handle_message datetime_str self db clk update)
       = Ok [Conversation.bot_response c].
Proof.
  intros Hctx. unfold handle_message.
  destruct (get_or_create_user db clk (effective_user update)) as [db1 u] eqn:Hu.
  assert (Hc : conversations db1 = conversations db).
  { unfold get_or_create_user in Hu.
    destruct (first (users_by_telegram_id db _)); injection Hu as <- _; reflexivity. }
  cbn [fst] in Hctx. rewrite Hctx, <- Hc. eexists.
  cbn [fst snd conversations add_conversation].
  split; [reflexivity|]. repeat split.
Qed.

End ResponseGeneration.

(** C2 (where the code departs from it).  The hosted model of an enabled
    coach raises on a message of Alice.  [handle_message] does not raise
    and replies with the non-empty fallback text, as the claim has it, but
    the conversation row it stores carries the origin ["gemini"], not
    ["fallback"]. *)
Theorem handle_message_stores_gemini_for_fallback :
  let r := handle_message sample_datetime_str (bot_of failing_coach) alice_db
             (utc_clock (noon june15)) (text_update alice "Sales are slow") in
  enabled failing_coach = true
  /\ snd r = Ok [impatience_reply 0 "planning"]
  /\ map Conversation.bot_response (conversations (fst r))
     = [impatience_reply 0 "planning"]
  /\ map Conversation.response_type (conversations (fst r)) = ["gemini"].
Proof. vm_compute. repeat split. Qed.

(** ** Aggregation after a write *)

Lemma insert_desc_below {A} (key : A -> Z) (x top : A) (l : list A) :
  key x < key top -> insert_desc key x (top :: l) = top :: insert_desc key x l.
Proof. intros H. cbn [insert_desc]. destruct (Z.ltb_spec (key x) (key top)); [reflexivity | lia]. Qed.

(** A row whose key is above all the others comes first, wherever it was
    inserted. *)
Lemma order_by_desc_newest {A} (key : A -> Z) (l : list A) (a : A) :
  (forall x, In x l -> key x < key a) ->
  order_by_desc key (l ++ [a]) = a :: order_by_desc key l.
Proof.
  induction l as [|x l IH]; intros H; [reflexivity|].
  cbn [app order_by_desc fold_right].
  change (fold_right (insert_desc key) [] (l ++ [a])) with (order_by_desc key (l ++ [a])).
  rewrite IH by (intros y Hy; apply H; now right).
  apply insert_desc_below. apply H. now left.
Qed.

Lemma first_update_first {A} (p : A -> bool) (f : A -> A) (l : list A) :
  (forall r, p r = true -> p (f r) = true) ->
  first (List.filter p (update_first p f l)) = option_map f (first (List.filter p l)).
Proof.
  intros Hp. induction l as [|r l IH]; [reflexivity|].
  cbn [update_first List.filter]. destruct (p r) eqn:E.
  - cbn [List.filter]. now rewrite (Hp r E).
  - cbn [List.filter]. rewrite E. exact IH.
Qed.

Lemma users_by_telegram_id_log_activity (db : Database) (clk : Clock) (self : UserContext)
    (description activity_type : string) (mood_score : option Z)
    (notes context_tags : option string) :
  first (users_by_telegram_id
           (fst (log_activity db clk self description activity_type
                   mood_score notes context_tags)) (user_id self))
  = option_map (count_activity clk) (first (users_by_telegram_id db (user_id self))).
Proof.
  unfold log_activity. cbn [fst].
  change (users_by_telegram_id (add_activity db ?a) ?u) with (users_by_telegram_id db u).
  destruct (first (users_by_telegram_id db (user_id self))) as [u|] eqn:E.
  - unfold users_by_telegram_id at 1. cbn [users set_users add_activity].
    rewrite first_update_first by (intros r Hr; exact Hr).
    unfold users_by_telegram_id in E. now rewrite E.
  - exact E.
Qed.

(** The round trip of the cache contract: [log_activity] resets the
    cache, so the next [get_user_data] on the same object reads the store
    again; the new activity heads [recent_activities] and the total count
    is one higher. *)
Lemma log_activity_then_get_user_data (db : Database) (clk clk' : Clock) (self : UserContext)
    (description activity_type : string) (mood_score : option Z)
    (notes context_tags : option string) (u : User.t) :
  first (users_by_telegram_id db (user_id self)) = Some u ->
  (forall a, In a (activities_of db (user_id self)) -> Activity.timestamp a < utcnow clk) ->
  dated_after_min db (user_id self) -> date_min < dt_date (utcnow clk) ->
  exists d a rest,
    get_user_data
      (fst (log_activity db clk self description activity_type mood_score notes context_tags))
      clk'
      (snd (log_activity db clk self description activity_type mood_score notes context_tags))
    = Ok (ContextDict d, {| user_id := user_id self; _user_data := Some (ContextDict d) |})
    /\ Ctx.recent_activities d = a :: rest
    /\ Activity.description a = description
    /\ Activity.activity_type a = activity_type
    /\ Activity.timestamp a = utcnow clk
    /\ Ctx.total_activities d = User.total_activities u + 1.
Proof.
  intros Hu Hnew Hdb Hclk.
  pose proof (dated_after_min_log_activity db clk self description activity_type
                mood_score notes context_tags Hdb Hclk) as Hdb'.
  destruct (calculate_streak_run _ clk' (UserContext_init (user_id self)) Hdb')
    as (n & Hn & _).
  destruct (activities_of_log_activity db clk self description activity_type
              mood_score notes context_tags) as (a & Ha & Hts & Hd & Hty & _).
  rewrite user_id_log_activity. unfold get_user_data.
  cbn [_user_data UserContext_init user_id] in *.
  rewrite users_by_telegram_id_log_activity, Hu. cbn [option_map].
  rewrite Hn. cbn [bind]. rewrite Ha.
  rewrite order_by_desc_newest by (intros x Hx; rewrite Hts; now apply Hnew).
  eexists. exists a. eexists. split; [reflexivity|].
  cbn [Ctx.recent_activities Ctx.total_activities limit firstn count_activity
       User.total_activities].
  repeat split; assumption.
Qed.

Example log_activity_then_get_user_data_alice :
  exists d a rest,
    get_user_data
      (fst (log_activity alice_db (utc_clock (noon june15)) (UserContext_init 42)
              "Shipped the beta" "milestone" None None None))
      (utc_clock (noon june15))
      (snd (log_activity alice_db (utc_clock (noon june15)) (UserContext_init 42)
              "Shipped the beta" "milestone" None None None))
    = Ok (ContextDict d, {| user_id := 42; _user_data := Some (ContextDict d) |})
    /\ Ctx.recent_activities d = a :: rest
    /\ Activity.description a = "Shipped the beta"
    /\ Ctx.total_activities d = 1.
Proof.
  destruct (log_activity_then_get_user_data alice_db (utc_clock (noon june15))
              (utc_clock (noon june15)) (UserContext_init 42)
              "Shipped the beta" "milestone" None None None
              (new_user empty_db (utc_clock (noon (june15 - 14))) alice))
    as (d & a & rest & Hget & Hrecent & Hdesc & _ & _ & Htotal).
  - reflexivity.
  - intros a Ha. vm_compute in Ha. destruct Ha.
  - intros a Ha. vm_compute in Ha. destruct Ha.
  - vm_compute. reflexivity.
  - exists d, a, rest. repeat split; assumption.
Qed.

(** C3 (where the code departs from it).  Alice, who has logged nothing
    yet, sends [/stuck] to a bot whose model echoes its prompt.  The
    handler aggregates first, logs the blocker second, and assembles the
    prompt from the context it aggregated before the write: the prompt
    counts 0 actions and lists no recent activity, while the store, and a
    fresh aggregation from it, hold the blocker and a count of 1. *)
Theorem handle_stuck_prompt_is_stale :
  let clk := utc_clock (noon june15) in
  let r := handle_stuck sample_datetime_str (bot_of echo_coach) alice_db clk
             (command_update alice []) in
  (exists reply,
      snd r = Ok [reply]
      /\ PyStr.contains "Total actions taken: 0" reply = true
      /\ PyStr.contains "Current streak: 0 days" reply = true
      /\ PyStr.contains "Recent activities:" reply = false)
  /\ map Activity.description (activities (fst r)) = ["User reported feeling stuck"]
  /\ map User.total_activities (users (fst r)) = [1]
  /\ (exists d uc,
        get_user_data (fst r) clk (UserContext_init 42) = Ok (ContextDict d, uc)
        /\ Ctx.total_activities d = 1
        /\ Ctx.current_streak d = 1
        /\ map Activity.description (Ctx.recent_activities d)
           = ["User reported feeling stuck"]).
Proof.
  cbv zeta. split; [|split; [|split]].
  - eexists. split; [vm_compute; reflexivity|]. vm_compute. repeat split.
  - vm_compute. reflexivity.
  - vm_compute. reflexivity.
  - eexists. eexists. split; [vm_compute; reflexivity|]. vm_compute. repeat split.
Qed.

(** ** Aggregation without a user row *)

Lemma user_exists_first (db : Database) (uid : Z) :
  user_exists db uid = false <-> first (users_by_telegram_id db uid) = None.
Proof.
  unfold user_exists, users_by_telegram_id.
  induction (users db) as [|u us IH]; cbn [existsb List.filter]; [tauto|].
  destruct (User.telegram_id u =? uid); cbn [orb]; [|exact IH].
  split; discriminate.
Qed.

Lemma user_exists_first_some (db : Database) (uid : Z) :
  user_exists db uid = true <-> exists u, first (users_by_telegram_id db uid) = Some u.
Proof.
  destruct (user_exists db uid) eqn:E.
  - split; [intros _|reflexivity].
    destruct (first (users_by_telegram_id db uid)) as [u|] eqn:F; [now exists u|].
    apply user_exists_first in F. congruence.
  - apply user_exists_first in E. rewrite E. split; [discriminate | intros [u H]; discriminate].
Qed.

(** C6 as stated does not hold: aggregation for an identity without a
    [User] row does not fail. *)
Lemma get_user_data_does_not_fail :
  ~ (forall db clk uid, user_exists db uid = false ->
       exists e, get_user_data db clk (UserContext_init uid) = Raise e).
Proof.
  intros H. destruct (H empty_db (utc_clock (noon june15)) 42 eq_refl) as [e He].
  discriminate He.
Qed.

(** C6, amended.  For an identity without a [User] row, [get_user_data]
    returns the empty dict and caches nothing; its callers read defaults
    from it, as [/progress] does; the prompt to use [/start] first comes
    from [/idea] and [/phase], which look the row up themselves. *)
Theorem get_user_data_without_user (db : Database) (clk : Clock) (self : UserContext) :
  _user_data self = None -> user_exists db (user_id self) = false ->
  get_user_data db clk self = Ok (EmptyDict, self)
  /\ (forall update, TelegramUser.id (effective_user update) = user_id self ->
        show_progress db clk update
        = (db, Ok ["
📊 **Your Execution Progress**

🔥 Current streak: **0 days**
📈 Total actions: **0**
📅 Days as entrepreneur: **0**
🚀 Phase: **Not set**

**Recent Activities:**
• No recent activities logged

💪 Keep building momentum! Every action counts."]))
  /\ (forall update, TelegramUser.id (effective_user update) = user_id self ->
        args update <> [] -> set_business_idea db update = (db, Ok [START_FIRST]))
  /\ (forall update, TelegramUser.id (effective_user update) = user_id self ->
        existsb (String.eqb (PyStr.lower (hd EmptyString (args update)))) valid_phases = true ->
        args update <> [] -> set_phase db update = (db, Ok [START_FIRST])).
Proof.
  intros Hcache Hnone. pose proof Hnone as Hfirst. apply user_exists_first in Hfirst.
  assert (Hget : forall uc, _user_data uc = None -> user_id uc = user_id self ->
                            get_user_data db clk uc = Ok (EmptyDict, uc)).
  { intros uc Hc Hid. unfold get_user_data. now rewrite Hc, Hid, Hfirst. }
  split; [now apply Hget|]. split; [|split].
  - intros update Hid. unfold show_progress.
    rewrite (Hget (UserContext_init (TelegramUser.id (effective_user update))) eq_refl Hid).
    reflexivity.
  - intros update Hid Hargs. unfold set_business_idea.
    destruct (args update); [congruence|]. now rewrite Hid, Hfirst.
  - intros update Hid Hphase Hargs. unfold set_phase.
    destruct (args update) as [|arg0 rest]; [congruence|].
    cbn [hd] in Hphase. now rewrite Hphase, Hid, Hfirst.
Qed.

Lemma get_user_data_without_user_witness :
  get_user_data alice_db (utc_clock (noon june15)) (UserContext_init 43)
  = Ok (EmptyDict, UserContext_init 43)
  /\ set_phase alice_db (command_update bob ["MVP"]) = (alice_db, Ok [START_FIRST]).
Proof.
  destruct (get_user_data_without_user alice_db (utc_clock (noon june15))
              (UserContext_init 43) eq_refl eq_refl) as (Hget & _ & _ & Hphase).
  split; [exact Hget|].
  apply Hphase; [reflexivity | vm_compute; reflexivity | discriminate].
Defined.

(** ** Scheduled sweeps *)

Lemma sweep_round_outcome (body : User.t -> result string) (send : Z -> string -> result unit)
    (log : list SweepLog) (user : User.t) :
  sweep_round body send log user = (log ++ [round_outcome body send user])%list.
Proof.
  unfold sweep_round, round_outcome.
  destruct (body user) as [text|e]; cbn [bind]; [|reflexivity].
  destruct (send (User.telegram_id user) text) as [[]|e]; reflexivity.
Qed.

(** The loop of a sweep leaves one line per user, in order, and the line
    of a user depends on nothing but that user. *)
Lemma sweep_loop (body : User.t -> result string) (send : Z -> string -> result unit)
    (active_users : list User.t) (log : list SweepLog) :
  fold_left (sweep_round body send) active_users log
  = (log ++ map (round_outcome body send) active_users)%list.
Proof.
  revert log. induction active_users as [|u us IH]; intros log; cbn [fold_left map].
  - now rewrite app_nil_r.
  - rewrite IH, sweep_round_outcome, <- app_assoc. reflexivity.
Qed.

Lemma sweep_target_round (body : User.t -> result string) (send : Z -> string -> result unit)
    (user : User.t) :
  sweep_target (round_outcome body send user) = Some (User.telegram_id user).
Proof.
  unfold round_outcome. destruct (body user) as [text|e]; [|reflexivity].
  destruct (send (User.telegram_id user) text); reflexivity.
Qed.

(** C9. Both sweeps go through exactly the users whose [last_active] is
    later than seven days before now, in table order, and leave one line
    per such user whatever the transport does: a message it refuses is
    logged as a failure for that user and the users after it are still
    served. *)
Theorem sweeps_cover_active_users (self : ExecutionCoachBot) (db : Database) (clk : Clock) :
  7 * US_PER_DAY <= utcnow clk ->
  let active_users := active_since db (utcnow clk - 7 * US_PER_DAY) in
  (forall u, In u active_users
             <-> In u (users db) /\ utcnow clk - 7 * US_PER_DAY < User.last_active u)
  /\ daily_checkin self db clk
     = map (round_outcome (checkin_msg db clk) (send_message self)) active_users
  /\ weekly_planning_reminder self db clk
     = map (round_outcome (fun _ => Ok WEEKLY_REMINDER) (send_message self)) active_users
  /\ map sweep_target (daily_checkin self db clk)
     = map (fun u => Some (User.telegram_id u)) active_users
  /\ map sweep_target (weekly_planning_reminder self db clk)
     = map (fun u => Some (User.telegram_id u)) active_users
  /\ (forall u, In u active_users ->
        match send_message self (User.telegram_id u) WEEKLY_REMINDER with
        | Ok _ => In (Sent (User.telegram_id u) WEEKLY_REMINDER)
                    (weekly_planning_reminder self db clk)
        | Raise e => In (FailedToSend (User.telegram_id u) e)
                       (weekly_planning_reminder self db clk)
        end).
Proof.
  intros Hclk active_users.
  assert (Hweek : datetime_sub_days (utcnow clk) 7 = Ok (utcnow clk - 7 * US_PER_DAY)).
  { unfold datetime_sub_days. destruct (Z.ltb_spec (utcnow clk - 7 * US_PER_DAY) 0);
      [lia | reflexivity]. }
  assert (Hd : daily_checkin self db clk
               = map (round_outcome (checkin_msg db clk) (send_message self)) active_users).
  { unfold daily_checkin. rewrite Hweek. apply sweep_loop. }
  assert (Hw : weekly_planning_reminder self db clk
               = map (round_outcome (fun _ => Ok WEEKLY_REMINDER) (send_message self))
                   active_users).
  { unfold weekly_planning_reminder. rewrite Hweek. apply sweep_loop. }
  split; [|split; [exact Hd|split; [exact Hw|split; [|split]]]].
  - intros u. unfold active_users, active_since. rewrite filter_In, Z.ltb_lt. tauto.
  - rewrite Hd, map_map. apply map_ext. intros u. apply sweep_target_round.
  - rewrite Hw, map_map. apply map_ext. intros u. apply sweep_target_round.
  - intros u Hu. rewrite Hw.
    destruct (send_message self (User.telegram_id u) WEEKLY_REMINDER) as [[]|e] eqn:E;
      apply in_map_iff; exists u; (split; [|exact Hu]);
      unfold round_outcome; now rewrite E.
Qed.

Lemma sweeps_cover_active_users_witness :
  weekly_planning_reminder alice_blocked_bot three_users_db (utc_clock (noon june15))
  = [ FailedToSend 42 (ServiceError "Forbidden: bot was blocked by the user");
      Sent 43 WEEKLY_REMINDER ]
  /\ map sweep_target
       (daily_checkin alice_blocked_bot three_users_db (utc_clock (noon june15)))
     = [Some 42; Some 43].
Proof.
  assert (Hclk : 7 * US_PER_DAY <= utcnow (utc_clock (noon june15)))
    by (vm_compute; discriminate).
  destruct (sweeps_cover_active_users alice_blocked_bot three_users_db
              (utc_clock (noon june15)) Hclk) as (_ & _ & Hw & Hd & _).
  split; [rewrite Hw | rewrite Hd]; vm_compute; reflexivity.
Defined.

(** ** Soft references to users *)

Lemma referential_integrity_iff (db : Database) :
  referential_integrity db = true <-> references_hold db.
Proof.
  unfold referential_integrity, references_hold.
  rewrite !andb_true_iff, !forallb_forall. tauto.
Qed.

Lemma user_exists_update_first (db : Database) (uid uid' : Z) (f : User.t -> User.t) :
  (forall u, User.telegram_id (f u) = User.telegram_id u) ->
  user_exists
    (set_users db (update_first (fun u => User.telegram_id u =? uid') f (users db))) uid
  = user_exists db uid.
Proof.
  intros Hf. unfold user_exists. cbn [users set_users].
  induction (users db) as [|u us IH]; [reflexivity|].
  cbn [update_first]. destruct (User.telegram_id u =? uid'); cbn [existsb].
  - now rewrite Hf.
  - now rewrite IH.
Qed.

Lemma user_exists_new (db : Database) (u : User.t) (uid : Z) :
  user_exists (set_users db (users db ++ [u])) uid
  = user_exists db uid || (User.telegram_id u =? uid).
Proof.
  unfold user_exists. cbn [users set_users]. rewrite existsb_app. cbn [existsb].
  now rewrite orb_false_r.
Qed.

(** Rows stay referenced when the users table keeps every identity. *)
Lemma references_hold_users (db : Database) (us : list User.t) :
  (forall uid, user_exists db uid = true -> user_exists (set_users db us) uid = true) ->
  references_hold db -> references_hold (set_users db us).
Proof.
  intros Hmono (Hg & Ha & Hc & Hp). repeat split; intros r Hr; apply Hmono; auto.
Qed.

Lemma references_hold_add_activity (db : Database) (a : Activity.t) :
  user_exists db (Activity.user_id a) = true ->
  references_hold db -> references_hold (add_activity db a).
Proof.
  intros Hu (Hg & Ha & Hc & Hp). repeat split; auto.
  intros b Hb. cbn [activities add_activity] in Hb. apply in_app_or in Hb.
  destruct Hb as [Hb|[<-|[]]]; [now apply Ha | exact Hu].
Qed.

Lemma references_hold_add_goal (db : Database) (g : Goal.t) :
  user_exists db (Goal.user_id g) = true ->
  references_hold db -> references_hold (add_goal db g).
Proof.
  intros Hu (Hg & Ha & Hc & Hp). repeat split; auto.
  intros b Hb. cbn [goals add_goal] in Hb. apply in_app_or in Hb.
  destruct Hb as [Hb|[<-|[]]]; [now apply Hg | exact Hu].
Qed.

Lemma references_hold_add_conversation (db : Database) (c : Conversation.t) :
  user_exists db (Conversation.user_id c) = true ->
  references_hold db -> references_hold (add_conversation db c).
Proof.
  intros Hu (Hg & Ha & Hc & Hp). repeat split; auto.
  intros b Hb. cbn [conversations add_conversation] in Hb. apply in_app_or in Hb.
  destruct Hb as [Hb|[<-|[]]]; [now apply Hc | exact Hu].
Qed.

(** [get_or_create_user] keeps the references and leaves the sender with
    a row. *)
Lemma references_hold_get_or_create_user (db : Database) (clk : Clock) (tu : TelegramUser.t) :
  references_hold db ->
  references_hold (fst (get_or_create_user db clk tu))
  /\ user_exists (fst (get_or_create_user db clk tu)) (TelegramUser.id tu) = true.
Proof.
  intros H. unfold get_or_create_user.
  destruct (first (users_by_telegram_id db (TelegramUser.id tu))) as [u|] eqn:E; cbn [fst].
  - split.
    + apply references_hold_users; [|exact H]. intros uid Huid.
      now rewrite user_exists_update_first.
    + rewrite user_exists_update_first by reflexivity.
      apply user_exists_first_some. now exists u.
  - split.
    + apply references_hold_users; [|exact H]. intros uid Huid.
      now rewrite user_exists_new, Huid.
    + rewrite user_exists_new. cbn [new_user User.telegram_id].
      now rewrite Z.eqb_refl, orb_true_r.
Qed.

(** [log_activity] keeps the references when its user has a row. *)
Lemma references_hold_log_activity (db : Database) (clk : Clock) (self : UserContext)
    (description activity_type : string) (mood_score : option Z)
    (notes context_tags : option string) :
  user_exists db (user_id self) = true -> references_hold db ->
  references_hold (fst (log_activity db clk self description activity_type
                          mood_score notes context_tags)).
Proof.
  intros Hu H. unfold log_activity. cbn [fst].
  match goal with
  | |- context [add_activity db ?a] =>
      assert (Hadd : references_hold (add_activity db a))
        by (apply references_hold_add_activity; [exact Hu | exact H]);
      set (db1 := add_activity db a) in *
  end.
  destruct (first (users_by_telegram_id db1 (user_id self))); [|exact Hadd].
  apply references_hold_users; [|exact Hadd].
  intros uid Huid. now rewrite user_exists_update_first.
Qed.

Lemma references_hold_user_update (db : Database) (uid : Z) (f : User.t -> User.t) :
  (forall u, User.telegram_id (f u) = User.telegram_id u) ->
  references_hold db ->
  references_hold
    (set_users db (update_first (fun u => User.telegram_id u =? uid) f (users db))).
Proof.
  intros Hf H. apply references_hold_users; [|exact H].
  intros uid' Huid. now rewrite user_exists_update_first.
Qed.

Section Routing.

Variable datetime_str : datetime -> string.

(** One routed update keeps the references, provided the sender has a
    row or the handler creates it. *)
Lemma references_hold_route (self : ExecutionCoachBot) (db : Database) (clk : Clock)
    (cmd : Command) (update : Update) :
  creates_user cmd || user_exists db (TelegramUser.id (effective_user update)) = true ->
  references_hold db ->
  references_hold (route datetime_str self db clk cmd update).
Proof.
  intros Hguard H.
  destruct cmd; cbn [creates_user orb] in Hguard; cbn [route].
  - (* /start *)
    unfold start_command.
    pose proof (references_hold_get_or_create_user db clk (effective_user update) H) as [H1 _].
    destruct (get_or_create_user db clk (effective_user update)). exact H1.
  - (* free text *)
    unfold handle_message.
    pose proof (references_hold_get_or_create_user db clk (effective_user update) H)
      as [H1 Hu].
    destruct (get_or_create_user db clk (effective_user update)) as [db1 u]. cbn [fst] in *.
    destruct (get_user_data db1 clk _) as [[context_data user_context]|e]; [|exact H1].
    cbn [fst]. apply references_hold_add_conversation; [exact Hu | exact H1].
  - (* /idea *)
    unfold set_business_idea. destruct (args update); [exact H|].
    destruct (first (users_by_telegram_id db _)); [|exact H].
    cbn [fst]. now apply references_hold_user_update.
  - (* /phase *)
    unfold set_phase. destruct (args update); [exact H|].
    destruct (existsb _ valid_phases); [|exact H].
    destruct (first (users_by_telegram_id db _)); [|exact H].
    cbn [fst]. now apply references_hold_user_update.
  - (* /goal *)
    unfold set_goal. destruct (args update); [exact H|].
    cbn [fst]. apply references_hold_add_goal; [exact Hguard | exact H].
  - (* /stuck *)
    unfold handle_stuck.
    destruct (get_user_data db clk _) as [[context_data user_context]|e] eqn:E; [|exact H].
    assert (Hid : user_id user_context = TelegramUser.id (effective_user update)).
    { unfold get_user_data in E. cbn [_user_data UserContext_init user_id] in E.
      destruct (first (users_by_telegram_id db _)); [|injection E as _ <-; reflexivity].
      destruct (calculate_streak db clk _); [|discriminate E].
      cbn [bind] in E. injection E as _ <-. reflexivity. }
    pose proof (references_hold_log_activity db clk user_context
                  "User reported feeling stuck" "blocker" None None
                  (Some "procrastination,stuck")) as Hlog.
    rewrite Hid in Hlog. specialize (Hlog Hguard H).
    destruct (log_activity db clk user_context _ _ _ _ _). exact Hlog.
  - (* /win *)
    unfold log_win.
    pose proof (references_hold_log_activity db clk
                  (UserContext_init (TelegramUser.id (effective_user update)))
                  (win_description_of (args update)) "win" (Some 4) None
                  (Some "win,celebration") Hguard H) as Hlog.
    destruct (log_activity db clk _ _ _ _ _ _) as [db1 uc]. cbn [fst] in Hlog.
    destruct (get_user_data db1 clk uc) as [[context_data user_context]|e]; exact Hlog.
  - (* /ideas *)
    unfold generate_business_ideas_command_store, agent_command_store.
    destruct (get_user_data db clk _) as [[context_data user_context]|e] eqn:E; [|exact H].
    assert (Hid : user_id user_context = TelegramUser.id (effective_user update)).
    { unfold get_user_data in E. cbn [_user_data UserContext_init user_id] in E.
      destruct (first (users_by_telegram_id db _)); [|injection E as _ <-; reflexivity].
      destruct (calculate_streak db clk _); [|discriminate E].
      cbn [bind] in E. injection E as _ <-. reflexivity. }
    pose proof (references_hold_log_activity db clk user_context
                  "Generated business ideas" "planning" None None
                  (Some "business_ideas,brainstorming")) as Hlog.
    rewrite Hid in Hlog. specialize (Hlog Hguard H).
    destruct (log_activity db clk user_context _ _ _ _ _). exact Hlog.
  - (* /research *)
    unfold market_research_command_store, agent_command_store.
    destruct (args update) as [|topic rest]; [exact H|].
    destruct (get_user_data db clk _) as [[context_data user_context]|e] eqn:E; [|exact H].
    assert (Hid : user_id user_context = TelegramUser.id (effective_user update)).
    { unfold get_user_data in E. cbn [_user_data UserContext_init user_id] in E.
      destruct (first (users_by_telegram_id db _)); [|injection E as _ <-; reflexivity].
      destruct (calculate_streak db clk _); [|discriminate E].
      cbn [bind] in E. injection E as _ <-. reflexivity. }
    match goal with
    | |- context [log_activity db clk user_context ?d ?t ?m ?n ?c] =>
        pose proof (references_hold_log_activity db clk user_context d t m n c) as Hlog
    end.
    rewrite Hid in Hlog. specialize (Hlog Hguard H).
    destruct (log_activity db clk user_context _ _ _ _ _). exact Hlog.
Qed.

(** C7, amended.  In every store reached while each sender has a [User]
    row before any command of theirs other than [/start] or free text is
    handled, every goal, activity, conversation and progress row carries
    the identity of an existing user. *)
Theorem initialized_references_hold (db : Database) :
  reachable_initialized datetime_str db -> referential_integrity db = true.
Proof.
  intros Hreach. apply referential_integrity_iff.
  induction Hreach as [|self db clk cmd update _ IH Hguard].
  - repeat split; intros r [].
  - now apply references_hold_route.
Qed.

End Routing.

(** C7 as stated does not hold: [/goal] from a sender who never sent
    [/start] leaves a goal that references no user. *)
Lemma goal_without_user_breaks_references :
  exists db, reachable sample_datetime_str db /\ referential_integrity db = false.
Proof.
  exists (route sample_datetime_str (bot_of no_key_coach) empty_db (utc_clock (noon june15))
            CmdGoal (command_update alice ["Ship"; "the"; "MVP"])).
  split; [apply reachable_route, reachable_empty | vm_compute; reflexivity].
Qed.

Lemma initialized_references_hold_witness :
  referential_integrity
    (route sample_datetime_str (bot_of no_key_coach)
       (route sample_datetime_str (bot_of no_key_coach) empty_db
          (utc_clock (noon (june15 - 1))) CmdStart (command_update alice []))
       (utc_clock (noon june15)) CmdGoal (command_update alice ["Ship"; "the"; "MVP"]))
  = true.
Proof.
  apply (initialized_references_hold sample_datetime_str).
  apply initialized_route; [|vm_compute; reflexivity].
  apply initialized_route; [apply initialized_empty | reflexivity].
Defined.

(** ** Decimal renderings *)

Lemma append_assoc (a b c : string) : (a +:+ b) +:+ c = a +:+ (b +:+ c).
Proof.
  induction a as [|x a IH]; [reflexivity|]. rewrite !append_cons. now rewrite IH.
Qed.

Lemma contains_app_l (a b s : string) :
  PyStr.contains (a +:+ b) s = true -> PyStr.contains a s = true.
Proof.
  rewrite !contains_app. intros (before & after & ->).
  exists before, (b +:+ after). now rewrite append_assoc.
Qed.

Lemma string_of_uint_digits (u : Decimal.uint) :
  all_digits (NilEmpty.string_of_uint u) = true.
Proof. induction u; cbn [NilEmpty.string_of_uint all_digits]; try reflexivity; exact IHu. Qed.

Lemma to_uint_normal (p : positive) : Decimal.unorm (Pos.to_uint p) = Pos.to_uint p.
Proof.
  rewrite <- (DecimalPos.Unsigned.to_of (Pos.to_uint p)).
  now rewrite DecimalPos.Unsigned.of_to.
Qed.

(** The rendering of a positive number is a run of digits that starts with
    a non-zero digit. *)
Lemma of_int_positive (n : Z) :
  1 <= n ->
  exists c rest, PyStr.of_int n = String c rest
                 /\ is_nonzero_digit c = true /\ all_digits rest = true.
Proof.
  intros Hn. destruct n as [|p|p]; try lia.
  unfold PyStr.of_int. cbn [Z.to_int NilZero.string_of_int].
  pose proof (DecimalPos.Unsigned.to_uint_nonnil p) as Hnil.
  pose proof (DecimalPos.Unsigned.to_uint_nonzero p) as Hzero.
  pose proof (to_uint_normal p) as Hnorm.
  pose proof (string_of_uint_digits (Pos.to_uint p)) as Hdigits.
  unfold NilZero.string_of_uint.
  destruct (Pos.to_uint p) as [|u|u|u|u|u|u|u|u|u|u] eqn:E;
    try (cbn [NilEmpty.string_of_uint all_digits] in *; eexists; eexists;
         split; [reflexivity|]; split; [reflexivity | exact Hdigits]).
  - congruence.
  - exfalso. unfold Decimal.unorm in Hnorm.
    destruct (Decimal.nzhead (Decimal.D0 u)) eqn:F;
      try (now apply (DecimalFacts.nzhead_nonzero (Decimal.D0 u) u); rewrite F, Hnorm).
    apply Hzero. now rewrite <- Hnorm.
Qed.

Lemma skip_digits_run (rest pat : string) (p : ascii) :
  all_digits rest = true -> is_digit p = false ->
  skip_digits (rest +:+ String p pat) = String p pat.
Proof.
  intros Hrest Hp. induction rest as [|c rest IH].
  - change (skip_digits (String p pat) = String p pat).
    cbn [skip_digits]. now rewrite Hp.
  - rewrite append_cons. cbn [all_digits] in Hrest. apply andb_true_iff in Hrest.
    destruct Hrest as [Hc Hrest]. cbn [skip_digits]. rewrite Hc. now apply IH.
Qed.

Lemma positive_before_app (pat before s : string) :
  positive_before pat s = true -> positive_before pat (before +:+ s) = true.
Proof.
  intros H. induction before as [|c before IH]; [exact H|].
  rewrite append_cons. cbn [positive_before]. rewrite IH. apply orb_true_r.
Qed.

(** A reply that reads "[n][pat]" for some [n >= 1] is caught by
    [positive_before]. *)
Lemma positive_before_sound (n : Z) (p : ascii) (pat s : string) :
  1 <= n -> is_digit p = false ->
  PyStr.contains (PyStr.of_int n +:+ String p pat) s = true ->
  positive_before (String p pat) s = true.
Proof.
  intros Hn Hp Hc. destruct (of_int_positive n Hn) as (c & rest & E & Hc0 & Hrest).
  rewrite E in Hc. apply contains_app in Hc. destruct Hc as (before & after & ->).
  apply positive_before_app. rewrite append_assoc, append_cons.
  cbn [positive_before]. rewrite Hc0. cbn [andb].
  change (String p pat +:+ after) with (String p (pat +:+ after)).
  rewrite skip_digits_run by assumption.
  replace (String.prefix (String p pat) (String p (pat +:+ after))) with true; [reflexivity|].
  symmetry. apply prefix_app. now exists after.
Qed.

Lemma nonzero_digit_cases (c : ascii) :
  is_nonzero_digit c = true -> In c nonzero_digits.
Proof.
  destruct c as [[] [] [] [] [] [] [] []]; intros H; try discriminate H;
    vm_compute; tauto.
Qed.

(** A reply that reads "[pat][n]" for some [n >= 1] is caught by
    [positive_after]. *)
Lemma positive_after_sound (n : Z) (pat s : string) :
  1 <= n -> PyStr.contains (pat +:+ PyStr.of_int n) s = true ->
  positive_after pat s = true.
Proof.
  intros Hn Hc. destruct (of_int_positive n Hn) as (c & rest & E & Hc0 & _).
  unfold positive_after. apply existsb_exists. exists c.
  split; [now apply nonzero_digit_cases|].
  apply (contains_app_l _ rest). rewrite append_assoc.
  change (String c EmptyString +:+ rest) with (String c rest). now rewrite <- E.
Qed.

(** A reply in which neither scan finds a count shows no streak of at
    least one day. *)
Lemma no_streak_shown (reply : string) :
  positive_before "-day" reply = false -> positive_after "day " reply = false ->
  ~ exists n, 1 <= n /\ shows_streak reply n.
Proof.
  intros Hb Ha (n & Hn & [H|H]).
  - apply (positive_before_sound n "-" "day" reply Hn eq_refl) in H. congruence.
  - apply (positive_after_sound n "day " reply Hn) in H. congruence.
Qed.

(** ** Logging a win *)

Lemma celebration_signalled (description : string) :
  signals Celebration (celebration_message description) = true.
Proof.
  unfold signals. apply any_in_true. exists "achieved". split; [cbn; tauto|].
  unfold celebration_message. rewrite !lower_app. apply contains_app.
  exists "i just ", (" a win: " +:+ PyStr.lower description
                     +:+ PyStr.lower ". Please celebrate with me and help me build on this momentum!").
  reflexivity.
Qed.

(** The celebration reply names day [streak + 1]. *)
Lemma celebration_reply_shows (before : string) (streak : Z) (phase : string) :
  shows_streak (before +:+ celebration_reply streak phase) (streak + 1).
Proof.
  right. apply contains_app. unfold celebration_reply.
  exists (before +:+ "🎉 Amazing work! That's "),
         (" of taking action. This is exactly how momentum builds in the " +:+ phase
          +:+ " phase. What felt good about completing that? And what's the next small step to keep this energy going? 💪").
  rewrite !append_assoc. reflexivity.
Qed.

(** Aggregation on a fresh [UserContext] returns, with a streak that is
    not negative. *)
Lemma get_user_data_streak (db : Database) (clk : Clock) (self : UserContext) :
  dated_after_min db (user_id self) -> _user_data self = None ->
  exists context_data user_context,
    get_user_data db clk self = Ok (context_data, user_context)
    /\ 0 <= dict_get Ctx.current_streak 0 context_data.
Proof.
  intros Hdb Hcache. unfold get_user_data. rewrite Hcache.
  destruct (first (users_by_telegram_id db (user_id self))) as [u|].
  - destruct (calculate_streak_run db clk self Hdb) as (n & Hn & (H0 & _)).
    rewrite Hn. cbn [bind]. eexists. eexists. split; [reflexivity|]. exact H0.
  - exists EmptyDict, self. split; [reflexivity|]. cbn. lia.
Qed.

Section LoggingAWin.

Variable datetime_str : datetime -> string.

Lemma generate_response_falls_back (coach : GeminiCoach) (message : string)
    (context_data : Dict) :
  falls_back coach ->
  generate_response datetime_str coach message context_data
  = fallback_response message context_data.
Proof.
  intros [Hoff|Hno].
  - now apply generate_response_disabled.
  - now apply generate_response_degrades.
Qed.

(** C8, amended.  [/win] adds an activity of type [win] with mood 4 and
    tags ["win,celebration"], and the reply opens with "Win Logged!".
    When the coach falls back and the celebration message signals neither
    procrastination nor impatience (as with "Launched landing page"), the
    reply is the celebration template and names day [streak + 1], which is
    at least 1; the description then holds neither U+212A nor U+0130, the
    two characters outside ASCII that Python lower-cases onto an ASCII
    letter. *)
Theorem log_win_reply (self : ExecutionCoachBot) (db : Database) (clk : Clock)
    (update : Update) :
  dated_after_min db (TelegramUser.id (effective_user update)) ->
  date_min < dt_date (utcnow clk) ->
  (exists a,
      activities (fst (log_win datetime_str self db clk update))
      = (activities db ++ [a])%list
      /\ Activity.user_id a = TelegramUser.id (effective_user update)
      /\ Activity.description a = win_description_of (args update)
      /\ Activity.activity_type a = "win"
      /\ Activity.mood_score a = Some 4
      /\ Activity.context_tags a = Some "win,celebration")
  /\ (exists response,
        snd (log_win datetime_str self db clk update)
        = Ok ["🎉 Win Logged!" +:+ nl +:+ nl +:+ response])
  /\ (falls_back (gemini_coach self) ->
      PyStr.ascii_case (win_description_of (args update)) = true ->
      signals Procrastination (celebration_message (win_description_of (args update))) = false ->
      signals Impatience (celebration_message (win_description_of (args update))) = false ->
      exists streak phase,
        0 <= streak
        /\ snd (log_win datetime_str self db clk update)
           = Ok ["🎉 Win Logged!" +:+ nl +:+ nl +:+ celebration_reply streak phase]
        /\ shows_streak ("🎉 Win Logged!" +:+ nl +:+ nl +:+ celebration_reply streak phase)
             (streak + 1)
        /\ 1 <= streak + 1).
Proof.
  intros Hdb Hclk.
  set (uid := TelegramUser.id (effective_user update)) in *.
  set (description := win_description_of (args update)).
  pose proof (dated_after_min_log_activity db clk (UserContext_init uid) description "win"
                (Some 4) None (Some "win,celebration") Hdb Hclk) as Hdb1.
  pose proof (activities_log_activity db clk (UserContext_init uid) description "win"
                (Some 4) None (Some "win,celebration")) as Hacts.
  unfold log_win. fold uid. fold description.
  destruct (log_activity db clk (UserContext_init uid) description "win"
              (Some 4) None (Some "win,celebration")) as [db1 uc] eqn:Hlog.
  assert (Huc : uc = UserContext_init uid).
  { unfold log_activity in Hlog. injection Hlog as _ <-. reflexivity. }
  subst uc. cbn [fst snd] in Hdb1, Hacts.
  destruct (get_user_data_streak db1 clk (UserContext_init uid) Hdb1 eq_refl)
    as (context_data & user_context & Hget & Hstreak).
  rewrite Hget. cbn [fst snd].
  split; [|split].
  - eexists. split; [exact Hacts|]. cbn. repeat split.
  - eexists. reflexivity.
  - intros Hfb _ Hp Hi.
    exists (dict_get Ctx.current_streak 0 context_data),
           (dict_get Ctx.execution_phase "planning" context_data).
    split; [exact Hstreak|]. split; [|split; [|lia]].
    + rewrite (generate_response_falls_back _ _ _ Hfb), fallback_response_bucket.
      rewrite (select_bucket_third _ Hp Hi (celebration_signalled description)).
      reflexivity.
    + rewrite <- !append_assoc. apply celebration_reply_shows.
Qed.

End LoggingAWin.

Lemma empty_db_dated (uid : Z) : dated_after_min empty_db uid.
Proof. intros a []. Defined.

Lemma no_key_coach_falls_back : falls_back no_key_coach.
Proof. left. reflexivity. Defined.

Lemma log_win_reply_witness :
  exists streak phase,
    0 <= streak
    /\ snd (log_win sample_datetime_str (bot_of no_key_coach) empty_db
              (utc_clock (noon june15))
              (command_update alice ["Launched"; "landing"; "page"]))
       = Ok ["🎉 Win Logged!" +:+ nl +:+ nl +:+ celebration_reply streak phase]
    /\ shows_streak ("🎉 Win Logged!" +:+ nl +:+ nl +:+ celebration_reply streak phase)
         (streak + 1)
    /\ 1 <= streak + 1.
Proof.
  assert (Hclk : date_min < dt_date (utcnow (utc_clock (noon june15))))
    by (vm_compute; reflexivity).
  destruct (log_win_reply sample_datetime_str (bot_of no_key_coach) empty_db
              (utc_clock (noon june15))
              (command_update alice ["Launched"; "landing"; "page"])
              (empty_db_dated 42) Hclk) as (_ & _ & H).
  apply H; [exact no_key_coach_falls_back | reflexivity
           | vm_compute; reflexivity | vm_compute; reflexivity].
Defined.

Example log_win_launched_landing_page :
  snd (log_win sample_datetime_str (bot_of no_key_coach) empty_db (utc_clock (noon june15))
         (command_update alice ["Launched"; "landing"; "page"]))
  = Ok ["🎉 Win Logged!

🎉 Amazing work! That's day 1 of taking action. This is exactly how momentum builds in the planning phase. What felt good about completing that? And what's the next small step to keep this energy going? 💪"].
Proof. vm_compute. reflexivity. Qed.

(** C8 as stated does not hold for every description: a sender without
    any row who reports "Finally unstuck" gets the procrastination
    template, which speaks of a 0-day streak, and the reply shows no
    streak of one day or more. *)
Lemma log_win_reply_without_streak :
  exists reply,
    snd (log_win sample_datetime_str (bot_of no_key_coach) empty_db (utc_clock (noon june15))
           (command_update alice ["Finally"; "unstuck"]))
    = Ok [reply]
    /\ PyStr.contains "Your 0-day streak" reply = true
    /\ ~ exists n, 1 <= n /\ shows_streak reply n.
Proof.
  eexists. split; [vm_compute; reflexivity|].
  split; [vm_compute; reflexivity|].
  apply no_streak_shown; vm_compute; reflexivity.
Qed.

(* ===================================================================== *)
(** * Further properties of the code *)
(* ===================================================================== *)

(** ** What the handlers write *)

Lemma existsb_eqb_In (s : string) (l : list string) :
  existsb (String.eqb s) l = true -> In s l.
Proof.
  intros H. apply existsb_exists in H. destruct H as (x & Hx & E).
  apply String.eqb_eq in E. now subst.
Qed.

Section Writes.

Variable datetime_str : datetime -> string.

(** Every routed update is a sequence of the writes of [writes]. *)
Lemma route_writes (self : ExecutionCoachBot) (db : Database) (clk : Clock)
    (cmd : Command) (update : Update) :
  writes db (route datetime_str self db clk cmd update).
Proof.
  destruct cmd; cbn [route].
  - unfold start_command.
    pose proof (writes_user db clk (effective_user update)) as H.
    destruct (get_or_create_user db clk (effective_user update)). exact H.
  - unfold handle_message.
    pose proof (writes_user db clk (effective_user update)) as H.
    destruct (get_or_create_user db clk (effective_user update)) as [db1 u]. cbn [fst] in H.
    destruct (get_user_data db1 clk _) as [[context_data user_context]|e]; [|exact H].
    cbn [fst]. eapply writes_then; [exact H | apply writes_conversation].
  - unfold set_business_idea. destruct (args update); [apply writes_nothing|].
    destruct (first (users_by_telegram_id db _)); [apply writes_idea | apply writes_nothing].
  - unfold set_phase. destruct (args update) as [|arg0 rest]; [apply writes_nothing|].
    destruct (existsb _ valid_phases) eqn:E; [|apply writes_nothing].
    destruct (first (users_by_telegram_id db _)); [|apply writes_nothing].
    cbn [fst]. apply writes_phase. now apply existsb_eqb_In.
  - unfold set_goal. destruct (args update); [apply writes_nothing | apply writes_goal].
  - unfold handle_stuck.
    destruct (get_user_data db clk _) as [[context_data user_context]|e];
      [|apply writes_nothing].
    match goal with
    | |- context [log_activity db clk user_context ?d ?t ?m ?n ?c] =>
        pose proof (writes_activity db clk user_context d t m n c) as H;
        destruct (log_activity db clk user_context d t m n c)
    end.
    exact H.
  - unfold log_win.
    match goal with
    | |- context [log_activity db clk ?uc ?d ?t ?m ?n ?c] =>
        pose proof (writes_activity db clk uc d t m n c) as H;
        destruct (log_activity db clk uc d t m n c) as [db1 uc1]
    end.
    cbn [fst] in H. destruct (get_user_data db1 clk uc1) as [[context_data uc2]|e]; exact H.
  - unfold generate_business_ideas_command_store, agent_command_store.
    destruct (get_user_data db clk _) as [[context_data user_context]|e];
      [|apply writes_nothing].
    match goal with
    | |- context [log_activity db clk user_context ?d ?t ?m ?n ?c] =>
        pose proof (writes_activity db clk user_context d t m n c) as H;
        destruct (log_activity db clk user_context d t m n c)
    end.
    exact H.
  - unfold market_research_command_store, agent_command_store.
    destruct (args update); [apply writes_nothing|].
    destruct (get_user_data db clk _) as [[context_data user_context]|e];
      [|apply writes_nothing].
    match goal with
    | |- context [log_activity db clk user_context ?d ?t ?m ?n ?c] =>
        pose proof (writes_activity db clk user_context d t m n c) as H;
        destruct (log_activity db clk user_context d t m n c)
    end.
    exact H.
Qed.

(** A property of the empty store that every write keeps holds in every
    reachable store. *)
Lemma reachable_invariant (P : Database -> Prop) :
  P empty_db -> (forall db db', writes db db' -> P db -> P db') ->
  forall db, reachable datetime_str db -> P db.
Proof.
  intros H0 Hstep db Hreach. induction Hreach as [|self db clk cmd update _ IH].
  - exact H0.
  - exact (Hstep _ _ (route_writes self db clk cmd update) IH).
Qed.

End Writes.

(** ** Effects of the writes on the tables *)

Lemma update_first_none {A} (p : A -> bool) (f : A -> A) (l : list A) :
  first (List.filter p l) = None -> update_first p f l = l.
Proof.
  induction l as [|r l IH]; [reflexivity|]. cbn [List.filter update_first].
  destruct (p r); [discriminate|]. intros H. now rewrite IH.
Qed.

Lemma update_first_In {A} (p : A -> bool) (f : A -> A) (l : list A) (x : A) :
  In x (update_first p f l) -> In x l \/ exists r, In r l /\ p r = true /\ x = f r.
Proof.
  induction l as [|r l IH]; [intros []|]. cbn [update_first].
  destruct (p r) eqn:E; intros [<-|H].
  - right. exists r. repeat split; [now left | exact E].
  - left. now right.
  - left. now left.
  - destruct (IH H) as [H1|(r' & H1 & H2 & H3)]; [left; now right|].
    right. exists r'. repeat split; [now right | exact H2 | exact H3].
Qed.

Lemma update_first_map {A B} (p : A -> bool) (f : A -> A) (g : A -> B) (l : list A) :
  (forall r, g (f r) = g r) -> map g (update_first p f l) = map g l.
Proof.
  intros Hg. induction l as [|r l IH]; [reflexivity|]. cbn [update_first].
  destruct (p r); cbn [map]; [now rewrite Hg | now rewrite IH].
Qed.

Lemma users_log_activity (db : Database) (clk : Clock) (self : UserContext)
    (description activity_type : string) (mood_score : option Z)
    (notes context_tags : option string) :
  users (fst (log_activity db clk self description activity_type
                mood_score notes context_tags))
  = update_first (fun u => User.telegram_id u =? user_id self) (count_activity clk) (users db).
Proof.
  unfold log_activity. cbn [fst].
  change (users_by_telegram_id (add_activity db ?a) ?u) with (users_by_telegram_id db u).
  destruct (first (users_by_telegram_id db (user_id self))) eqn:E; [reflexivity|].
  cbn [users add_activity]. symmetry. now apply update_first_none.
Qed.

Lemma other_tables_log_activity (db : Database) (clk : Clock) (self : UserContext)
    (description activity_type : string) (mood_score : option Z)
    (notes context_tags : option string) :
  goals (fst (log_activity db clk self description activity_type
                mood_score notes context_tags)) = goals db
  /\ conversations (fst (log_activity db clk self description activity_type
                           mood_score notes context_tags)) = conversations db
  /\ progress (fst (log_activity db clk self description activity_type
                      mood_score notes context_tags)) = progress db.
Proof.
  unfold log_activity. cbn [fst].
  destruct (first (users_by_telegram_id _ _)); repeat split.
Qed.

Lemma user_exists_ids (db : Database) (uid : Z) :
  user_exists db uid = true <-> In uid (telegram_ids db).
Proof.
  unfold user_exists, telegram_ids. rewrite existsb_exists, in_map_iff.
  split; intros (u & H1 & H2).
  - exists u. apply Z.eqb_eq in H2. now split.
  - exists u. split; [exact H2 | now apply Z.eqb_eq].
Qed.

(** [get_or_create_user] adds the identity of a new sender at the end of
    the table and changes no identity. *)
Lemma telegram_ids_get_or_create_user (db : Database) (clk : Clock) (tu : TelegramUser.t) :
  telegram_ids (fst (get_or_create_user db clk tu))
  = if user_exists db (TelegramUser.id tu) then telegram_ids db
    else (telegram_ids db ++ [TelegramUser.id tu])%list.
Proof.
  unfold get_or_create_user.
  destruct (first (users_by_telegram_id db (TelegramUser.id tu))) as [u|] eqn:E.
  - assert (Hex : user_exists db (TelegramUser.id tu) = true)
      by (apply user_exists_first_some; now exists u).
    rewrite Hex. unfold telegram_ids. cbn [fst users set_users].
    now apply update_first_map.
  - apply user_exists_first in E. rewrite E. unfold telegram_ids.
    cbn [fst users set_users]. now rewrite map_app.
Qed.

Lemma extends_refl {A} (l : list A) : extends l l.
Proof. exists []. now rewrite app_nil_r. Qed.

Lemma extends_trans {A} (l1 l2 l3 : list A) : extends l1 l2 -> extends l2 l3 -> extends l1 l3.
Proof. intros [a ->] [b ->]. exists (a ++ b)%list. now rewrite app_assoc. Qed.

Lemma extends_one {A} (l : list A) (x : A) : extends l (l ++ [x]).
Proof. now exists [x]. Qed.

Lemma extends_eq {A} (l l' : list A) : l' = l -> extends l l'.
Proof. intros ->. apply extends_refl. Qed.

(** No write removes or rewrites a goal, an activity or a conversation,
    none touches the progress table, and none removes a user. *)
Lemma writes_append_only (db db' : Database) :
  writes db db' ->
  extends (goals db) (goals db')
  /\ extends (activities db) (activities db')
  /\ extends (conversations db) (conversations db')
  /\ progress db' = progress db
  /\ extends (telegram_ids db) (telegram_ids db').
Proof.
  induction 1 as [db|db1 db2 db3 _ IH1 _ IH2|db clk tu|db clk self d t m n c
                  |db g|db c|db uid idea|db uid phase Hphase].
  - repeat split; try apply extends_refl.
  - destruct IH1 as (G1 & A1 & C1 & P1 & U1), IH2 as (G2 & A2 & C2 & P2 & U2).
    repeat split; try (eapply extends_trans; eassumption). congruence.
  - split; [|split; [|split; [|split]]].
    1-4: unfold get_or_create_user; destruct (first _);
      cbn [fst goals activities conversations progress set_users];
      try reflexivity; apply extends_refl.
    rewrite telegram_ids_get_or_create_user.
    destruct (user_exists db (TelegramUser.id tu)); [apply extends_refl | apply extends_one].
  - destruct (other_tables_log_activity db clk self d t m n c) as (G & C & P).
    split; [now apply extends_eq|]. split; [|split; [now apply extends_eq|split]].
    + rewrite activities_log_activity. apply extends_one.
    + exact P.
    + apply extends_eq. unfold telegram_ids. rewrite users_log_activity.
      now apply update_first_map.
  - repeat split; try apply extends_refl. apply extends_one.
  - repeat split; try apply extends_refl. apply extends_one.
  - repeat split; try apply extends_refl. apply extends_eq.
    unfold telegram_ids. cbn [users set_users]. now apply update_first_map.
  - repeat split; try apply extends_refl. apply extends_eq.
    unfold telegram_ids. cbn [users set_users]. now apply update_first_map.
Qed.

(** No write gives two rows the same Telegram identity. *)
Lemma writes_unique_users (db db' : Database) :
  writes db db' -> unique_users db -> unique_users db'.
Proof.
  induction 1 as [db|db1 db2 db3 _ IH1 _ IH2|db clk tu|db clk self d t m n c
                  |db g|db c|db uid idea|db uid phase Hphase]; intros Hu; auto.
  - unfold unique_users. change (map User.telegram_id (users ?d)) with (telegram_ids d).
    rewrite telegram_ids_get_or_create_user.
    destruct (user_exists db (TelegramUser.id tu)) eqn:E; [exact Hu|].
    apply NoDup_app. split; [exact Hu|]. split; [|apply NoDup_singleton].
    intros x Hx Hk. apply list_elem_of_In in Hx, Hk. destruct Hk as [<-|[]].
    apply user_exists_ids in Hx. congruence.
  - unfold unique_users. rewrite users_log_activity.
    rewrite update_first_map by reflexivity. exact Hu.
  - unfold unique_users. cbn [users set_users].
    rewrite update_first_map by reflexivity. exact Hu.
  - unfold unique_users. cbn [users set_users].
    rewrite update_first_map by reflexivity. exact Hu.
Qed.

Lemma activities_of_app (db : Database) (a : Activity.t) (uid : Z) (acts : list Activity.t) :
  activities db = (acts ++ [a])%list ->
  Nat.add (length (List.filter (fun b => Activity.user_id b =? uid) acts))
          (if Activity.user_id a =? uid then 1%nat else 0%nat)
  = length (activities_of db uid).
Proof.
  intros H. unfold activities_of. rewrite H, List.filter_app, length_app.
  cbn [List.filter]. destruct (Activity.user_id a =? uid); reflexivity.
Qed.

(** No write lets the running count of a user leave the range from 0 to
    the number of the user's activity rows. *)
Lemma writes_counts_bounded (db db' : Database) :
  writes db db' -> counts_bounded db -> counts_bounded db'.
Proof.
  induction 1 as [db|db1 db2 db3 _ IH1 _ IH2|db clk tu|db clk self d t m n c
                  |db g|db c|db uid idea|db uid phase Hphase]; intros Hb; auto.
  - (* a user is fetched or created *)
    intros u Hu. unfold get_or_create_user in *.
    destruct (first (users_by_telegram_id db (TelegramUser.id tu))) as [v|];
      cbn [fst users set_users] in Hu;
      change (activities_of (set_users db ?us) ?i) with (activities_of db i).
    + apply update_first_In in Hu. destruct Hu as [Hu|(r & Hr & _ & ->)];
        [now apply Hb | exact (Hb r Hr)].
    + apply in_app_or in Hu. destruct Hu as [Hu|[<-|[]]]; [now apply Hb|].
      cbn [new_user User.total_activities]. lia.
  - (* an activity is logged *)
    intros u Hu. rewrite users_log_activity in Hu.
    pose proof (activities_log_activity db clk self d t m n c) as Hacts.
    match type of Hacts with
    | _ = (_ ++ [?a])%list =>
        pose proof (activities_of_app _ a (User.telegram_id u) _ Hacts) as Hlen
    end.
    cbn [Activity.user_id] in Hlen.
    change (List.filter (fun b => Activity.user_id b =? User.telegram_id u) (activities db))
      with (activities_of db (User.telegram_id u)) in Hlen.
    apply update_first_In in Hu. destruct Hu as [Hu|(r & Hr & Hp & ->)].
    + specialize (Hb u Hu). rewrite <- Hlen. destruct (user_id self =? User.telegram_id u); lia.
    + specialize (Hb r Hr). apply Z.eqb_eq in Hp.
      cbn [count_activity User.telegram_id User.total_activities] in *.
      rewrite <- Hp, Z.eqb_refl in Hlen. rewrite <- Hlen. lia.
  - intros u Hu. cbn [users set_users] in Hu.
    change (activities_of (set_users db ?us) ?i) with (activities_of db i).
    apply update_first_In in Hu. destruct Hu as [Hu|(r & Hr & _ & ->)];
      [now apply Hb | exact (Hb r Hr)].
  - intros u Hu. cbn [users set_users] in Hu.
    change (activities_of (set_users db ?us) ?i) with (activities_of db i).
    apply update_first_In in Hu. destruct Hu as [Hu|(r & Hr & _ & ->)];
      [now apply Hb | exact (Hb r Hr)].
Qed.

Lemma phases_valid_iff (db : Database) :
  phases_valid db = true
  <-> forall u, In u (users db) -> In (User.execution_phase u) valid_phases.
Proof.
  unfold phases_valid. rewrite forallb_forall. split; intros H u Hu.
  - apply existsb_eqb_In. now apply H.
  - apply existsb_exists. exists (User.execution_phase u).
    split; [now apply H | apply String.eqb_refl].
Qed.

(** No write takes a user out of the four phases. *)
Lemma writes_phases_valid (db db' : Database) :
  writes db db' -> phases_valid db = true -> phases_valid db' = true.
Proof.
  rewrite !phases_valid_iff.
  induction 1 as [db|db1 db2 db3 _ IH1 _ IH2|db clk tu|db clk self d t m n c
                  |db g|db c|db uid idea|db uid phase Hphase]; intros Hv; auto.
  - intros u Hu. unfold get_or_create_user in Hu.
    destruct (first (users_by_telegram_id db (TelegramUser.id tu))) as [v|];
      cbn [fst users set_users] in Hu.
    + apply update_first_In in Hu. destruct Hu as [Hu|(r & Hr & _ & ->)];
        [now apply Hv | exact (Hv r Hr)].
    + apply in_app_or in Hu. destruct Hu as [Hu|[<-|[]]]; [now apply Hv|].
      cbn. tauto.
  - intros u Hu. rewrite users_log_activity in Hu.
    apply update_first_In in Hu. destruct Hu as [Hu|(r & Hr & _ & ->)];
      [now apply Hv | exact (Hv r Hr)].
  - intros u Hu. cbn [users set_users] in Hu.
    apply update_first_In in Hu. destruct Hu as [Hu|(r & Hr & _ & ->)];
      [now apply Hv | exact (Hv r Hr)].
  - intros u Hu. cbn [users set_users] in Hu.
    apply update_first_In in Hu. destruct Hu as [Hu|(r & Hr & _ & ->)];
      [now apply Hv | exact Hphase].
Qed.

Lemma first_get_or_create_user (db : Database) (clk : Clock) (tu : TelegramUser.t) :
  first (users_by_telegram_id (fst (get_or_create_user db clk tu)) (TelegramUser.id tu))
  = Some match first (users_by_telegram_id db (TelegramUser.id tu)) with
         | Some user => touch clk user
         | None => new_user db clk tu
         end.
Proof.
  unfold get_or_create_user.
  destruct (first (users_by_telegram_id db (TelegramUser.id tu))) as [u|] eqn:E;
    cbn [fst snd]; unfold users_by_telegram_id in *; cbn [users set_users].
  - rewrite first_update_first by (intros r Hr; exact Hr). now rewrite E.
  - rewrite List.filter_app. cbn [List.filter new_user User.telegram_id].
    rewrite Z.eqb_refl.
    destruct (List.filter _ (users db)); [reflexivity | discriminate E].
Qed.

(** X1. [get_or_create_user] leaves the sender with a row, and a new
    sender gets that row back loaded.  Called again for the same Telegram
    identity, whatever names Telegram now reports, it adds no row and
    moves only [last_active] of the stored row: the names, the creation
    time and the count of the first contact stay.  The object it returns
    this time is expired: reading any attribute of it raises. *)
Theorem get_or_create_user_again (db : Database) (clk clk' : Clock)
    (tu : TelegramUser.t) (username' : option string) (first_name' : string) :
  let r1 := get_or_create_user db clk tu in
  let r2 := get_or_create_user (fst r1) clk'
              {| TelegramUser.id := TelegramUser.id tu;
                 TelegramUser.username := username';
                 TelegramUser.first_name := first_name' |} in
  user_exists (fst r1) (TelegramUser.id tu) = true
  /\ telegram_ids (fst r2) = telegram_ids (fst r1)
  /\ (exists u1 u2,
        first (users_by_telegram_id (fst r1) (TelegramUser.id tu)) = Some u1
        /\ first (users_by_telegram_id (fst r2) (TelegramUser.id tu)) = Some u2
        /\ User.first_name u2 = User.first_name u1
        /\ User.username u2 = User.username u1
        /\ User.created_at u2 = User.created_at u1
        /\ User.total_activities u2 = User.total_activities u1
        /\ User.last_active u2 = utcnow clk'
        /\ (user_exists db (TelegramUser.id tu) = false -> snd r1 = Loaded u1))
  /\ snd r2 = Expired
  /\ (forall A (field : User.t -> A),
        attribute field (snd r2) = Raise DetachedInstanceError).
Proof.
  cbv zeta.
  pose proof (first_get_or_create_user db clk tu) as Hfirst.
  assert (Hex : user_exists (fst (get_or_create_user db clk tu)) (TelegramUser.id tu) = true).
  { apply user_exists_first_some. eexists. exact Hfirst. }
  set (again := {| TelegramUser.id := TelegramUser.id tu;
                   TelegramUser.username := username';
                   TelegramUser.first_name := first_name' |}).
  pose proof (first_get_or_create_user (fst (get_or_create_user db clk tu)) clk' again)
    as Hagain.
  cbn [again TelegramUser.id] in Hagain. fold again in Hagain. rewrite Hfirst in Hagain.
  assert (Hexpired : snd (get_or_create_user (fst (get_or_create_user db clk tu)) clk' again)
                     = Expired).
  { unfold get_or_create_user at 1. cbn [again TelegramUser.id]. now rewrite Hfirst. }
  split; [exact Hex|].
  split.
  { rewrite telegram_ids_get_or_create_user. cbn [again TelegramUser.id]. now rewrite Hex. }
  split.
  { eexists. eexists. split; [exact Hfirst|]. split; [exact Hagain|].
    cbn [touch User.first_name User.username User.created_at
         User.total_activities User.last_active].
    repeat split.
    intros Hnew. apply user_exists_first in Hnew.
    unfold get_or_create_user. rewrite Hnew. reflexivity. }
  split; [exact Hexpired|].
  intros A field. now rewrite Hexpired.
Qed.

(** X3. Whatever update is routed, the goals, the activities and the
    conversations of the store stay as they were, with the new rows after
    them; the progress table is not touched; no user row is removed and no
    Telegram identity changes. *)
Theorem route_append_only (datetime_str : datetime -> string) (self : ExecutionCoachBot)
    (db : Database) (clk : Clock) (cmd : Command) (update : Update) :
  extends (goals db) (goals (route datetime_str self db clk cmd update))
  /\ extends (activities db) (activities (route datetime_str self db clk cmd update))
  /\ extends (conversations db) (conversations (route datetime_str self db clk cmd update))
  /\ progress (route datetime_str self db clk cmd update) = progress db
  /\ extends (telegram_ids db) (telegram_ids (route datetime_str self db clk cmd update)).
Proof. apply writes_append_only, route_writes. Qed.

Lemma unique_users_empty : unique_users empty_db.
Proof. apply NoDup_nil_2. Qed.

(** X2. In every store the bot can reach, no two [User] rows carry the
    same Telegram identity. *)
Theorem reachable_unique_users (datetime_str : datetime -> string) (db : Database) :
  reachable datetime_str db -> unique_users db.
Proof.
  apply (reachable_invariant datetime_str unique_users).
  - exact unique_users_empty.
  - exact writes_unique_users.
Qed.

Lemma busy_db_reachable : reachable sample_datetime_str busy_db.
Proof. unfold busy_db. repeat apply reachable_route. apply reachable_empty. Defined.

Lemma reachable_unique_users_witness : unique_users busy_db.
Proof. exact (reachable_unique_users sample_datetime_str busy_db busy_db_reachable). Defined.

(** X7. In every store the bot can reach, the running count
    [total_activities] of each user lies between 0 and the number of
    activity rows that carry the user's identity. *)
Theorem reachable_counts_bounded (datetime_str : datetime -> string) (db : Database) :
  reachable datetime_str db -> counts_bounded db.
Proof.
  apply (reachable_invariant datetime_str counts_bounded).
  - intros u [].
  - exact writes_counts_bounded.
Qed.

Lemma reachable_counts_bounded_witness : counts_bounded busy_db.
Proof. exact (reachable_counts_bounded sample_datetime_str busy_db busy_db_reachable). Defined.

(** X10. In every store the bot can reach, each user is in one of the
    four phases planning, validation, mvp, traction. *)
Theorem reachable_phases_valid (datetime_str : datetime -> string) (db : Database) :
  reachable datetime_str db -> phases_valid db = true.
Proof.
  apply (reachable_invariant datetime_str (fun db => phases_valid db = true)).
  - reflexivity.
  - exact writes_phases_valid.
Qed.

Lemma reachable_phases_valid_witness : phases_valid busy_db = true.
Proof. exact (reachable_phases_valid sample_datetime_str busy_db busy_db_reachable). Defined.

Example busy_db_users :
  map (fun u => (User.telegram_id u, User.execution_phase u, User.total_activities u))
      (users busy_db)
  = [(42, "mvp", 1); (43, "planning", 0)].
Proof. vm_compute. reflexivity. Qed.

(** ** Ordered queries *)

Lemma insert_desc_sorted {A} (key : A -> Z) (x : A) (l : list A) :
  descending key l -> descending key (insert_desc key x l).
Proof.
  unfold descending. induction l as [|y l IH]; intros Hs; cbn [insert_desc].
  - constructor; constructor.
  - apply StronglySorted_inv in Hs. destruct Hs as [Hl Hy].
    destruct (Z.ltb_spec (key x) (key y)).
    + constructor; [now apply IH|].
      apply List.Forall_forall. intros z Hz. apply insert_desc_In in Hz.
      destruct Hz as [<-|Hz]; [lia|]. rewrite List.Forall_forall in Hy. now apply Hy.
    + constructor; [now constructor|].
      constructor; [lia|]. rewrite List.Forall_forall in *. intros z Hz.
      specialize (Hy z Hz). cbn in Hy. lia.
Qed.

(** [ORDER BY key DESC] gives the rows with the keys going down. *)
Lemma order_by_desc_sorted {A} (key : A -> Z) (l : list A) :
  descending key (order_by_desc key l).
Proof.
  induction l as [|x l IH]; [constructor|]. now apply insert_desc_sorted.
Qed.

Lemma descending_head {A} (key : A -> Z) (a : A) (l : list A) :
  descending key (a :: l) -> forall b, In b (a :: l) -> key b <= key a.
Proof.
  intros Hs b [<-|Hb]; [lia|]. apply StronglySorted_inv in Hs.
  destruct Hs as [_ Hall]. rewrite List.Forall_forall in Hall. now apply Hall.
Qed.

Lemma descending_app {A} (key : A -> Z) (l1 l2 : list A) :
  descending key (l1 ++ l2) ->
  descending key l1 /\ forall a b, In a l1 -> In b l2 -> key b <= key a.
Proof.
  unfold descending. induction l1 as [|x l1 IH]; cbn [app]; intros Hs.
  - split; [constructor | intros a b []].
  - apply StronglySorted_inv in Hs. destruct Hs as [Hl Hx].
    destruct (IH Hl) as [H1 H2]. rewrite List.Forall_forall in Hx. split.
    + constructor; [exact H1|]. apply List.Forall_forall. intros z Hz.
      apply Hx. apply in_or_app. now left.
    + intros a b [<-|Ha] Hb; [apply Hx, in_or_app; now right | now apply H2].
Qed.

(** The first [n] rows of an ordered result are ordered, and no row left
    out has a higher key than a row kept. *)
Lemma limit_descending {A} (key : A -> Z) (n : nat) (l : list A) :
  descending key l ->
  descending key (limit n l)
  /\ forall a b, In a (limit n l) -> In b l -> ~ In b (limit n l) -> key b <= key a.
Proof.
  intros Hs. unfold limit. rewrite <- (firstn_skipn n l) in Hs.
  apply descending_app in Hs. destruct Hs as [H1 H2]. split; [exact H1|].
  intros a b Ha Hb Hnot. apply H2; [exact Ha|].
  rewrite <- (firstn_skipn n l) in Hb. apply in_app_or in Hb. tauto.
Qed.

Lemma limit_In {A} (n : nat) (l : list A) (a : A) : In a (limit n l) -> In a l.
Proof.
  unfold limit. intros H. rewrite <- (firstn_skipn n l). apply in_or_app. now left.
Qed.

(** X4. [get_last_checkin] is [None] exactly when the user has no
    activity; otherwise it is the timestamp of one of the user's
    activities and no activity of the user is later. *)
Theorem get_last_checkin_latest (db : Database) (self : UserContext) :
  match get_last_checkin db self with
  | None => activities_of db (user_id self) = []
  | Some t =>
      (exists a, In a (activities_of db (user_id self)) /\ Activity.timestamp a = t)
      /\ forall a, In a (activities_of db (user_id self)) -> Activity.timestamp a <= t
  end.
Proof.
  unfold get_last_checkin, first.
  pose proof (order_by_desc_sorted Activity.timestamp (activities_of db (user_id self))) as Hs.
  pose proof (fun a => order_by_desc_In Activity.timestamp a
                         (activities_of db (user_id self))) as Hin.
  destruct (order_by_desc Activity.timestamp (activities_of db (user_id self)))
    as [|top rest]; cbn [head].
  - destruct (activities_of db (user_id self)) as [|a l]; [reflexivity|].
    exfalso. apply (Hin a). now left.
  - split.
    + exists top. split; [apply Hin; now left | reflexivity].
    + intros a Ha. apply (descending_head _ _ _ Hs). now apply Hin.
Qed.

(** A fresh aggregation for a user with a row: the parts of the dict. *)
Lemma get_user_data_parts (db : Database) (clk : Clock) (self : UserContext)
    (d : Ctx.t) (uc : UserContext) :
  _user_data self = None ->
  get_user_data db clk self = Ok (ContextDict d, uc) ->
  first (users_by_telegram_id db (user_id self)) = Some (Ctx.user d)
  /\ Ctx.recent_activities d
     = limit 20 (order_by_desc Activity.timestamp (activities_of db (user_id self)))
  /\ Ctx.active_goals d
     = order_by_desc Goal.priority
         (List.filter (fun g => (Goal.user_id g =? user_id self)
                                && String.eqb (Goal.status g) "active") (goals db))
  /\ Ctx.recent_conversations d
     = limit 10 (order_by_desc Conversation.timestamp
                   (List.filter (fun c => Conversation.user_id c =? user_id self)
                      (conversations db)))
  /\ Ctx.last_checkin d = get_last_checkin db self
  /\ calculate_streak db clk self = Ok (Ctx.current_streak d)
  /\ Ctx.execution_phase d = User.execution_phase (Ctx.user d)
  /\ Ctx.total_activities d = User.total_activities (Ctx.user d)
  /\ Ctx.days_since_start d = delta_days (utcnow clk) (User.created_at (Ctx.user d))
  /\ uc = {| user_id := user_id self; _user_data := Some (ContextDict d) |}.
Proof.
  intros Hcache H. unfold get_user_data in H. rewrite Hcache in H.
  destruct (first (users_by_telegram_id db (user_id self))) as [u|]; [|discriminate H].
  destruct (calculate_streak db clk self) as [n|e]; [|discriminate H].
  cbn [bind] in H. injection H as <- <-. cbn. repeat split.
Qed.

(** X5. A fresh aggregation lists at most 20 activities, all of the user,
    latest first, and no activity of the user left out is later than one
    listed; it lists exactly the user's goals with status ["active"],
    highest priority first, and at most 10 conversations; [last_checkin]
    is the time of the first activity listed. *)
Theorem get_user_data_lists (db : Database) (clk : Clock) (self : UserContext)
    (d : Ctx.t) (uc : UserContext) :
  _user_data self = None ->
  get_user_data db clk self = Ok (ContextDict d, uc) ->
  (length (Ctx.recent_activities d) <= 20)%nat
  /\ descending Activity.timestamp (Ctx.recent_activities d)
  /\ (forall a, In a (Ctx.recent_activities d) -> In a (activities_of db (user_id self)))
  /\ (forall a b, In a (Ctx.recent_activities d) -> In b (activities_of db (user_id self)) ->
        ~ In b (Ctx.recent_activities d) -> Activity.timestamp b <= Activity.timestamp a)
  /\ (forall g, In g (Ctx.active_goals d)
                <-> In g (goals db) /\ Goal.user_id g = user_id self
                    /\ Goal.status g = "active")
  /\ descending Goal.priority (Ctx.active_goals d)
  /\ (length (Ctx.recent_conversations d) <= 10)%nat
  /\ Ctx.last_checkin d = option_map Activity.timestamp (head (Ctx.recent_activities d)).
Proof.
  intros Hcache H.
  destruct (get_user_data_parts db clk self d uc Hcache H)
    as (_ & Hra & Hag & Hrc & Hlc & _).
  pose proof (order_by_desc_sorted Activity.timestamp (activities_of db (user_id self))) as Hs.
  destruct (limit_descending Activity.timestamp 20 _ Hs) as [Hs1 Hs2].
  rewrite Hra, Hag, Hrc, Hlc.
  split; [apply firstn_le_length|]. split; [exact Hs1|].
  split; [intros a Ha; apply limit_In in Ha; now apply order_by_desc_In in Ha|].
  split; [intros a b Ha Hb Hnot; apply (Hs2 a b Ha); [now apply order_by_desc_In | exact Hnot]|].
  split.
  { intros g. rewrite order_by_desc_In, filter_In, andb_true_iff, Z.eqb_eq, String.eqb_eq.
    tauto. }
  split; [apply order_by_desc_sorted|]. split; [apply firstn_le_length|].
  unfold get_last_checkin, first, limit.
  destruct (order_by_desc Activity.timestamp (activities_of db (user_id self))); reflexivity.
Qed.

(** X6. Once a [UserContext] has aggregated a dict it hands the same dict
    back on every later call, whatever the store and the clock have become
    in the meantime; an empty dict is not kept, so a later call reads the
    store again. *)
Theorem get_user_data_memoized (db : Database) (clk : Clock) (self : UserContext)
    (data : Dict) (uc : UserContext) :
  get_user_data db clk self = Ok (data, uc) ->
  match data with
  | ContextDict d =>
      forall db' clk', get_user_data db' clk' uc = Ok (ContextDict d, uc)
  | EmptyDict => _user_data self = None -> uc = self
  end.
Proof.
  intros H. unfold get_user_data in H.
  destruct (_user_data self) as [cached|] eqn:Hcache.
  - injection H as <- <-. destruct cached as [|d]; [discriminate|].
    intros db' clk'. unfold get_user_data. now rewrite Hcache.
  - destruct (first (users_by_telegram_id db (user_id self))) as [u|].
    + destruct (calculate_streak db clk self) as [n|e]; [|discriminate H].
      cbn [bind] in H. injection H as <- <-. intros db' clk'. reflexivity.
    + injection H as <- <-. reflexivity.
Qed.

Lemma busy_db_alice_context :
  exists d uc,
    get_user_data busy_db (utc_clock (noon june15)) (UserContext_init 42)
    = Ok (ContextDict d, uc).
Proof. eexists. eexists. vm_compute. reflexivity. Defined.

Lemma get_user_data_lists_witness :
  exists d uc,
    get_user_data busy_db (utc_clock (noon june15)) (UserContext_init 42)
    = Ok (ContextDict d, uc)
    /\ (length (Ctx.recent_activities d) <= 20)%nat
    /\ descending Activity.timestamp (Ctx.recent_activities d)
    /\ Ctx.last_checkin d = option_map Activity.timestamp (head (Ctx.recent_activities d)).
Proof.
  destruct busy_db_alice_context as (d & uc & E). exists d, uc. split; [exact E|].
  destruct (get_user_data_lists busy_db (utc_clock (noon june15)) (UserContext_init 42)
              d uc eq_refl E) as (H1 & H2 & _ & _ & _ & _ & _ & H8).
  repeat split; assumption.
Defined.

Lemma get_user_data_memoized_witness :
  exists d uc,
    get_user_data busy_db (utc_clock (noon june15)) (UserContext_init 42)
    = Ok (ContextDict d, uc)
    /\ get_user_data empty_db late_clock uc = Ok (ContextDict d, uc).
Proof.
  destruct busy_db_alice_context as (d & uc & E). exists d, uc. split; [exact E|].
  exact (get_user_data_memoized busy_db (utc_clock (noon june15)) (UserContext_init 42)
           (ContextDict d) uc E empty_db late_clock).
Defined.

(** ** Derived metrics *)

(** X19. The tenure in a fresh aggregation is the number of whole days
    between the creation of the user's row and the clock reading: 0 on the
    day of creation, never negative when the clock is not behind the
    creation time. *)
Theorem days_since_start_whole_days (db : Database) (clk : Clock) (self : UserContext)
    (d : Ctx.t) (uc : UserContext) :
  _user_data self = None ->
  get_user_data db clk self = Ok (ContextDict d, uc) ->
  US_PER_DAY * Ctx.days_since_start d
    <= utcnow clk - User.created_at (Ctx.user d)
    < US_PER_DAY * (Ctx.days_since_start d + 1)
  /\ (User.created_at (Ctx.user d) <= utcnow clk -> 0 <= Ctx.days_since_start d)
  /\ (User.created_at (Ctx.user d) <= utcnow clk < User.created_at (Ctx.user d) + US_PER_DAY ->
      Ctx.days_since_start d = 0).
Proof.
  intros Hcache H.
  destruct (get_user_data_parts db clk self d uc Hcache H)
    as (_ & _ & _ & _ & _ & _ & _ & _ & Hdays & _).
  rewrite Hdays. unfold delta_days, US_PER_DAY.
  set (delta := utcnow clk - User.created_at (Ctx.user d)).
  pose proof (Z.div_mod delta 86400000000 ltac:(lia)) as Hdm.
  pose proof (Z.mod_pos_bound delta 86400000000 ltac:(lia)) as Hmod.
  split; [lia|]. split.
  - intros Hle. apply Z.div_pos; lia.
  - intros Hday. apply Z.div_small. lia.
Qed.

Lemma days_since_start_whole_days_witness :
  exists d uc,
    get_user_data busy_db (utc_clock (noon june15)) (UserContext_init 42)
    = Ok (ContextDict d, uc)
    /\ US_PER_DAY * Ctx.days_since_start d
         <= utcnow (utc_clock (noon june15)) - User.created_at (Ctx.user d)
         < US_PER_DAY * (Ctx.days_since_start d + 1).
Proof.
  destruct busy_db_alice_context as (d & uc & E). exists d, uc. split; [exact E|].
  exact (proj1 (days_since_start_whole_days busy_db (utc_clock (noon june15))
                  (UserContext_init 42) d uc eq_refl E)).
Defined.

(** Whenever the walk of [calculate_streak] returns, it returns the run
    it has counted. *)
Lemma streak_loop_returns (dates : gset Z) :
  forall (room : nat) (check_date streak r : Z),
    Z.to_nat (check_date - date_min) = room ->
    streak_loop dates check_date streak = Ok r ->
    maximal_run dates check_date (r - streak).
Proof.
  induction room as [|room IH]; intros check_date streak r Hroom;
    rewrite streak_loop_unfold;
    destruct (bool_decide_reflect (check_date ∈ dates)) as [Hin|Hout];
    unfold date_sub_days, date_min in *; intros Hr.
  - destruct (Z.ltb_spec (check_date - 1) 1) as [Hlt|Hge]; [discriminate Hr | lia].
  - injection Hr as <-. rewrite Z.sub_diag. split; [lia|]. split; [intros; lia|].
    now rewrite Z.sub_0_r.
  - destruct (Z.ltb_spec (check_date - 1) 1) as [Hlt|Hge]; [discriminate Hr|].
    cbn [bind] in Hr. apply IH in Hr; [|lia]. destruct Hr as (H0 & Hrun & Hstop).
    split; [lia|]. split.
    + intros i Hi. destruct (Z.eq_dec i 0) as [->|Hne]; [now rewrite Z.sub_0_r|].
      replace (check_date - i) with (check_date - 1 - (i - 1)) by lia. apply Hrun. lia.
    + replace (check_date - (r - streak)) with (check_date - 1 - (r - (streak + 1))) by lia.
      exact Hstop.
  - injection Hr as <-. rewrite Z.sub_diag. split; [lia|]. split; [intros; lia|].
    now rewrite Z.sub_0_r.
Qed.

Lemma days_back_NoDup (today : Z) (start n : nat) :
  List.NoDup (map (fun i => today - Z.of_nat i) (seq start n)).
Proof.
  revert start. induction n as [|n IH]; intros start; cbn [seq map].
  - constructor.
  - constructor; [|apply IH]. intros Hin. apply in_map_iff in Hin.
    destruct Hin as (i & Hi & Hseq). apply in_seq in Hseq. lia.
Qed.

(** X18. A streak that [calculate_streak] returns is never negative and
    never larger than the number of activity rows of the user. *)
Theorem calculate_streak_bounded (db : Database) (clk : Clock) (self : UserContext) (n : Z) :
  calculate_streak db clk self = Ok n ->
  0 <= n <= Z.of_nat (length (activities_of db (user_id self))).
Proof.
  intros H. rewrite calculate_streak_loop in H.
  apply (streak_loop_returns _ _ _ _ _ eq_refl) in H. rewrite Z.sub_0_r in H.
  destruct H as (H0 & Hrun & _). split; [exact H0|].
  set (acts := activities_of db (user_id self)) in *.
  set (dates := map (fun a => dt_date (Activity.timestamp a)) acts).
  assert (Hincl : incl (map (fun i => dt_date (now clk) - Z.of_nat i) (seq 0 (Z.to_nat n)))
                       dates).
  { intros x Hx. apply in_map_iff in Hx. destruct Hx as (i & <- & Hi).
    apply in_seq in Hi. specialize (Hrun (Z.of_nat i) ltac:(lia)).
    unfold activity_dates_of in Hrun.
    now rewrite elem_of_list_to_set, list_elem_of_In in Hrun. }
  apply List.NoDup_incl_length in Hincl; [|apply days_back_NoDup].
  unfold dates in Hincl. rewrite !length_map, length_seq in Hincl. lia.
Qed.

Lemma calculate_streak_bounded_witness :
  0 <= 3 <= Z.of_nat (length (activities_of gap_db 42)).
Proof.
  apply (calculate_streak_bounded gap_db (utc_clock (noon june15)) (UserContext_init 42) 3).
  vm_compute. reflexivity.
Defined.

(** ** Logging and the user rows *)

Lemma filter_update_first_other {A} (p q : A -> bool) (f : A -> A) (l : list A) :
  (forall r, p r = true -> q r = false /\ q (f r) = false) ->
  List.filter q (update_first p f l) = List.filter q l.
Proof.
  intros H. induction l as [|r l IH]; [reflexivity|]. cbn [update_first].
  destruct (p r) eqn:E; cbn [List.filter].
  - destruct (H r E) as [-> ->]. reflexivity.
  - now rewrite IH.
Qed.

(** X21. [log_activity] adds one activity row.  When its user has a row,
    the count of that row goes up by one and its [last_active] moves to
    now; when there is none, no user row changes; in both cases the rows
    of every other identity stay as they were. *)
Theorem log_activity_users (db : Database) (clk : Clock) (self : UserContext)
    (description activity_type : string) (mood_score : option Z)
    (notes context_tags : option string) :
  let db' := fst (log_activity db clk self description activity_type
                    mood_score notes context_tags) in
  length (activities db') = S (length (activities db))
  /\ length (users db') = length (users db)
  /\ first (users_by_telegram_id db' (user_id self))
     = option_map (count_activity clk) (first (users_by_telegram_id db (user_id self)))
  /\ (first (users_by_telegram_id db (user_id self)) = None -> users db' = users db)
  /\ (forall uid, uid <> user_id self ->
        users_by_telegram_id db' uid = users_by_telegram_id db uid).
Proof.
  cbv zeta. split; [|split; [|split; [|split]]].
  - rewrite activities_log_activity, length_app. cbn [length]. lia.
  - rewrite users_log_activity.
    rewrite <- (length_map User.telegram_id), update_first_map by reflexivity.
    apply length_map.
  - apply users_by_telegram_id_log_activity.
  - intros Hnone. rewrite users_log_activity. now apply update_first_none.
  - intros uid Hne. unfold users_by_telegram_id. rewrite users_log_activity.
    apply filter_update_first_other. intros r Hr. apply Z.eqb_eq in Hr.
    cbn [count_activity User.telegram_id]. rewrite Hr.
    split; apply Z.eqb_neq; congruence.
Qed.

(** ** The coach *)

Lemma lstrip_all_space (s : string) : all_space s = true -> PyStr.lstrip s = EmptyString.
Proof.
  induction s as [|c s IH]; [reflexivity|]. cbn [all_space PyStr.lstrip].
  intros H. apply andb_true_iff in H. destruct H as [-> H]. now apply IH.
Qed.

(** [strip] leaves nothing of a string of white space. *)
Lemma strip_all_space (s : string) : all_space s = true -> PyStr.strip s = EmptyString.
Proof. intros H. unfold PyStr.strip. now rewrite lstrip_all_space. Qed.

Section CoachProperties.

Variable datetime_str : datetime -> string.

(** X8. When the hosted call brings back a non-empty text,
    [generate_response] returns that text stripped of surrounding white
    space and does not fall back; a text of white space only therefore
    comes back as the empty string.  What is left of the text has ASCII
    characters at both ends, so that none of the white space Python knows
    outside ASCII (U+00A0, U+2028, ...) is there to strip. *)
Theorem generate_response_text (self : GeminiCoach) (message : string) (context_data : Dict)
    (m : GenerativeModel) (t : string) :
  enabled self = true -> model self = Some m ->
  generate_content m (create_coaching_prompt datetime_str self message context_data)
  = Ok (Some (Text (Some t))) ->
  PyStr.truthy t = true ->
  PyStr.ascii_ends (PyStr.strip t) = true ->
  generate_response datetime_str self message context_data = PyStr.strip t
  /\ (all_space t = true ->
      generate_response datetime_str self message context_data = EmptyString).
Proof.
  intros He Hm Hcall Ht _.
  assert (E : generate_response datetime_str self message context_data = PyStr.strip t).
  { unfold generate_response, try_generate. rewrite He, Hm. cbn [negb bind].
    rewrite Hcall. cbn [bind response_text]. now rewrite Ht. }
  split; [exact E|]. intros Hs. rewrite E. now apply strip_all_space.
Qed.

End CoachProperties.

Lemma generate_response_text_witness :
  generate_response sample_datetime_str blank_coach "Sales are slow" EmptyDict = EmptyString.
Proof.
  destruct (generate_response_text sample_datetime_str blank_coach "Sales are slow" EmptyDict
              blank_model ("  " +:+ nl +:+ nl) eq_refl eq_refl eq_refl eq_refl eq_refl)
    as [_ H].
  apply H. reflexivity.
Defined.

(** X9. A coach is enabled exactly when it was given a non-empty API key
    and configuring the client did not raise; an enabled coach has its
    model; a coach that is not enabled answers every message with the
    fallback reply. *)
Theorem GeminiCoach_init_enabled (key : option string) (configure : result GenerativeModel)
    (ideas research coach : string) :
  let self := GeminiCoach_init key configure ideas research coach in
  (enabled self = true <-> env_set key = true /\ exists m, configure = Ok m)
  /\ (enabled self = true -> exists m, configure = Ok m /\ model self = Some m)
  /\ (enabled self = false ->
      forall datetime_str message context_data,
        generate_response datetime_str self message context_data
        = fallback_response message context_data)
  /\ api_key self = key.
Proof.
  cbv zeta. unfold GeminiCoach_init, env_set.
  destruct key as [k|]; [destruct (PyStr.truthy k); [destruct configure as [m|e]|]|];
    cbn [enabled model api_key].
  - split; [split; [intros _; split; [reflexivity | now exists m] | reflexivity]|].
    split; [intros _; exists m; now split|]. split; [discriminate | reflexivity].
  - split; [split; [discriminate | intros [_ [m H]]; discriminate H]|].
    split; [discriminate|]. split; [reflexivity | reflexivity].
  - split; [split; [discriminate | intros [H _]; discriminate H]|].
    split; [discriminate|]. split; [reflexivity | reflexivity].
  - split; [split; [discriminate | intros [H _]; discriminate H]|].
    split; [discriminate|]. split; [reflexivity | reflexivity].
Qed.

(** X20. The two specialised agents never run the keyword fallback.  A
    disabled coach answers with a fixed notice, whatever the model would
    say; when the hosted call raises, returns nothing or returns no text,
    the answer is one of two fixed apologies of that agent. *)
Theorem agents_without_text (self : GeminiCoach) (context_data : Dict) (request : string) :
  (enabled self = false ->
     generate_business_ideas self context_data request
     = "💡 Gemini AI not available. Please add your API key for business idea generation."
     /\ conduct_market_research self context_data request
        = "📊 Gemini AI not available. Please add your API key for market research.")
  /\ (enabled self = true ->
      no_text (model self) (business_ideas_full_prompt self context_data request) = true ->
      In (generate_business_ideas self context_data request)
         [ "Unable to generate ideas at the moment.";
           "Unable to generate ideas at the moment. Please try again later." ])
  /\ (enabled self = true ->
      no_text (model self) (market_research_full_prompt self context_data request) = true ->
      In (conduct_market_research self context_data request)
         [ "Unable to complete research at the moment.";
           "Unable to complete research at the moment. Please try again later." ]).
Proof.
  split; [|split].
  - intros H. unfold generate_business_ideas, conduct_market_research. now rewrite H.
  - intros He Hno. unfold generate_business_ideas, ask_agent, no_text in *.
    rewrite He. cbn [negb]. destruct (model self) as [m|]; [|cbn; tauto]. cbn [bind].
    destruct (generate_content m _) as [[[[t|]|e]|]|e]; cbn [bind response_text];
      try (cbn; tauto).
    destruct (PyStr.truthy t); [discriminate Hno | cbn; tauto].
  - intros He Hno. unfold conduct_market_research, ask_agent, no_text in *.
    rewrite He. cbn [negb]. destruct (model self) as [m|]; [|cbn; tauto]. cbn [bind].
    destruct (generate_content m _) as [[[[t|]|e]|]|e]; cbn [bind response_text];
      try (cbn; tauto).
    destruct (PyStr.truthy t); [discriminate Hno | cbn; tauto].
Qed.

Lemma agents_without_text_witness :
  generate_business_ideas no_key_coach EmptyDict "AI tools"
  = "💡 Gemini AI not available. Please add your API key for business idea generation."
  /\ In (conduct_market_research failing_coach EmptyDict "fitness wearables")
        [ "Unable to complete research at the moment.";
          "Unable to complete research at the moment. Please try again later." ].
Proof.
  destruct (agents_without_text no_key_coach EmptyDict "AI tools") as (H1 & _ & _).
  destruct (agents_without_text failing_coach EmptyDict "fitness wearables") as (_ & _ & H3).
  split; [exact (proj1 (H1 eq_refl)) | exact (H3 eq_refl eq_refl)].
Defined.

(** ** The coaching prompt *)

Lemma contains_skip (w a s : string) :
  PyStr.contains w s = true -> PyStr.contains w (a +:+ s) = true.
Proof.
  rewrite !contains_app. intros (before & after & ->).
  exists (a +:+ before), after. now rewrite append_assoc.
Qed.

Lemma contains_quoted (message rest : string) :
  PyStr.contains (dquote +:+ message +:+ dquote)
    (dquote +:+ message +:+ dquote +:+ rest) = true.
Proof.
  apply contains_app. exists EmptyString, rest. now rewrite !append_assoc.
Qed.

Section PromptProperties.

Variable datetime_str : datetime -> string.

(** X12. The coaching prompt quotes the user's message in full, and of
    the recent activities it reads the first five only: activities beyond
    the fifth do not change it. *)
Theorem create_coaching_prompt_reads (self : GeminiCoach) (message : string)
    (d : Ctx.t) (acts : list Activity.t) :
  PyStr.contains (dquote +:+ message +:+ dquote)
    (create_coaching_prompt datetime_str self message (ContextDict d)) = true
  /\ PyStr.contains (dquote +:+ message +:+ dquote)
       (create_coaching_prompt datetime_str self message EmptyDict) = true
  /\ create_coaching_prompt datetime_str self message
       (ContextDict (with_recent_activities acts d))
     = create_coaching_prompt datetime_str self message
         (ContextDict (with_recent_activities (firstn 5 acts) d)).
Proof.
  split; [|split].
  - unfold create_coaching_prompt.
    repeat first [apply contains_quoted | apply contains_skip].
  - unfold create_coaching_prompt.
    repeat first [apply contains_quoted | apply contains_skip].
  - unfold create_coaching_prompt.
    cbn [dict_get dict_get_user with_recent_activities Ctx.user Ctx.recent_activities
         Ctx.active_goals Ctx.current_streak Ctx.execution_phase Ctx.total_activities
         Ctx.days_since_start].
    rewrite firstn_firstn. cbn [Nat.min].
    destruct acts as [|a acts]; reflexivity.
Qed.

End PromptProperties.

(** ** Handlers *)

Section HandlerProperties.

Variable datetime_str : datetime -> string.

(** X13. A free-text message never logs an activity or a goal: it leaves
    the sender with a user row and, when aggregation returns, adds one
    conversation row that holds the text, the tags of the classifier, the
    reply sent and the time; when aggregation raises, no conversation is
    added. *)
Theorem handle_message_store (self : ExecutionCoachBot) (db : Database) (clk : Clock)
    (update : Update) :
  let r := handle_message datetime_str self db clk update in
  user_exists (fst r) (TelegramUser.id (effective_user update)) = true
  /\ activities (fst r) = activities db
  /\ goals (fst r) = goals db
  /\ match snd r with
     | Ok replies =>
         exists c,
           conversations (fst r) = (conversations db ++ [c])%list
           /\ Conversation.user_id c = TelegramUser.id (effective_user update)
           /\ Conversation.message_text c = message_text update
           /\ Conversation.context_tags c = analyze_message_context (message_text update)
           /\ Conversation.timestamp c = utcnow clk
           /\ replies = [Conversation.bot_response c]
     | Raise _ => conversations (fst r) = conversations db
     end.
Proof.
  cbv zeta. unfold handle_message.
  assert (Hsame : activities (fst (get_or_create_user db clk (effective_user update)))
                  = activities db
                  /\ goals (fst (get_or_create_user db clk (effective_user update)))
                     = goals db
                  /\ conversations (fst (get_or_create_user db clk (effective_user update)))
                     = conversations db).
  { unfold get_or_create_user. destruct (first _); cbn; repeat split; reflexivity. }
  pose proof (first_get_or_create_user db clk (effective_user update)) as Hfirst.
  destruct (get_or_create_user db clk (effective_user update)) as [db1 u].
  cbn [fst snd] in *. destruct Hsame as (Ha & Hg & Hc).
  assert (Hex : user_exists db1 (TelegramUser.id (effective_user update)) = true)
    by (apply user_exists_first_some; eexists; exact Hfirst).
  destruct (get_user_data db1 clk _) as [[context_data user_context]|e]; cbn [fst snd].
  - repeat split; try assumption.
    eexists. cbn [conversations add_conversation]. rewrite Hc.
    split; [reflexivity|]. cbn. repeat split.
  - repeat split; assumption.
Qed.

(** X23. With a coach that falls back, [/stuck] always answers with the
    procrastination template, filled in from the context aggregated
    before the blocker was logged. *)
Theorem handle_stuck_fallback (self : ExecutionCoachBot) (db : Database) (clk : Clock)
    (update : Update) (context_data : Dict) (user_context : UserContext) :
  falls_back (gemini_coach self) ->
  get_user_data db clk (UserContext_init (TelegramUser.id (effective_user update)))
  = Ok (context_data, user_context) ->
  snd (handle_stuck datetime_str self db clk update)
  = Ok ["🚨 Stuck Alert Activated!" +:+ nl +:+ nl
        +:+ bucket_reply Procrastination context_data].
Proof.
  intros Hfb Hget. unfold handle_stuck. rewrite Hget.
  destruct (log_activity db clk user_context _ _ _ _ _) as [db1 uc1]. cbn [snd].
  rewrite (generate_response_falls_back datetime_str _ _ _ Hfb), fallback_response_bucket.
  rewrite select_bucket_first by (vm_compute; reflexivity). reflexivity.
Qed.

End HandlerProperties.

Lemma handle_stuck_fallback_witness :
  snd (handle_stuck sample_datetime_str (bot_of no_key_coach) alice_db
         (utc_clock (noon june15)) (command_update alice []))
  = Ok ["🚨 Stuck Alert Activated!" +:+ nl +:+ nl
        +:+ procrastination_reply
              (Some (new_user empty_db (utc_clock (noon (june15 - 14))) alice))
              0 "planning"].
Proof.
  rewrite (handle_stuck_fallback sample_datetime_str (bot_of no_key_coach) alice_db
             (utc_clock (noon june15)) (command_update alice []) _ _
             no_key_coach_falls_back eq_refl).
  reflexivity.
Defined.

(** X24. The message [/win] hands to the coach always signals the
    celebration bucket, whatever the description: a fallback reply to
    [/win] is never the general template. *)
Theorem celebration_message_not_general (description : string) :
  signals Celebration (celebration_message description) = true
  /\ select_bucket (celebration_message description) <> General.
Proof.
  pose proof (celebration_signalled description) as Hc. split; [exact Hc|].
  unfold select_bucket. cbn [List.find].
  destruct (signals Procrastination _); [discriminate|].
  destruct (signals Impatience _); [discriminate|].
  rewrite Hc. discriminate.
Qed.

(** ** Profile commands *)

(** X11. [/phase] with a word that is not one of the four phases, in
    any letter case, changes nothing and answers with the list of valid
    phases; with a valid word and a sender who has a row, the row of the
    sender gets the lower-cased phase and the rows of every other identity
    stay as they were. *)
Theorem set_phase_outcome (db : Database) (update : Update) (arg0 : string)
    (rest : list string) :
  args update = arg0 :: rest ->
  (~ In (PyStr.lower arg0) valid_phases ->
   set_phase db update = (db, Ok ["Valid phases: planning, validation, mvp, traction"]))
  /\ (In (PyStr.lower arg0) valid_phases ->
      forall u,
        first (users_by_telegram_id db (TelegramUser.id (effective_user update))) = Some u ->
        first (users_by_telegram_id (fst (set_phase db update))
                 (TelegramUser.id (effective_user update)))
        = Some (with_phase (PyStr.lower arg0) u)
        /\ (forall uid, uid <> TelegramUser.id (effective_user update) ->
              users_by_telegram_id (fst (set_phase db update)) uid
              = users_by_telegram_id db uid)).
Proof.
  intros Hargs. unfold set_phase. rewrite Hargs. split.
  - intros Hnot. destruct (existsb _ valid_phases) eqn:E; [|reflexivity].
    exfalso. apply Hnot. now apply existsb_eqb_In.
  - intros Hin u Hu.
    assert (E : existsb (String.eqb (PyStr.lower arg0)) valid_phases = true).
    { apply existsb_exists. exists (PyStr.lower arg0). split; [exact Hin|].
      apply String.eqb_refl. }
    rewrite E, Hu. cbn [fst]. unfold users_by_telegram_id in *. cbn [users set_users].
    split.
    + rewrite first_update_first by (intros r Hr; exact Hr). now rewrite Hu.
    + intros uid Hne. apply filter_update_first_other. intros r Hr.
      apply Z.eqb_eq in Hr. cbn [with_phase User.telegram_id]. rewrite Hr.
      split; apply Z.eqb_neq; congruence.
Qed.

Lemma set_phase_outcome_witness :
  set_phase alice_db (command_update alice ["somethingwrong"])
  = (alice_db, Ok ["Valid phases: planning, validation, mvp, traction"])
  /\ map User.execution_phase (users (fst (set_phase alice_db (command_update alice ["MVP"]))))
     = ["mvp"].
Proof.
  destruct (set_phase_outcome alice_db (command_update alice ["somethingwrong"])
              "somethingwrong" [] eq_refl) as [Hbad _].
  split.
  - apply Hbad. vm_compute. intuition discriminate.
  - vm_compute. reflexivity.
Defined.

(** X14. After [/idea] from a sender who has a row, a fresh aggregation
    for the sender shows the words of the command, joined by single
    spaces, as the current business idea; the rows of every other
    identity stay as they were. *)
Theorem set_business_idea_then_aggregate (db : Database) (update : Update) (u : User.t) :
  args update <> [] ->
  first (users_by_telegram_id db (TelegramUser.id (effective_user update))) = Some u ->
  first (users_by_telegram_id (fst (set_business_idea db update))
           (TelegramUser.id (effective_user update)))
  = Some (with_idea (PyStr.join " " (args update)) u)
  /\ (forall uid, uid <> TelegramUser.id (effective_user update) ->
        users_by_telegram_id (fst (set_business_idea db update)) uid
        = users_by_telegram_id db uid)
  /\ (forall clk d uc,
        get_user_data (fst (set_business_idea db update)) clk
          (UserContext_init (TelegramUser.id (effective_user update)))
        = Ok (ContextDict d, uc) ->
        User.current_business_idea (Ctx.user d) = Some (PyStr.join " " (args update))).
Proof.
  intros Hargs Hu.
  assert (Hfirst : first (users_by_telegram_id (fst (set_business_idea db update))
                            (TelegramUser.id (effective_user update)))
                   = Some (with_idea (PyStr.join " " (args update)) u)).
  { unfold set_business_idea. destruct (args update) as [|a l] eqn:Ea; [congruence|].
    rewrite Hu. cbn [fst]. unfold users_by_telegram_id in *. cbn [users set_users].
    rewrite first_update_first by (intros r Hr; exact Hr). now rewrite Hu. }
  split; [exact Hfirst|]. split.
  - intros uid Hne. unfold set_business_idea.
    destruct (args update) as [|a l]; [congruence|]. rewrite Hu. cbn [fst].
    unfold users_by_telegram_id. cbn [users set_users].
    apply filter_update_first_other. intros r Hr.
    apply Z.eqb_eq in Hr. cbn [with_idea User.telegram_id]. rewrite Hr.
    split; apply Z.eqb_neq; congruence.
  - intros clk d uc Hget.
    destruct (get_user_data_parts _ clk (UserContext_init _) d uc eq_refl Hget) as (Hd & _).
    cbn [UserContext_init user_id] in Hd. rewrite Hfirst in Hd.
    injection Hd as <-. reflexivity.
Qed.

Lemma set_business_idea_then_aggregate_witness :
  first (users_by_telegram_id
           (fst (set_business_idea alice_db (command_update alice ["Solar"; "kiosks"])))
           (TelegramUser.id alice))
  = Some (with_idea "Solar kiosks"
            (new_user empty_db (utc_clock (noon (june15 - 14))) alice)).
Proof.
  exact (proj1 (set_business_idea_then_aggregate alice_db
                  (command_update alice ["Solar"; "kiosks"])
                  (new_user empty_db (utc_clock (noon (june15 - 14))) alice)
                  ltac:(discriminate) eq_refl)).
Defined.

(** ** Long replies *)

Lemma firstn_add_skipn {A} (a b : nat) (l : list A) :
  firstn (a + b) l = (firstn a l ++ firstn b (skipn a l))%list.
Proof.
  revert l. induction a as [|a IH]; intros l; [reflexivity|].
  destruct l as [|x l]; cbn [Nat.add firstn skipn app].
  - now rewrite firstn_nil.
  - now rewrite IH.
Qed.

Lemma concat_slices {A} (step : nat) (l : list A) (m : nat) :
  concat (map (fun i => slice i step l) (map (fun k => Nat.mul k step) (seq 0 m)))
  = firstn (Nat.mul m step) l.
Proof.
  induction m as [|m IH]; [reflexivity|].
  rewrite seq_S, !map_app, concat_app, IH. cbn [map concat Nat.add].
  rewrite app_nil_r. unfold slice.
  replace (Nat.mul (S m) step) with (Nat.add (Nat.mul m step) step) by lia.
  now rewrite firstn_add_skipn.
Qed.

Lemma range_step_covers (stop step : nat) :
  (0 < step)%nat ->
  (stop <= Nat.mul (Nat.div (Nat.add stop step - 1) step) step)%nat
  /\ forall i, In i (range_step stop step) -> (i < stop)%nat.
Proof.
  intros Hstep.
  pose proof (Nat.div_mod_eq (Nat.add stop step - 1) step) as Hdiv.
  pose proof (Nat.mod_upper_bound (Nat.add stop step - 1) step ltac:(lia)) as Hmod.
  split; [nia|].
  intros i Hi. unfold range_step in Hi. apply in_map_iff in Hi.
  destruct Hi as (k & <- & Hk). apply in_seq in Hk. nia.
Qed.

(** X15. The pieces a long reply is cut into are the reply when put
    together again in order; no piece has more than 4000 characters, and
    when the reply is not empty no piece is empty. *)
Theorem split_long_parts {A} (final_response : list A) :
  concat (split_long final_response) = final_response
  /\ Forall (fun part => (length part <= 4000)%nat) (split_long final_response)
  /\ (final_response <> [] -> Forall (fun part => part <> []) (split_long final_response)).
Proof.
  unfold split_long.
  destruct (Nat.ltb_spec 4000 (length final_response)) as [Hlong|Hshort].
  - destruct (range_step_covers (length final_response) 4000 ltac:(lia)) as (Hcover & Hbelow).
    split; [|split].
    + unfold range_step. rewrite concat_slices. now apply firstn_all2.
    + apply List.Forall_forall. intros part Hp. apply in_map_iff in Hp.
      destruct Hp as (i & <- & _). unfold slice. rewrite length_firstn. lia.
    + intros _. apply List.Forall_forall. intros part Hp. apply in_map_iff in Hp.
      destruct Hp as (i & <- & Hi). apply Hbelow in Hi. intros Hnil.
      apply (f_equal (@length A)) in Hnil. unfold slice in Hnil.
      rewrite length_firstn, length_skipn in Hnil. cbn [length] in Hnil. lia.
  - split; [|split].
    + cbn [concat]. now rewrite app_nil_r.
    + constructor; [exact Hshort | constructor].
    + intros Hne. constructor; [exact Hne | constructor].
Qed.

(** ** Configuration *)

Lemma substring_all (s : string) : String.substring 0 (String.length s) s = s.
Proof. induction s as [|c s IH]; cbn; [reflexivity | now rewrite IH]. Qed.

Lemma substring_after (a b : string) :
  String.substring (String.length a) (String.length (a +:+ b) - String.length a) (a +:+ b) = b.
Proof.
  induction a as [|c a IH].
  - change (EmptyString +:+ b) with b. cbn [String.length]. rewrite Nat.sub_0_r.
    apply substring_all.
  - rewrite append_cons. cbn [String.length String.substring Nat.sub]. exact IH.
Qed.

Lemma replace_first_prefix (old new rest : string) :
  replace_first old new (old +:+ rest) = new +:+ rest.
Proof.
  assert (Hp : String.prefix old (old +:+ rest) = true) by (apply prefix_app; now exists rest).
  destruct (old +:+ rest) as [|c s] eqn:E; cbn [replace_first]; rewrite Hp, <- E;
    now rewrite substring_after.
Qed.

Lemma prefix_app_inv (a b c : string) : a +:+ b = a +:+ c -> b = c.
Proof.
  induction a as [|x a IH]; [auto|]. rewrite !append_cons. intros [= E]. auto.
Qed.

(** X16. A database address that starts with [postgres://] is stored with
    the scheme [postgresql://] and the rest unchanged; any other address is
    stored as it is; a stored address never starts with [postgres://]; and
    the start-up check passes exactly when the token and the database
    address are set to non-empty values, whether or not the API key is. *)
Theorem RenderConfig_init_database_url (port : Z) (getenv : string -> option string) :
  let config := RenderConfig_init port getenv in
  (forall rest, getenv "DATABASE_URL" = Some ("postgres://" +:+ rest) ->
                DATABASE_URL config = Some ("postgresql://" +:+ rest))
  /\ (forall url, getenv "DATABASE_URL" = Some url -> String.prefix "postgres://" url = false ->
                  DATABASE_URL config = Some url)
  /\ (forall url, DATABASE_URL config = Some url -> String.prefix "postgres://" url = false)
  /\ (validate config = Validated
      <-> env_set (getenv "TELEGRAM_TOKEN") = true /\ env_set (getenv "DATABASE_URL") = true).
Proof.
  cbv zeta. unfold RenderConfig_init, validate. cbn [DATABASE_URL TELEGRAM_TOKEN].
  destruct (getenv "DATABASE_URL") as [url|].
  - destruct (String.prefix "postgres://" url) eqn:Hp.
    + apply prefix_app in Hp. destruct Hp as [rest ->].
      rewrite andb_true_r, replace_first_prefix.
      assert (Ht : PyStr.truthy ("postgres://" +:+ rest) = true) by reflexivity.
      rewrite Ht. split; [|split; [|split]].
      * intros rest' E. assert (E' : "postgres://" +:+ rest = "postgres://" +:+ rest')
          by congruence.
        apply prefix_app_inv in E'. now rewrite E'.
      * intros url' [= <-] Hp. apply not_true_iff_false in Hp. exfalso. apply Hp.
        apply prefix_app. now exists rest.
      * intros url' [= <-]. reflexivity.
      * destruct (env_set (getenv "TELEGRAM_TOKEN")); cbn; split; try discriminate; auto.
        intros [H _]. discriminate H.
    + rewrite andb_false_r. split; [|split; [|split]].
      * intros rest E. assert (E' : url = "postgres://" +:+ rest) by congruence.
        apply not_true_iff_false in Hp. exfalso. apply Hp.
        apply prefix_app. now exists rest.
      * intros url' [= <-] _. reflexivity.
      * intros url' [= <-]. exact Hp.
      * destruct (env_set (getenv "TELEGRAM_TOKEN")); cbn [negb];
          destruct (env_set (Some url)); cbn [negb]; split; try discriminate; auto.
        -- intros [_ H]. discriminate H.
        -- intros [H _]. discriminate H.
        -- intros [H _]. discriminate H.
  - split; [|split; [|split]]; try discriminate.
    destruct (env_set (getenv "TELEGRAM_TOKEN")); cbn; split; try discriminate.
    + intros [_ H]. discriminate H.
    + intros [H _]. discriminate H.
Qed.

(** ** Reading commands and the daily check-in *)

(** X22. [/progress] never writes to the store, and a sender without a
    [User] row is shown a streak, a total and a number of days of 0, the
    phase [Not set] and no activities. *)
Theorem show_progress_unknown_user (db : Database) (clk : Clock) (update : Update) :
  fst (show_progress db clk update) = db
  /\ (user_exists db (TelegramUser.id (effective_user update)) = false ->
      snd (show_progress db clk update)
      = Ok ["
📊 **Your Execution Progress**

🔥 Current streak: **0 days**
📈 Total actions: **0**
📅 Days as entrepreneur: **0**
🚀 Phase: **Not set**

**Recent Activities:**
• No recent activities logged

💪 Keep building momentum! Every action counts."]).
Proof.
  split.
  - unfold show_progress.
    destruct (get_user_data db clk _) as [[context_data user_context]|e]; reflexivity.
  - intros Hnone. apply user_exists_first in Hnone.
    unfold show_progress, get_user_data. cbn [UserContext_init _user_data user_id].
    rewrite Hnone. reflexivity.
Qed.

Lemma show_progress_unknown_user_witness :
  exists text, snd (show_progress empty_db (utc_clock (noon june15)) (command_update alice []))
               = Ok [text].
Proof.
  eexists.
  exact (proj2 (show_progress_unknown_user empty_db (utc_clock (noon june15))
                  (command_update alice [])) eq_refl).
Defined.

(** X17. The daily check-in text of a user of the table whose activities
    are dated after [date.min] is always produced: neither subscript of
    the context raises.  It greets the user by the first name of the row
    at hand and shows the streak and the phase of the first row with the
    Telegram identity of the user. *)
Theorem checkin_msg_returns (db : Database) (clk : Clock) (user : User.t) :
  In user (users db) ->
  dated_after_min db (User.telegram_id user) ->
  exists streak row,
    calculate_streak db clk (UserContext_init (User.telegram_id user)) = Ok streak
    /\ first (users_by_telegram_id db (User.telegram_id user)) = Some row
    /\ checkin_msg db clk user
       = Ok ("
🌅 **Daily Check-in Time!** 

Hey " +:+ User.first_name user +:+ "! 

Current streak: **" +:+ PyStr.of_int streak +:+ " days**
Phase: **" +:+ PyStr.upper (User.execution_phase row) +:+ "**

What's your 5-minute action for today? Even tiny progress counts in the "
             +:+ User.execution_phase row +:+ " phase!

Reply with what you accomplished or use /stuck if you're feeling blocked. 💪
                    ").
Proof.
  intros Hin Hmin.
  assert (Hex : user_exists db (User.telegram_id user) = true).
  { unfold user_exists. apply existsb_exists. exists user. split; [exact Hin|].
    apply Z.eqb_refl. }
  apply user_exists_first_some in Hex. destruct Hex as [row Hrow].
  destruct (calculate_streak_run db clk (UserContext_init (User.telegram_id user)) Hmin)
    as (streak & Hstreak & _).
  exists streak, row. split; [exact Hstreak|]. split; [exact Hrow|].
  unfold checkin_msg, get_user_data. cbn [UserContext_init _user_data user_id] in *.
  rewrite Hrow, Hstreak. reflexivity.
Qed.

Lemma checkin_msg_returns_witness :
  exists text,
    checkin_msg alice_db (utc_clock (noon june15))
      (new_user empty_db (utc_clock (noon (june15 - 14))) alice)
    = Ok text.
Proof.
  destruct (checkin_msg_returns alice_db (utc_clock (noon june15))
              (new_user empty_db (utc_clock (noon (june15 - 14))) alice))
    as (streak & row & _ & _ & Htext).
  - left. reflexivity.
  - intros a Ha. destruct Ha.
  - eexists. exact Htext.
Defined.

(** ** Starting *)

(** X25. [/start] leaves the sender with a row.  A sender without a row
    is welcomed by the first name Telegram reports; for a sender who has
    one, [last_active] is committed and reading [user.first_name]
    afterwards raises, so no welcome is sent. *)
Theorem start_command_outcome (db : Database) (clk : Clock) (update : Update) :
  user_exists (fst (start_command db clk update)) (TelegramUser.id (effective_user update))
  = true
  /\ (user_exists db (TelegramUser.id (effective_user update)) = true ->
      snd (start_command db clk update) = Raise DetachedInstanceError
      /\ exists user,
           first (users_by_telegram_id db (TelegramUser.id (effective_user update)))
           = Some user
           /\ first (users_by_telegram_id (fst (start_command db clk update))
                       (TelegramUser.id (effective_user update)))
              = Some (touch clk user))
  /\ (user_exists db (TelegramUser.id (effective_user update)) = false ->
      exists welcome_msg,
        snd (start_command db clk update) = Ok [welcome_msg]
        /\ PyStr.contains ("Welcome to your AI Execution Coach, "
                           +:+ TelegramUser.first_name (effective_user update) +:+ "!")
             welcome_msg = true).
Proof.
  pose proof (first_get_or_create_user db clk (effective_user update)) as Hfirst.
  unfold start_command.
  destruct (get_or_create_user db clk (effective_user update)) as [db1 user] eqn:Hget.
  cbn [fst snd] in *. split; [|split].
  - apply user_exists_first_some. eexists. exact Hfirst.
  - intros Hex. apply user_exists_first_some in Hex. destruct Hex as [row Hrow].
    unfold get_or_create_user in Hget. rewrite Hrow in Hget, Hfirst.
    injection Hget as _ <-. split; [reflexivity|]. exists row. split; [exact Hrow|].
    exact Hfirst.
  - intros Hnew. apply user_exists_first in Hnew.
    unfold get_or_create_user in Hget. rewrite Hnew in Hget. injection Hget as _ <-.
    cbn [attribute bind new_user User.first_name]. eexists. split; [reflexivity|].
    apply contains_app. exists "
🚀 ". eexists. rewrite !append_assoc. reflexivity.
Qed.
